(** * A verification model of the [llms] dispatcher (kagisearch/llms)

    The development embeds [src/llms/llms.py] (the [Result] envelope and the
    [LLMS] dispatcher with its benchmark) and the model table of
    [src/llms/providers/openai.py], and proves the properties its
    specification states about them.

    Python values are modelled as follows.
    - [str] is [string]: a sequence of characters with code points below 256.
    - [int] is [Z]; [float] is the kernel's binary64 [float], whose
      operations are the IEEE 754 ones Python uses.
    - A raised exception is the [Raise] case of [result]; statements run in
      sequence through the bind of that monad.
    - A [dict] whose iteration order matters is an association list. *)

From Stdlib Require Import ZArith List String Ascii Floats Lia Bool DecimalString.
From Stdlib Require Import Sorting.Sorted Sorting.Permutation.
From stdpp Require Import base option list sorting gmap strings.

Local Open Scope Z_scope.

(** * Python runtime *)

Module Py.

(** ** Exceptions *)

Inductive exn_class : Set :=
| ValueError
| NotImplementedError
| IndexError
| NameError
| KeyError
| AttributeError
| ZeroDivisionError
| OverflowError
| StatisticsError.

(** The arguments are those of the [raise] statements of the source. Of
    the exceptions the interpreter raises, only [NameError] carries its
    message here. *)
Record exn : Type := Exn { exn_cls : exn_class; exn_args : list string }.

Inductive result (A : Type) : Type :=
| Ok (a : A)
| Raise (e : exn).
Arguments Ok {A} a.
Arguments Raise {A} e.

#[export] Instance result_ret : MRet result := fun A a => Ok a.
#[export] Instance result_bind : MBind result := fun A B f m =>
  match m with
  | Ok a => f a
  | Raise e => Raise e
  end.
#[export] Instance result_fmap : FMap result := fun A B f m =>
  match m with
  | Ok a => Ok (f a)
  | Raise e => Raise e
  end.

Definition is_ok {A} (m : result A) : bool :=
  match m with Ok _ => true | Raise _ => false end.

(** [for x in l: acc = body(acc, x)], stopping at the first exception. *)
Fixpoint for_each {A S} (body : S -> A -> result S) (l : list A) (acc : S)
  : result S :=
  match l with
  | [] => Ok acc
  | x :: l' =>
      match body acc x with
      | Ok acc' => for_each body l' acc'
      | Raise e => Raise e
      end
  end.

(** [[f(x) for x in l]], stopping at the first exception. *)
Fixpoint comprehension {A B} (f : A -> result B) (l : list A)
  : result (list B) :=
  match l with
  | [] => Ok []
  | x :: l' =>
      match f x with
      | Ok y =>
          match comprehension f l' with
          | Ok ys => Ok (y :: ys)
          | Raise e => Raise e
          end
      | Raise e => Raise e
      end
  end.

(** [l[i]] for a list and [0 <= i]. *)
Definition getitem {A} (l : list A) (i : nat) : result A :=
  match l !! i with
  | Some x => Ok x
  | None => Raise (Exn IndexError [])
  end.

(** ** Strings *)

Definition code (c : ascii) : N := N_of_ascii c.

(** [str.isspace] on one character (code points below 256). *)
Definition isspace (c : ascii) : bool :=
  let n := code c in
  ((9 <=? n) && (n <=? 13) || (28 <=? n) && (n <=? 32)
   || (n =? 133) || (n =? 160))%N.

(** [str.lower] on one character (code points below 256). *)
Definition lower_char (c : ascii) : ascii :=
  let n := code c in
  if ((65 <=? n) && (n <=? 90)
      || (192 <=? n) && (n <=? 222) && negb (n =? 215))%N
  then ascii_of_N (n + 32) else c.

Fixpoint lower (s : string) : string :=
  match s with
  | EmptyString => EmptyString
  | String c s' => String (lower_char c) (lower s')
  end.

(** [s.lstrip()], [s.rstrip()] and [s.strip()] without argument. *)
Fixpoint lstrip (s : string) : string :=
  match s with
  | EmptyString => EmptyString
  | String c s' => if isspace c then lstrip s' else s
  end.

Fixpoint rstrip (s : string) : string :=
  match s with
  | EmptyString => EmptyString
  | String c s' =>
      match rstrip s' with
      | EmptyString => if isspace c then EmptyString else String c EmptyString
      | r => String c r
      end
  end.

Definition strip (s : string) : string := rstrip (lstrip s).

(** [s.split(sep)] for a one-character separator: never an empty list. *)
Fixpoint split (sep : ascii) (s : string) : list string :=
  match s with
  | EmptyString => [EmptyString]
  | String c s' =>
      if Ascii.eqb c sep then EmptyString :: split sep s'
      else match split sep s' with
           | field :: fields => String c field :: fields
           | [] => [String c EmptyString]
           end
  end.

(** [a in b] for strings: [a] occurs in [b] as a contiguous substring. *)
Fixpoint contains (b a : string) : bool :=
  String.prefix a b ||
  match b with
  | EmptyString => false
  | String _ b' => contains b' a
  end.

(** [str(n)] for an [int]. *)
Definition str_of_int (z : Z) : string :=
  NilEmpty.string_of_int (Z.to_int z).

(** ** [int(s)] for a string, base 10

    The literal is an optional sign, then decimal digits with single
    underscores between them, within optional whitespace. More than
    [int_max_str_digits] digits are refused. *)

Definition isspace_int (c : ascii) : bool :=
  let n := code c in
  ((9 <=? n) && (n <=? 13) || (n =? 32) || (n =? 133) || (n =? 160))%N.

Fixpoint skip_space (s : string) : string :=
  match s with
  | EmptyString => EmptyString
  | String c s' => if isspace_int c then skip_space s' else s
  end.

Definition isdigit (c : ascii) : bool :=
  let n := code c in ((48 <=? n) && (n <=? 57))%N.

Definition digit_value (c : ascii) : Z := Z.of_N (code c) - 48.

Definition int_max_str_digits : nat := 4300.

(** The scan over digits and underscores: the value read, the number of
    digits, and the rest of the string; [None] on a doubled or trailing
    underscore. *)
Fixpoint scan_digits (s : string) (prev_underscore : bool) (acc : Z)
    (ndigits : nat) : option (Z * nat * string) :=
  match s with
  | String c s' =>
      if isdigit c then
        scan_digits s' false (10 * acc + digit_value c) (S ndigits)
      else if Ascii.eqb c "_" then
        if prev_underscore then None else scan_digits s' true acc ndigits
      else if prev_underscore then None else Some (acc, ndigits, s)
  | EmptyString =>
      if prev_underscore then None else Some (acc, ndigits, s)
  end.

Definition invalid_literal : exn := Exn ValueError [].

(** The literal after its sign. *)
Definition int_of_unsigned (negative : bool) (s : string) : result Z :=
  match s with
  | String "_" _ => Raise invalid_literal
  | _ =>
      match scan_digits s false 0 0 with
      | None => Raise invalid_literal
      | Some (v, ndigits, rest) =>
          if (ndigits =? 0)%nat then Raise invalid_literal
          else if negb (String.eqb (skip_space rest) EmptyString)
          then Raise invalid_literal
          else if (int_max_str_digits <? ndigits)%nat
          then Raise invalid_literal
          else Ok (if negative then - v else v)
      end
  end.

Definition int_of_str (s : string) : result Z :=
  match skip_space s with
  | String "+" s' => int_of_unsigned false s'
  | String "-" s' => int_of_unsigned true s'
  | s' => int_of_unsigned false s'
  end.


(** ** Numbers *)

(** [float(n)] for an [int]: rounded to nearest, ties to even;
    [OverflowError] when the result is not finite. *)
Definition float_of_int (z : Z) : result float :=
  match binary_normalize prec emax z 0 false with
  | S754_infinity _ => Raise (Exn OverflowError [])
  | sf => Ok (SF2Prim sf)
  end.

(** [a / b] on floats. *)
Definition truediv (a b : float) : result float :=
  if (b =? 0)%float then Raise (Exn ZeroDivisionError [])
  else Ok (a / b)%float.

(** [n / b] for an [int] [n] and a float [b]: the operand is converted
    before the divisor is tested. *)
Definition truediv_int_float (n : Z) (b : float) : result float :=
  a ← float_of_int n; truediv a b.

(** [a / n] for a float [a] and an [int] [n]. *)
Definition truediv_float_int (a : float) (n : Z) : result float :=
  b ← float_of_int n; truediv a b.

(** [a * n] for a float [a] and an [int] [n]. *)
Definition mul_float_int (a : float) (n : Z) : result float :=
  b ← float_of_int n; Ok (a * b)%float.

(** [sum(l)] for a list of [int]. *)
Definition sum_int (l : list Z) : Z := fold_left Z.add l 0.

(** [acc = 0; for x in l: acc += x] on floats: the first addition turns the
    [int] zero into [0.0]. *)
Definition accumulate (l : list float) : float :=
  fold_left PrimFloat.add l 0%float.

(** ** [sorted]

    [sorted] compares with [<] only and is stable. It computes every key
    before it compares any; with [reverse=True] it reverses the list before
    and after sorting, which keeps equal keys in their original order. On
    keys that [<] orders totally, every stable sort returns the same list;
    the insertion sort below stands for the library's. *)
Section Sorting.
Context {A K : Type} (lt : K -> K -> bool).

Fixpoint insort (x : K * A) (l : list (K * A)) : list (K * A) :=
  match l with
  | [] => [x]
  | y :: l' => if lt x.1 y.1 then x :: l else y :: insort x l'
  end.

Definition sort_decorated (l : list (K * A)) : list (K * A) :=
  fold_left (fun acc x => insort x acc) l [].

Definition sort_keyed (reverse : bool) (decorated : list (K * A)) : list A :=
  snd <$> (if reverse
           then list.reverse
                  (sort_decorated (list.reverse decorated))
           else sort_decorated decorated).

(** [a] may stand before [b] in ascending order: [b] is not below [a]. *)
Definition not_above (a b : K * A) : Prop := lt b.1 a.1 = false.

(** [a] may stand before [b] in descending order: [a] is not below [b]. *)
Definition not_below (a b : K * A) : Prop := lt a.1 b.1 = false.

(** The order [sorted] leaves the decorated list in. *)
Definition in_order (reverse : bool) (decorated : list (K * A)) : Prop :=
  if reverse then Sorted not_below decorated else Sorted not_above decorated.

(** [sorted(l, key=key, reverse=reverse)] for a key that cannot raise. *)
Definition sorted (key : A -> K) (reverse : bool) (l : list A) : list A :=
  sort_keyed reverse (zip (key <$> l) l).

(** The same for a key that can raise. *)
Definition sorted_raising (key : A -> result K) (reverse : bool) (l : list A)
  : result (list A) :=
  keys ← comprehension key l;
  Ok (sort_keyed reverse (zip keys l)).
End Sorting.

(** Two keys tie when [<] puts neither below the other. *)
Definition tie {K} (lt : K -> K -> bool) (a b : K) : bool :=
  negb (lt a b) && negb (lt b a).

(** ** [statistics.median] *)

(** The median, in words: the middle value of the data put in order, or
    the mean of the two middle values of an even number of data. *)
Definition is_median (data : list float) (m : float) : Prop :=
  exists ordered,
    ordered ≡ₚ data /\
    Sorted (fun a b => (b <? a)%float = false) ordered /\
    let n := length data in
    if Nat.odd n then ordered !! (n / 2)%nat = Some m
    else exists a b,
        ordered !! (n / 2 - 1)%nat = Some a /\
        ordered !! (n / 2)%nat = Some b /\
        m = ((a + b) / 2)%float.

Definition median (data : list float) : result float :=
  let data := sorted PrimFloat.ltb (fun x => x) false data in
  let n := length data in
  if (n =? 0)%nat then Raise (Exn StatisticsError [])
  else if (n mod 2 =? 1)%nat then getitem data (n / 2)
  else
    let i := (n / 2)%nat in
    a ← getitem data (i - 1);
    b ← getitem data i;
    truediv_float_int (a + b)%float 2.

End Py.

(** * Provider adapters *)

Module Providers.
Import Py.

(** The three adapter classes [llms.py] imports. *)
Inductive family : Set :=
| OpenAIProvider
| AnthropicProvider
| AI21Provider.

#[export] Instance family_eq_dec : EqDecision family.
Proof. solve_decision. Defined.

(** [provider.__name__] *)
Definition class_name (f : family) : string :=
  match f with
  | OpenAIProvider => "OpenAIProvider"
  | AnthropicProvider => "AnthropicProvider"
  | AI21Provider => "AI21Provider"
  end.

(** One value of a [MODEL_INFO] table; the cost is per million tokens. *)
Record model_info : Set := ModelInfo {
  prompt : float;
  completion : float;
  token_limit : Z;
  is_chat : bool;
  output_limit : option Z;
  use_max_completion_tokens : bool
}.

(** [OpenAIProvider.MODEL_INFO], in the order of the dict literal. The
    decimal literals denote the nearest binary64 value, as they do in Python. *)
#[local] Set Warnings "-inexact-float".
Definition OpenAI_MODEL_INFO : list (string * model_info) :=
  [ ("gpt-3.5-turbo", ModelInfo 2.0 2.0 16385 true (Some 4096) false);
    ("gpt-3.5-turbo-instruct", ModelInfo 2.0 2.0 4096 false None false);
    ("gpt-4", ModelInfo 30.0 60.0 8192 true None false);
    ("gpt-4-turbo", ModelInfo 10.0 30.0 128000 true (Some 4096) false);
    ("gpt-4o", ModelInfo 2.5 10.0 128000 true (Some 4096) false);
    ("gpt-4o-mini", ModelInfo 0.15 0.60 128000 true (Some 4096) false);
    ("o1-preview", ModelInfo 15.0 60.0 128000 true (Some 4096) true);
    ("o1-mini", ModelInfo 3.0 12.0 128000 true (Some 4096) true);
    ("o1", ModelInfo 15.0 60.0 200000 true (Some 100000) true) ]%string.

(** The tables of the two adapters whose files are not part of the embedded
    sources. *)
Class Tables : Type := {
  Anthropic_MODEL_INFO : list (string * model_info);
  AI21_MODEL_INFO : list (string * model_info)
}.

Definition MODEL_INFO `{Tables} (f : family) : list (string * model_info) :=
  match f with
  | OpenAIProvider => OpenAI_MODEL_INFO
  | AnthropicProvider => Anthropic_MODEL_INFO
  | AI21Provider => AI21_MODEL_INFO
  end.

(** [key in table] *)
Definition has_key {V} (key : string) (table : list (string * V)) : bool :=
  existsb (String.eqb key) (table.*1).

(** An adapter instance, as [__init__] builds it:
    [OpenAIProvider(api_key=..., model=...)]. *)
Record provider : Set := Provider {
  provider_class : family;
  api_key : string;
  model : string
}.

#[export] Instance provider_eq_dec : EqDecision provider.
Proof. solve_decision. Defined.

End Providers.

(** * External collaborators

    What [llms.py] calls and the embedded sources do not define: the adapter
    calls, [markdown2.markdown], the rendering of a float with a fixed
    number of decimals, and the table's HTML form. *)

Module Collaborators.
Import Py Providers.

(** [response["meta"]] as an adapter returns it. *)
Record raw_meta : Set := RawMeta {
  raw_tokens : Z;
  raw_cost : float;
  raw_latency : float
}.

(** The value of [provider.complete(...)]: a dict with [text] and [meta]. *)
Record response : Set := Response {
  response_text : string;
  response_meta : raw_meta
}.

(** What iterating a generator to its end produces: the chunks it yields,
    then its normal end or the exception that ends it. *)
Record trace : Type := Trace {
  yielded : list string;
  raised : option exn
}.

(** A cell of the benchmark table: a provider, a string or an [int]. *)
Inductive cell : Set :=
| CellModel (model : provider)
| CellStr (s : string)
| CellInt (n : Z).

#[export] Instance cell_eq_dec : EqDecision cell.
Proof. solve_decision. Defined.

Class Externals : Type := {
  history : Type;
  kwargs : Type;
  no_kwargs : kwargs;
  provider_complete :
    provider -> string -> option history -> kwargs -> result response;
  provider_acomplete :
    provider -> string -> option history -> kwargs -> result response;
  provider_complete_stream :
    provider -> string -> option history -> kwargs -> trace;
  (** [markdown2.markdown(text)] *)
  markdown : string -> string;
  (** [format(x, '.5f')] and the f-string field [{x:.5f}] *)
  format_5f : float -> string;
  (** the f-string field [{x:.2f}] *)
  format_2f : float -> string;
  (** [round(x, 2)] *)
  round_2 : float -> float;
  (** the twelve built-in benchmark prompts and the evaluator's instruction
      text, whose wording nothing below depends on *)
  default_prompts : list string;
  system_instruction : string;
  (** [table.get_html_string()] *)
  get_html_string : list string -> list (list cell) -> string
}.

End Collaborators.

(** * The result envelope: class [Result] *)

Module Envelope.
Import Py Providers Collaborators.

(** [response["meta"]] after the dispatcher formatted cost and latency. *)
Record meta_data : Set := Meta {
  tokens : Z;
  cost : string;
  latency : float
}.

(** One element of [Result._results]. *)
Record completion_result : Set := Completion {
  completion_text : string;
  completion_meta : meta_data;
  completion_provider : provider
}.

Record Result : Set := MkResult { _results : list completion_result }.

(** What an accessor returns: one value, or a list of values. *)
Inductive collapsed (A : Type) : Type :=
| Scalar (x : A)
| Sequence (xs : list A).
Arguments Scalar {A} x.
Arguments Sequence {A} xs.

Definition is_scalar {A} (v : collapsed A) : bool :=
  match v with Scalar _ => true | Sequence _ => false end.

(** The property [Result.text]. The one-element pattern is the test
    [len(self._results) == 1]. *)
Definition text (self : Result) : collapsed string :=
  match _results self with
  | [result] => Scalar (completion_text result)
  | results => Sequence ((fun result => completion_text result) <$> results)
  end.

(** The property [Result.html]. *)
Definition html `{Externals} (self : Result) : collapsed string :=
  match _results self with
  | [result] => Scalar (markdown (completion_text result))
  | results =>
      Sequence ((fun result => markdown (completion_text result)) <$> results)
  end.

(** The property [Result.meta]. *)
Definition meta (self : Result) : collapsed meta_data :=
  match _results self with
  | [result] => Scalar (completion_meta result)
  | results => Sequence ((fun result => completion_meta result) <$> results)
  end.

End Envelope.

(** * The dispatcher: class [LLMS] *)

Module LLMS.
Import Py Providers Collaborators Envelope.

Record LLMS : Set := MkLLMS { _providers : list provider }.

(** The [model] argument of the constructor. *)
Inductive model_arg : Set :=
| ModelNone
| ModelStr (name : string)
| ModelList (names : list string).

(** [os.getenv(name)] over the process environment. *)
Definition getenv (environ : gmap string string) (name : string)
  : option string :=
  environ !! name.

(** One turn of the loop of [__init__]: the adapter for [single_model]. *)
Definition select_provider `{Tables}
    (openai_api_key anthropic_api_key ai21_api_key : option string)
    (single_model : string) : result provider :=
  match openai_api_key, has_key single_model (MODEL_INFO OpenAIProvider) with
  | Some key, true => Ok (Provider OpenAIProvider key single_model)
  | _, _ =>
      match anthropic_api_key,
            has_key single_model (MODEL_INFO AnthropicProvider) with
      | Some key, true => Ok (Provider AnthropicProvider key single_model)
      | _, _ =>
          match ai21_api_key,
                has_key single_model (MODEL_INFO AI21Provider) with
          | Some key, true => Ok (Provider AI21Provider key single_model)
          | _, _ =>
              Raise (Exn ValueError
                       ["Invalid API key and model combination"%string;
                        single_model])
          end
      end
  end.

(** [LLMS.__init__] *)
Definition __init__ `{Tables} (environ : gmap string string)
    (model : model_arg)
    (openai_api_key anthropic_api_key ai21_api_key : option string)
  : result LLMS :=
  let openai_api_key :=
    match openai_api_key with
    | None => getenv environ "OPENAI_API_KEY"
    | Some _ => openai_api_key
    end in
  let anthropic_api_key :=
    match anthropic_api_key with
    | None => getenv environ "ANTHROPIC_API_KEY"
    | Some _ => anthropic_api_key
    end in
  let ai21_api_key :=
    match ai21_api_key with
    | None => getenv environ "AI21_API_KEY"
    | Some _ => ai21_api_key
    end in
  let model :=
    match model with
    | ModelNone =>
        match getenv environ "LLMS_DEFAULT_MODEL" with
        | None => ["gpt-3.5-turbo"%string]
        | Some model => [model]
        end
    | ModelStr model => [model]
    | ModelList model => model
    end in
  providers ← for_each
    (fun providers single_model =>
       provider ← select_provider openai_api_key anthropic_api_key
                    ai21_api_key single_model;
       Ok (providers ++ [provider]))
    model [];
  Ok (MkLLMS providers).

(** *** The resolution of a model name, in the specification's words

    The backend families in their fixed priority order; the credential of a
    family is the one given to the constructor or else the one of the
    environment; a name resolves to the first family whose table contains it
    and for which a credential is available. *)

Definition priority_order : list family :=
  [OpenAIProvider; AnthropicProvider; AI21Provider].

Definition environment_name (f : family) : string :=
  match f with
  | OpenAIProvider => "OPENAI_API_KEY"
  | AnthropicProvider => "ANTHROPIC_API_KEY"
  | AI21Provider => "AI21_API_KEY"
  end.

Definition credential (environ : gmap string string)
    (given : family -> option string) (f : family) : option string :=
  match given f with
  | Some key => Some key
  | None => environ !! environment_name f
  end.

Definition candidate `{Tables} (available : family -> option string)
    (name : string) (f : family) : option provider :=
  match available f with
  | Some key =>
      if has_key name (MODEL_INFO f) then Some (Provider f key name) else None
  | None => None
  end.

Definition first_match `{Tables} (available : family -> option string)
    (name : string) : option provider :=
  head (omap (candidate available name) priority_order).

Definition requested_models (environ : gmap string string)
    (model : model_arg) : list string :=
  match model with
  | ModelNone =>
      match environ !! "LLMS_DEFAULT_MODEL"%string with
      | Some name => [name]
      | None => ["gpt-3.5-turbo"%string]
      end
  | ModelStr name => [name]
  | ModelList names => names
  end.

(** One element of the list [LLMS.list] returns. *)
Record model_entry : Set := ModelEntry {
  entry_provider : string;
  entry_name : string;
  entry_cost : model_info
}.

(** *** The listing, in the specification's words

    [query] occurs in [s] as a substring when case is ignored; the cost an
    entry is sorted by is the sum of its prompt and completion costs. *)

Definition occurs_ignoring_case (query s : string) : Prop :=
  exists before middle after,
    s = before +:+ middle +:+ after /\ lower middle = lower query.

Definition unit_cost (x : model_entry) : float :=
  (prompt (entry_cost x) + completion (entry_cost x))%float.

(** The test that makes the loop of [LLMS.list] skip a model. *)
Definition skipped (query : option string) (provider : family)
    (model : string) : bool :=
  match query with
  | None => false
  | Some query =>
      negb (String.eqb query "")
      && (negb (contains (lower model) (lower query))
          && negb (contains (lower (class_name provider)) (lower query)))
  end.

(** [LLMS.list], under a name that leaves [list] to the type. *)
Definition list_ `{Tables} (self : LLMS) (query : option string)
  : list model_entry :=
  let all_providers := [OpenAIProvider; AI21Provider; AnthropicProvider] in
  let model_info_list :=
    provider ← all_providers;
    '(model, cost) ← MODEL_INFO provider;
    if skipped query provider model then []
    else [ModelEntry (class_name provider) model cost] in
  sorted PrimFloat.ltb
    (fun x => (prompt (entry_cost x) + completion (entry_cost x))%float)
    false model_info_list.

(** The reformatting [complete] and [acomplete] apply to a response. *)
Definition format_response `{Externals} (provider : provider)
    (response : response) : completion_result :=
  let formatted_cost := format_5f (raw_cost (response_meta response)) in
  let formatted_latency := round_2 (raw_latency (response_meta response)) in
  Completion (response_text response)
    (Meta (raw_tokens (response_meta response)) formatted_cost
       formatted_latency)
    provider.

(** [LLMS.complete]. [completed] is the order in which [as_completed]
    hands over the futures, one per provider. *)
Definition complete `{Externals} (self : LLMS) (prompt : string)
    (history : option history) (kwargs : kwargs)
    (completed : list provider) : result Result :=
  results ← comprehension
    (fun provider =>
       response ← provider_complete provider prompt history kwargs;
       Ok (format_response provider response))
    completed;
  Ok (MkResult results).

(** [LLMS.acomplete], awaited. *)
Definition acomplete `{Externals} (self : LLMS) (prompt : string)
    (history : option history) (kwargs : kwargs) : result Result :=
  if (1 <? length (_providers self))%nat then
    Raise (Exn NotImplementedError
             ["acomplete not supported for multi-models yet."%string])
  else
    provider ← getitem (_providers self) 0;
    response ← provider_acomplete provider prompt history kwargs;
    Ok (MkResult [format_response provider response]).

(** [LLMS.complete_stream], iterated to its end. *)
Definition complete_stream `{Externals} (self : LLMS) (prompt : string)
    (history : option history) (kwargs : kwargs) : trace :=
  if (1 <? length (_providers self))%nat then
    Trace [] (Some (Exn ValueError
                      ["Streaming is possible only with a single model"%string]))
  else
    match getitem (_providers self) 0 with
    | Raise e => Trace [] (Some e)
    | Ok provider =>
        if decide (provider_class provider = AI21Provider) then
          Trace [] (Some (Exn ValueError
                            ["Streaming is not yet supported with AI21 models"%string]))
        else provider_complete_stream provider prompt history kwargs
    end.

End LLMS.

(** * The benchmark: [LLMS.benchmark] *)

Module Benchmark.
Import Py Providers Collaborators LLMS.

(** The dict [process_prompt] returns. *)
Record prompt_outcome : Set := OutputData {
  text : string;
  tokens : Z;
  latency : float;
  cost : float;
  prompt_index : nat
}.

(** A value of [model_results]. The keys [median_latency],
    [aggregated_speed] and [evaluation] are added after the dict is made:
    [None] is a missing key. *)
Record benchmark_run : Set := ModelData {
  outputs : list prompt_outcome;
  total_latency : float;
  total_cost : float;
  median_latency : option float;
  aggregated_speed : option float;
  evaluation : option (list Z)
}.

(** ** Dicts keyed by provider, in insertion order *)

(** [d[k] = v]: a key already present keeps its place. *)
Fixpoint setitem {V} (k : provider) (v : V) (d : list (provider * V))
  : list (provider * V) :=
  match d with
  | [] => [(k, v)]
  | (k', v') :: d' =>
      if decide (k = k') then (k', v) :: d' else (k', v') :: setitem k v d'
  end.

(** [d[k]] *)
Fixpoint getitem_dict {V} (d : list (provider * V)) (k : provider)
  : result V :=
  match d with
  | [] => Raise (Exn KeyError [])
  | (k', v) :: d' => if decide (k = k') then Ok v else getitem_dict d' k
  end.

(** [d[key]] for one of the keys added later. *)
Definition field {V} (value : option V) : result V :=
  match value with
  | Some v => Ok v
  | None => Raise (Exn KeyError [])
  end.

(** [enumerate(l)] *)
Definition enumerate {A} (l : list A) : list (nat * A) :=
  zip (seq 0 (length l)) l.

(** ** Names read from the module scope *)

Inductive pyobject : Set :=
| PyModule
| PyClass
| PyFunction
| PyStr (s : string).

(** What the statements of [llms.py] bind at its top level: its imports and
    its two classes. *)
Definition module_globals : list (string * pyobject) :=
  [ ("os", PyModule); ("markdown2", PyModule); ("statistics", PyModule);
    ("PrettyTable", PyClass); ("OpenAIProvider", PyClass);
    ("AnthropicProvider", PyClass); ("AI21Provider", PyClass);
    ("concurrent", PyModule); ("ThreadPoolExecutor", PyClass);
    ("as_completed", PyFunction); ("List", PyClass); ("Optional", PyClass);
    ("Tuple", PyClass); ("Result", PyClass); ("LLMS", PyClass) ]%string.

(** The read of a name that no enclosing function assigns. No builtin is
    called [evaluator_result], the one name read this way. *)
Definition load_global (name : string) : result pyobject :=
  match list_find (fun binding => String.eqb binding.1 name = true)
          module_globals with
  | Some (_, (_, value)) => Ok value
  | None =>
      Raise (Exn NameError ["name '" +:+ name +:+ "' is not defined"])
  end%string.

(** ** [evaluate_answers] *)

Definition newline : string := String (ascii_of_nat 10) EmptyString.

(** The loop that builds [prompt]. *)
Definition build_prompt (query_answer_pairs : list (string * string))
  : string :=
  fold_left
    (fun prompt '(i, (query, answer)) =>
       prompt +:+ "Query #" +:+ str_of_int (Z.of_nat i + 1) +:+ ": " +:+ query
       +:+ newline +:+ "Answer #" +:+ str_of_int (Z.of_nat i + 1) +:+ ": "
       +:+ answer +:+ newline +:+ newline)
    (enumerate query_answer_pairs) ""%string.

(** The last two lines of [evaluate_answers], for the text they split. *)
Definition parse_scores (evaluator_result : string) : result (list Z) :=
  let scores := split "," evaluator_result in
  comprehension (fun score => int_of_str (strip score)) scores.

(** [evaluate_answers]. It builds [system] and [prompt] and passes neither
    on; [evaluator_result] is read and nowhere assigned. *)
Definition evaluate_answers `{Externals} (evaluator : LLMS)
    (query_answer_pairs : list (string * string)) : result (list Z) :=
  let system := system_instruction in
  let prompt := build_prompt query_answer_pairs in
  evaluator_result ← load_global "evaluator_result";
  match evaluator_result with
  | PyStr evaluator_result => parse_scores evaluator_result
  | _ => Raise (Exn AttributeError [])
  end.

(** ** Running the prompts *)

Definition process_prompt `{Externals} (model : provider) (prompt : string)
    (index : nat) : result prompt_outcome :=
  result ← provider_complete model prompt None no_kwargs;
  Ok (OutputData (response_text result)
        (raw_tokens (response_meta result))
        (raw_latency (response_meta result))
        (raw_cost (response_meta result))
        index).

(** [process_prompts_sequentially]. [handed_over] lists the indices of the
    futures in the order [as_completed] hands them over. *)
Definition process_prompts_sequentially `{Externals} (model : provider)
    (prompts : list string) (handed_over : list nat)
  : result (provider * list prompt_outcome) :=
  results ← comprehension
    (fun index =>
       prompt ← getitem prompts index;
       process_prompt model prompt index)
    handed_over;
  Ok (model, results).

(** ** The statements of [benchmark] after the futures are made *)

(** The entry [model_results[model]] once its two totals are summed. *)
Definition collect (outputs : list prompt_outcome) : benchmark_run :=
  ModelData outputs
    (accumulate (latency <$> outputs))
    (accumulate (cost <$> outputs))
    None None None.

(** One turn of the loop that adds [median_latency] and
    [aggregated_speed]. *)
Definition aggregate (data : benchmark_run) : result benchmark_run :=
  median_latency ← median (latency <$> outputs data);
  let total_tokens := sum_int (tokens <$> outputs data) in
  let total_latency := total_latency data in
  aggregated_speed ← truediv_int_float total_tokens total_latency;
  Ok (ModelData (outputs data) total_latency (total_cost data)
        (Some median_latency) (Some aggregated_speed) (evaluation data)).

(** The aggregates of a run, in the specification's words: the totals are
    the sums of the latencies and of the costs, added in the order of the
    outcomes; the median latency is the median of the latencies; the
    aggregated speed is the sum of the token counts, as a float, divided by
    the total latency, which is not zero. *)
Definition aggregates_hold (run : benchmark_run) : Prop :=
  total_latency run
  = fold_left PrimFloat.add (latency <$> outputs run) 0%float /\
  total_cost run = fold_left PrimFloat.add (cost <$> outputs run) 0%float /\
  (exists m,
     median_latency run = Some m /\
     is_median (latency <$> outputs run) m) /\
  (exists total_tokens,
     float_of_int (fold_left Z.add (tokens <$> outputs run) 0)
     = Ok total_tokens /\
     (total_latency run =? 0)%float = false /\
     aggregated_speed run = Some (total_tokens / total_latency run)%float).

(** The copy of the scores into [model_results[model]["evaluation"]]. *)
Definition store_evaluation (n_outputs : nat) (evaluation : list Z)
  : result (list Z) :=
  comprehension (fun i => getitem evaluation i) (seq 0 n_outputs).

(** One turn of the loop that runs when an evaluator is given. *)
Definition evaluate_model `{Externals} (evaluator : LLMS)
    (prompts : list string) (model_data : benchmark_run)
  : result benchmark_run :=
  all_query_answer_pairs ← comprehension
    (fun output_data =>
       query ← getitem prompts (prompt_index output_data);
       Ok (query, text output_data))
    (outputs model_data);
  evaluation ← evaluate_answers evaluator all_query_answer_pairs;
  stored ← store_evaluation (length (outputs model_data)) evaluation;
  Ok (ModelData (outputs model_data) (total_latency model_data)
        (total_cost model_data) (median_latency model_data)
        (aggregated_speed model_data) (Some stored)).

(** The key of the sort of the providers. *)
Definition ranking_key (scored : bool)
    (model_results : list (provider * benchmark_run)) (x : provider)
  : result float :=
  data ← getitem_dict model_results x;
  speed ← field (aggregated_speed data);
  if scored then
    scores ← field (evaluation data);
    mul_float_int speed (sum_int scores)
  else Ok speed.

(** The ranking key, in the specification's words: the aggregated speed
    of the provider's run, multiplied by the sum of its scores when an
    evaluator was used. *)
Definition ranked_by (scored : bool)
    (model_results : list (provider * benchmark_run)) (x : provider)
    (k : float) : Prop :=
  exists run speed,
    getitem_dict model_results x = Ok run /\
    aggregated_speed run = Some speed /\
    if scored then
      exists scores total,
        evaluation run = Some scores /\
        float_of_int (fold_left Z.add scores 0) = Ok total /\
        k = (speed * total)%float
    else k = speed.

(** [sorted_models] *)
Definition rank (scored : bool)
    (model_results : list (provider * benchmark_run))
  : result (list provider) :=
  sorted_raising PrimFloat.ltb (ranking_key scored model_results) true
    (model_results.*1).

(** ** The table *)

(** [PrettyTable(headers)] and the rows added to it. *)
Record table : Set := Table {
  field_names : list string;
  rows : list (list cell)
}.

(** [table.add_row(row)] refuses a row that has not one cell per column. *)
Definition add_row (t : table) (row : list cell) : result table :=
  if (length row =? length (field_names t))%nat
  then Ok (Table (field_names t) (rows t ++ [row]))
  else Raise (Exn ValueError []).

(** [l.remove(x)]: without the first element equal to [x]. *)
Fixpoint remove_first {A} `{EqDecision A} (x : A) (l : list A)
  : result (list A) :=
  match l with
  | [] => Raise (Exn ValueError [])
  | y :: l' =>
      if decide (y = x) then Ok l'
      else l'' ← remove_first x l'; Ok (y :: l'')
  end.



(** What [benchmark] returns: the table, or its HTML form. *)
Inductive rendered : Set :=
| AsTable (t : table)
| AsHtml (s : string).

(** One turn of the loop over [sorted_models]: the rows of one provider. *)
Definition render_model `{Externals} (scored show_outputs : bool)
    (model_results : list (provider * benchmark_run)) (table : table)
    (model : provider) : result Benchmark.table :=
  model_data ← getitem_dict model_results model;
  '(table, total_tokens, total_score) ← for_each
    (fun '(table, total_tokens, total_score) '(index, output_data) =>
       let total_tokens := total_tokens + tokens output_data in
       total_score ←
         (if scored then
            data ← getitem_dict model_results model;
            scores ← field (evaluation data);
            score ← getitem scores index;
            Ok (total_score + score)
          else Ok total_score);
       speed ← truediv_int_float (tokens output_data) (latency output_data);
       let row_data :=
         [ CellModel model; CellStr (text output_data);
           CellInt (tokens output_data);
           CellStr (format_5f (cost output_data));
           CellStr (format_2f (latency output_data));
           CellStr (format_2f speed) ] in
       row_data ←
         (if show_outputs then Ok row_data
          else remove_first (CellStr (text output_data)) row_data);
       row_data ←
         (if scored then
            data ← getitem_dict model_results model;
            scores ← field (evaluation data);
            score ← getitem scores index;
            Ok (row_data ++ [CellInt score])
          else Ok row_data);
       table ← add_row table row_data;
       Ok (table, total_tokens, total_score))
    (enumerate (outputs model_data)) (table, 0, 0);
  median_latency ← field (median_latency model_data);
  speed ← truediv_int_float total_tokens (total_latency model_data);
  let totals :=
    [ CellStr ("Total Tokens: " +:+ str_of_int total_tokens);
      CellStr ("Total Cost: " +:+ format_5f (total_cost model_data));
      CellStr ("Median Latency: " +:+ format_2f median_latency);
      CellStr ("Aggregated speed: " +:+ format_2f speed) ] in
  let row_data :=
    if show_outputs then CellModel model :: CellStr "" :: totals
    else CellModel model :: totals in
  let row_data :=
    if scored
    then row_data ++ [CellStr ("Total Score: " +:+ str_of_int total_score)]
    else row_data in
  add_row table row_data.

(** ** [benchmark]

    [schedule] names the providers in the order in which their futures
    complete, each with the order in which the futures of its prompts are
    handed over. *)

Definition well_scheduled (self : LLMS) (prompts : list string)
    (schedule : list (provider * list nat)) : Prop :=
  schedule.*1 ≡ₚ _providers self /\
  Forall (fun turn => turn.2 ≡ₚ seq 0 (length prompts)) schedule.

(** The prompts in use: the built-in ones when [not prompts]. *)
Definition effective_prompts `{Externals} (prompts : option (list string))
  : list string :=
  match prompts with
  | None | Some [] => default_prompts
  | Some prompts => prompts
  end.

(** [model_results] when the loop over the futures ends. *)
Definition collect_all `{Externals} (prompts : list string)
    (schedule : list (provider * list nat))
  : result (list (provider * benchmark_run)) :=
  for_each
    (fun model_results '(model, handed_over) =>
       '(model, outputs) ←
         process_prompts_sequentially model prompts handed_over;
       Ok (setitem model (collect outputs) model_results))
    schedule [].

(** A loop [for model in model_results] that updates each value. *)
Definition for_each_model (body : benchmark_run -> result benchmark_run)
    (model_results : list (provider * benchmark_run))
  : result (list (provider * benchmark_run)) :=
  comprehension
    (fun '(model, data) => data ← body data; Ok (model, data))
    model_results.

(** [model_results] and [sorted_models] when the table is about to be
    made. *)
Definition measure `{Externals} (prompts : list string)
    (evaluator : option LLMS) (schedule : list (provider * list nat))
  : result (list (provider * benchmark_run) * list provider) :=
  model_results ← collect_all prompts schedule;
  model_results ← for_each_model aggregate model_results;
  match evaluator with
  | Some evaluator =>
      model_results ←
        for_each_model (evaluate_model evaluator prompts) model_results;
      sorted_models ← rank true model_results;
      Ok (model_results, sorted_models)
  | None =>
      sorted_models ← rank false model_results;
      Ok (model_results, sorted_models)
  end.

(** The table [benchmark] fills. *)
Definition benchmark_table `{Externals} (self : LLMS)
    (prompts : option (list string)) (evaluator : option LLMS)
    (show_outputs : bool) (schedule : list (provider * list nat))
  : result table :=
  let prompts := effective_prompts prompts in
  '(model_results, sorted_models) ← measure prompts evaluator schedule;
  let headers :=
    [ "Model"; "Output"; "Tokens"; "Cost ($)"; "Latency (s)";
      "Speed (tokens/sec)"; "Evaluation" ]%string in
  headers ←
    (if show_outputs then Ok headers
     else remove_first "Output"%string headers);
  headers ←
    match evaluator with
    | Some _ => Ok headers
    | None => remove_first "Evaluation"%string headers
    end;
  let table := Table headers [] in
  for_each
    (render_model (bool_decide (is_Some evaluator)) show_outputs
       model_results)
    sorted_models table.

Definition benchmark `{Externals} (self : LLMS)
    (prompts : option (list string)) (evaluator : option LLMS)
    (show_outputs html : bool) (schedule : list (provider * list nat))
  : result rendered :=
  table ← benchmark_table self prompts evaluator show_outputs schedule;
  Ok (if html then AsHtml (get_html_string (field_names table) (rows table))
      else AsTable table).

(** What a benchmark without evaluator needs of a run, in words: there is
    an outcome; every outcome has a latency that is not zero and a token
    count that [float] takes; the total latency is not zero; and [float]
    takes the sum of the token counts. *)
Definition measurable (run : benchmark_run) : Prop :=
  outputs run <> [] /\
  Forall (fun o =>
            (latency o =? 0)%float = false /\
            is_ok (float_of_int (tokens o)) = true) (outputs run) /\
  (total_latency run =? 0)%float = false /\
  is_ok (float_of_int (sum_int (tokens <$> outputs run))) = true.


(** The headers of the table, in words. *)
Definition headers_of (scored show_outputs : bool) : list string :=
  ["Model"%string]
  ++ (if show_outputs then ["Output"%string] else [])
  ++ ["Tokens"; "Cost ($)"; "Latency (s)"; "Speed (tokens/sec)"]%string
  ++ (if scored then ["Evaluation"%string] else []).

End Benchmark.

(** * A sample instance

    Sample tables for the two adapters that are not embedded, and sample
    collaborators: each adapter answers at once with a fixed response. They
    serve to run the definitions on concrete inputs. *)

Module Demo.
Import Py Providers Collaborators Envelope LLMS Benchmark.

#[local] Set Warnings "-inexact-float".
#[export] Instance tables : Tables := {|
  Anthropic_MODEL_INFO :=
    [ ("claude-instant-1", ModelInfo 0.8 2.4 100000 true None false) ];
  AI21_MODEL_INFO :=
    [ ("j2-ultra", ModelInfo 15.0 15.0 8192 false None false) ]
|}%string.

(** The sample adapters produce five tokens a second for ["gpt-4"] and nine
    for every other model. *)
Definition answer (p : provider) (prompt : string) : response :=
  Response ("re: " +:+ prompt)
    (RawMeta (if String.eqb (model p) "gpt-4" then 5 else 9) 0.5 1).

#[export] Instance externals : Externals := {|
  history := unit;
  kwargs := unit;
  no_kwargs := tt;
  provider_complete := fun p prompt _ _ => Ok (answer p prompt);
  provider_acomplete := fun p prompt _ _ => Ok (answer p prompt);
  provider_complete_stream := fun p prompt _ _ => Trace ["re: "; prompt] None;
  markdown := fun text => "<p>" +:+ text +:+ "</p>";
  format_5f := fun _ => "0.00000";
  format_2f := fun _ => "0.00";
  round_2 := fun x => x;
  default_prompts := ["What is the capital of France?"];
  system_instruction := "You are a truthful evaluator.";
  get_html_string := fun _ _ => "<table></table>"
|}%string.

(** Collaborators whose adapter for ["gpt-4o"] raises on every call, and
    answers the others as above. *)
Definition faltering : Externals := {|
  history := unit;
  kwargs := unit;
  no_kwargs := tt;
  provider_complete := fun p prompt _ _ =>
    if String.eqb (model p) "gpt-4o"
    then Raise (Exn ValueError ["quota"])
    else Ok (answer p prompt);
  provider_acomplete := fun p prompt _ _ => Ok (answer p prompt);
  provider_complete_stream := fun p prompt _ _ => Trace ["re: "; prompt] None;
  markdown := fun text => "<p>" +:+ text +:+ "</p>";
  format_5f := fun _ => "0.00000";
  format_2f := fun _ => "0.00";
  round_2 := fun x => x;
  default_prompts := ["What is the capital of France?"];
  system_instruction := "You are a truthful evaluator.";
  get_html_string := fun _ _ => "<table></table>"
|}%string.

Definition gpt4 : provider := Provider OpenAIProvider "sk-1" "gpt-4".
Definition gpt4o : provider := Provider OpenAIProvider "sk-1" "gpt-4o".
Definition j2 : provider := Provider AI21Provider "ai21-1" "j2-ultra".

(** The runs of two providers over four prompts, at five and at nine
    tokens a second, with the scores given. *)
Definition steady_run (tokens_each : Z) (speed : float)
    (scores : option (list Z)) : benchmark_run :=
  let outs :=
    (fun index => OutputData "re" tokens_each 1 0.5 index) <$> seq 0 4 in
  ModelData outs 4 2 (Some 1%float) (Some speed) scores.


(** A benchmark of the two providers on two prompts. *)
Definition two_prompts : list string := ["p1"; "p2"]%string.

Definition schedule : list (provider * list nat) :=
  [ (gpt4, [0; 1]%nat); (gpt4o, [1; 0]%nat) ].

End Demo.

(** * The OpenAI adapter: [providers/openai.py] *)

Module OpenAI.
Import Py Providers.

(** ** Values, keyword arguments and messages *)

(** The values of keyword arguments and of message fields. *)
#[local] Set Warnings "-register-all".
Inductive value : Type :=
| VNone
| VBool (b : bool)
| VInt (n : Z)
| VFloat (x : float)
| VStr (s : string)
| VList (items : list value).

(** The truth value of [v], as [not v] and [if v] test it. *)
Definition truthy (v : value) : bool :=
  match v with
  | VNone => false
  | VBool b => b
  | VInt n => negb (n =? 0)
  | VFloat x => negb (x =? 0)%float
  | VStr s => negb (String.eqb s "")
  | VList items => match items with [] => false | _ :: _ => true end
  end.

(** [d.get(key)] *)
Definition get (key : string) (d : gmap string value) : value :=
  default VNone (d !! key).

(** ** Exceptions

    Besides the exceptions of the runtime above, the adapter meets
    [TypeError] and [AssertionError], and the exceptions of the libraries
    it calls. *)
Inductive raised : Type :=
| Raised (e : exn)
| TypeError
| AssertionError
| Foreign (name : string).

Inductive attempt (A : Type) : Type :=
| Done (a : A)
| Failed (r : raised).
Arguments Done {A} a.
Arguments Failed {A} r.

#[export] Instance attempt_ret : MRet attempt := fun A a => Done a.
#[export] Instance attempt_bind : MBind attempt := fun A B f m =>
  match m with
  | Done a => f a
  | Failed r => Failed r
  end.

Definition builtin {A} (m : result A) : attempt A :=
  match m with
  | Ok a => Done a
  | Raise e => Failed (Raised e)
  end.

(** ** The responses of the client library *)

(** [message.function_call], when there is one. *)
Record function_call : Set := FunctionCall {
  fc_name : string;
  fc_arguments : string
}.

(** [response.choices[i].message] *)
Record chat_message : Set := ChatMessage {
  content : option string;
  message_function_call : option function_call
}.

(** [response.usage], when there is one. *)
Record usage : Set := Usage {
  prompt_tokens : Z;
  completion_tokens : Z
}.

Record chat_completion : Set := ChatCompletion {
  choices : list chat_message;
  response_usage : option usage
}.

(** A chunk of a streamed response: [chunk.choices[i].delta.content]. *)
Record chunk : Set := Chunk { chunk_choices : list (option string) }.

(** What iterating a stream to its end gives: the items it hands over, then
    its normal end or the exception that ends it. *)
Record stream (A : Type) : Type := Stream {
  items : list A;
  ending : option raised
}.
Arguments Stream {A} items ending.
Arguments items {A} s.
Arguments ending {A} s.

(** What the adapter calls: the client, [json.loads], [tiktoken] and
    [msg_as_str] of [providers/base.py]. The calls of the client take the
    model, the messages and the other keyword arguments. *)
Class Library : Type := {
  json_value : Type;
  json_loads : string -> attempt json_value;
  msg_as_str : list (gmap string value) -> string;
  (** [tiktoken.encoding_for_model(model)], as the function
      [enc.encode(t, disallowed_special=())] *)
  encoding_for_model : string -> attempt (string -> list Z);
  (** [self.client.chat.completions.create(..., stream=False, ...)] *)
  create :
    string -> list (gmap string value) -> gmap string value ->
    attempt chat_completion;
  (** [await self.async_client.chat.completions.create(..., stream=False)] *)
  acreate :
    string -> list (gmap string value) -> gmap string value ->
    attempt chat_completion;
  (** [self.client.chat.completions.create(..., stream=True, ...)] *)
  create_stream :
    string -> list (gmap string value) -> gmap string value -> stream chunk
}.

(** ** [_count_tokens] *)

Definition _count_tokens `{Library} (self : provider)
    (content : list (gmap string value)) : attempt Z :=
  enc ← encoding_for_model (model self);
  let formatting_token_count := 4 in
  let messages := content in
  let messages_text := (fun message => msg_as_str [message]) <$> messages in
  let tokens := enc <$> messages_text in
  let n_tokens_list :=
    (fun '(token, message) =>
       let n_tokens := Z.of_nat (length token) + formatting_token_count in
       if bool_decide (is_Some (message !! "name"%string))
       then n_tokens + -1 else n_tokens)
    <$> zip tokens messages in
  Done (sum_int n_tokens_list).

(** ** [prepare_input] *)

(** [self.MODEL_INFO[key]] *)
Fixpoint getitem_table (table : list (string * model_info)) (key : string)
  : result model_info :=
  match table with
  | [] => Raise (Exn KeyError [])
  | (name, info) :: table' =>
      if String.eqb name key then Ok info else getitem_table table' key
  end.

Definition prepare_input (self : provider) (kwargs : gmap string value)
  : result (gmap string value) :=
  if negb (truthy (get "max_completion_tokens" kwargs)) then
    info ← getitem_table OpenAI_MODEL_INFO (model self);
    if use_max_completion_tokens info then
      Ok (<["max_completion_tokens"%string :=
              default (VInt 300) (kwargs !! "max_tokens"%string)]>
            (delete "max_tokens"%string kwargs))
    else Ok kwargs
  else Ok kwargs.

(** ** [complete] and [acomplete] *)

(** A call [f(model=..., messages=..., stream=..., **kwargs)] is refused
    when [kwargs] names one of the three arguments again. *)
Definition keywords (kwargs : gmap string value)
  : attempt (gmap string value) :=
  if bool_decide (is_Some (kwargs !! "model"%string))
     || bool_decide (is_Some (kwargs !! "messages"%string))
     || bool_decide (is_Some (kwargs !! "stream"%string))
  then Failed TypeError else Done kwargs.

(** The keyword arguments that name none of the three. *)
Definition unreserved (kwargs : gmap string value) : Prop :=
  kwargs !! "model"%string = None /\
  kwargs !! "messages"%string = None /\
  kwargs !! "stream"%string = None.

(** The dict [complete] returns; an empty [function_call] dict is [None]. *)
Record completion_dict `{Library} : Type := CompletionDict {
  completion : option string;
  call : option (string * json_value);
  used_prompt_tokens : Z;
  used_completion_tokens : Z
}.

Arguments CompletionDict {_} _ _ _ _.

(** The dict [acomplete] returns, which has no [function_call]. *)
Record acompletion_dict : Set := ACompletionDict {
  acompletion : option string;
  aused_prompt_tokens : Z;
  aused_completion_tokens : Z
}.

(** [assert response.usage] *)
Definition assert_usage (response : chat_completion) : attempt usage :=
  match response_usage response with
  | Some usage => Done usage
  | None => Failed AssertionError
  end.

Definition complete `{Library} (self : provider)
    (messages : list (gmap string value)) (kwargs : gmap string value)
  : attempt completion_dict :=
  kwargs ← builtin (prepare_input self kwargs);
  kwargs ← keywords kwargs;
  response ← create (model self) messages kwargs;
  first ← builtin (getitem (choices response) 0);
  '(function_call, completion) ←
    match message_function_call first with
    | Some requested =>
        arguments ← json_loads (fc_arguments requested);
        Done (Some (fc_name requested, arguments), Some EmptyString)
    | None => Done (None, content first)
    end;
  usage ← assert_usage response;
  Done (CompletionDict completion function_call (prompt_tokens usage)
          (completion_tokens usage)).

Definition acomplete `{Library} (self : provider)
    (messages : list (gmap string value)) (kwargs : gmap string value)
  : attempt acompletion_dict :=
  kwargs ← builtin (prepare_input self kwargs);
  kwargs ← keywords kwargs;
  response ← acreate (model self) messages kwargs;
  usage ← assert_usage response;
  first ← builtin (getitem (choices response) 0);
  Done (ACompletionDict (content first) (prompt_tokens usage)
          (completion_tokens usage)).

(** ** [complete_stream] *)

(** The loop over the chunks: a chunk yields its content when that is
    neither [None] nor empty. *)
Fixpoint fragments (chunks : list chunk) : stream string :=
  match chunks with
  | [] => Stream [] None
  | chunk :: chunks' =>
      match chunk_choices chunk with
      | [] => Stream [] (Some (Raised (Exn IndexError [])))
      | delta :: _ =>
          let rest := fragments chunks' in
          match delta with
          | Some c =>
              if String.eqb c "" then rest
              else Stream (c :: items rest) (ending rest)
          | None => rest
          end
      end
  end.

(** The text of a chunk and the text of a stream, in words: the content of
    the first choice, nothing when it is [None]; the texts put together. *)
Definition chunk_text (c : chunk) : string :=
  match chunk_choices c with
  | Some text :: _ => text
  | _ => EmptyString
  end.

Definition joined (texts : list string) : string :=
  foldr String.append EmptyString texts.

(** [complete_stream], iterated to its end. *)
Definition complete_stream `{Library} (self : provider)
    (messages : list (gmap string value)) (kwargs : gmap string value)
  : stream string :=
  match kwargs ← builtin (prepare_input self kwargs); keywords kwargs with
  | Failed r => Stream [] (Some r)
  | Done kwargs =>
      let chunks := create_stream (model self) messages kwargs in
      let yielded := fragments (items chunks) in
      Stream (items yielded)
        (match ending yielded with
         | Some r => Some r
         | None => ending chunks
         end)
  end.

End OpenAI.

(** * Sample collaborators of the OpenAI adapter *)

Module Sample.
Import Py Providers OpenAI.

(** A client that answers every request with the content ["ok"], and
    streams it in four chunks of which two are empty; tokens are counted
    one for each character. *)
#[export] Instance library : Library := {|
  json_value := string;
  json_loads := fun text => Done text;
  msg_as_str := fun messages =>
    match messages with
    | [message] =>
        match message !! "content"%string with
        | Some (VStr text) => text
        | _ => EmptyString
        end
    | _ => EmptyString
    end;
  encoding_for_model := fun _ =>
    Done (fun text => (fun c => Z.of_N (code c)) <$> list_ascii_of_string text);
  create := fun _ _ _ =>
    Done (ChatCompletion [ChatMessage (Some "ok"%string) None]
            (Some (Usage 7 1)));
  acreate := fun _ _ _ =>
    Done (ChatCompletion [ChatMessage (Some "ok"%string) None]
            (Some (Usage 7 1)));
  create_stream := fun _ _ _ =>
    Stream [Chunk [None]; Chunk [Some "o"%string]; Chunk [Some ""%string];
            Chunk [Some "k"%string]] None
|}.

(** A client that answers every request with no choice and no usage, and
    streams nothing. *)
Definition silent : Library := {|
  json_value := string;
  json_loads := fun text => Done text;
  msg_as_str := fun _ => EmptyString;
  encoding_for_model := fun _ => Done (fun _ => []);
  create := fun _ _ _ => Done (ChatCompletion [] None);
  acreate := fun _ _ _ => Done (ChatCompletion [] None);
  create_stream := fun _ _ _ => Stream [] None
|}.

Definition o1 : provider := Provider OpenAIProvider "sk-1" "o1".

Definition hello : gmap string value :=
  {[ "role"%string := VStr "user"; "content"%string := VStr "hello" ]}.

Definition named_hello : gmap string value :=
  <["name"%string := VStr "ann"]> hello.

End Sample.

(** * Facts about the runtime *)

Module PyFacts.
Import Py.

Lemma bind_ok {A B} (m : result A) (f : A -> result B) (b : B) :
  m ≫= f = Ok b <-> exists a, m = Ok a /\ f a = Ok b.
Proof.
  destruct m as [a|e]; simpl; split.
  - intros Hf. exists a. split; [reflexivity | exact Hf].
  - intros (a' & Ha & Hf). injection Ha as ->. exact Hf.
  - discriminate.
  - intros (a' & Ha & _). discriminate.
Qed.

(** Inversion of a sequence of statements that returned. *)
Ltac bind_inv H :=
  repeat match type of H with
         | (mbind _ ?m) = Ok _ =>
             let a := fresh "a" in
             let E := fresh "E" in
             destruct m as [a|?] eqn:E; simpl in H; [|discriminate H]
         | match ?m with Ok _ => _ | Raise _ => _ end = Ok _ =>
             let a := fresh "a" in
             let E := fresh "E" in
             destruct m as [a|?] eqn:E; simpl in H; [|discriminate H]
         end.

Lemma is_ok_true {A} (m : result A) : is_ok m = true <-> exists a, m = Ok a.
Proof.
  destruct m as [a|e]; simpl; split; eauto; try discriminate.
  intros (a & Ha). discriminate.
Qed.

(** ** Comprehensions and loops *)

Lemma comprehension_ok {A B} (f : A -> result B) l ys :
  comprehension f l = Ok ys <-> Forall2 (fun x y => f x = Ok y) l ys.
Proof.
  revert ys. induction l as [|x l IH]; intros ys; simpl.
  - split.
    + intros [= <-]. constructor.
    + intros ->%Forall2_nil_inv_l. reflexivity.
  - split.
    + destruct (f x) as [y|e] eqn:Hx; [|discriminate].
      destruct (comprehension f l) as [ys'|e] eqn:Hl; [|discriminate].
      intros [= <-]. constructor; [exact Hx | apply IH; reflexivity].
    + intros (y & ys' & Hx & Hl & ->)%Forall2_cons_inv_l.
      rewrite Hx. apply IH in Hl. rewrite Hl. reflexivity.
Qed.

Lemma comprehension_length {A B} (f : A -> result B) l ys :
  comprehension f l = Ok ys -> length ys = length l.
Proof.
  intros H%comprehension_ok. symmetry. eapply Forall2_length, H.
Qed.

Lemma comprehension_raise {A B} (f : A -> result B) l e :
  comprehension f l = Raise e -> Exists (fun x => f x = Raise e) l.
Proof.
  induction l as [|x l IH]; simpl; [discriminate|].
  destruct (f x) as [y|e'] eqn:Hx.
  - destruct (comprehension f l) as [ys|e'']; [discriminate|].
    intros [= ->]. right. apply IH. reflexivity.
  - intros [= ->]. left. exact Hx.
Qed.

Lemma comprehension_total {A B} (f : A -> result B) l :
  Forall (fun x => is_ok (f x) = true) l ->
  exists ys, comprehension f l = Ok ys.
Proof.
  induction 1 as [|x l Hx _ [ys IH]]; simpl.
  - exists []. reflexivity.
  - apply is_ok_true in Hx as [y Hy]. rewrite Hy, IH. eauto.
Qed.

Lemma comprehension_first_raise {A B} (f : A -> result B) before x after e :
  Forall (fun x => is_ok (f x) = true) before ->
  f x = Raise e ->
  comprehension f (before ++ x :: after) = Raise e.
Proof.
  intros Hbefore Hx. induction Hbefore as [|y before Hy _ IH]; simpl.
  - rewrite Hx. reflexivity.
  - apply is_ok_true in Hy as [b ->]. rewrite IH. reflexivity.
Qed.

(** A loop that appends one computed element per turn. *)
Lemma for_each_append {A B} (f : A -> result B) l acc :
  for_each (fun acc x => y ← f x; Ok (acc ++ [y])) l acc
  = (ys ← comprehension f l; Ok (acc ++ ys)).
Proof.
  revert acc. induction l as [|x l IH]; intros acc; simpl.
  - rewrite app_nil_r. reflexivity.
  - destruct (f x) as [y|e]; simpl; [|reflexivity].
    rewrite IH. destruct (comprehension f l) as [ys|e]; simpl; [|reflexivity].
    rewrite <- app_assoc. reflexivity.
Qed.

Lemma for_each_invariant {A S} (P : S -> Prop)
    (body : S -> A -> result S) l acc r :
  P acc ->
  (forall s x s', P s -> x ∈ l -> body s x = Ok s' -> P s') ->
  for_each body l acc = Ok r -> P r.
Proof.
  revert acc. induction l as [|x l IH]; intros acc Hacc Hstep; simpl.
  - intros [= <-]. exact Hacc.
  - destruct (body acc x) as [acc'|e] eqn:Hx; [|discriminate].
    apply IH.
    + eapply Hstep; [exact Hacc | left | exact Hx].
    + intros s y s' Hs Hy. apply Hstep; [exact Hs | right; exact Hy].
Qed.

Lemma comprehension_pure {A B} (f : A -> B) l :
  comprehension (fun x => Ok (f x)) l = Ok (f <$> l).
Proof.
  induction l as [|x l IH]; simpl; [reflexivity|]. rewrite IH. reflexivity.
Qed.

(** ** Strings *)

Lemma prefix_append (a b : string) :
  String.prefix a b = true <-> exists after, b = a +:+ after.
Proof.
  revert b. induction a as [|c a IH]; intros b; simpl.
  - split; [intros _; exists b; reflexivity | intros _; destruct b; reflexivity].
  - destruct b as [|d b]; simpl.
    + split; [discriminate | intros (after & Hb); discriminate].
    + destruct (ascii_dec c d) as [->|Hne].
      * rewrite IH. split; intros (after & Hb); exists after.
        -- rewrite Hb. reflexivity.
        -- injection Hb as ->. reflexivity.
      * split; [discriminate|]. intros (after & [= Hd _]). congruence.
Qed.

Lemma contains_nil (a : string) :
  contains EmptyString a = String.prefix a EmptyString || false.
Proof. reflexivity. Qed.

Lemma contains_cons (c : ascii) (b a : string) :
  contains (String c b) a = String.prefix a (String c b) || contains b a.
Proof. reflexivity. Qed.

(** [a in b] holds exactly when [a] is a contiguous part of [b]. *)
Lemma contains_append (b a : string) :
  contains b a = true <-> exists before after, b = before +:+ a +:+ after.
Proof.
  split.
  - induction b as [|c b IH].
    + rewrite contains_nil, orb_false_r. intros (after & Hb)%prefix_append.
      exists EmptyString, after. exact Hb.
    + rewrite contains_cons.
      intros [(after & Hb)%prefix_append | Hb]%orb_true_iff.
      * exists EmptyString, after. exact Hb.
      * destruct (IH Hb) as (before & after & ->).
        exists (String c before), after. reflexivity.
  - intros (before & after & ->).
    induction before as [|c before IH].
    + assert (Hp : String.prefix a (a +:+ after) = true)
        by (apply prefix_append; eauto).
      change (EmptyString +:+ a +:+ after) with (a +:+ after).
      destruct (a +:+ after).
      * rewrite contains_nil, Hp. reflexivity.
      * rewrite contains_cons, Hp. reflexivity.
    + change (String c before +:+ a +:+ after)
        with (String c (before +:+ a +:+ after)).
      rewrite contains_cons, IH. apply orb_true_r.
Qed.

Lemma lower_append (a b : string) : lower (a +:+ b) = lower a +:+ lower b.
Proof.
  induction a as [|c a IH]; simpl; [reflexivity|]. rewrite IH. reflexivity.
Qed.

Lemma lower_split (s x y : string) :
  lower s = x +:+ y ->
  exists s1 s2, s = s1 +:+ s2 /\ lower s1 = x /\ lower s2 = y.
Proof.
  revert s. induction x as [|c x IH]; intros s; simpl.
  - intros Hy. exists EmptyString, s. repeat split. exact Hy.
  - destruct s as [|d s]; simpl; [discriminate|].
    intros [= Hc Hs]. destruct (IH s Hs) as (s1 & s2 & -> & Hs1 & Hs2).
    exists (String d s1), s2. simpl. rewrite Hc, Hs1. repeat split.
    exact Hs2.
Qed.

(** ** The literals [int] refuses *)









(** ** Sorting *)

Section SortFacts.
Context {A K : Type} (lt : K -> K -> bool).
Hypothesis lt_asym : forall a b, lt a b = true -> lt b a = false.

Lemma insort_perm (x : K * A) l : insort lt x l ≡ₚ x :: l.
Proof.
  induction l as [|y l IH]; simpl; [reflexivity|].
  destruct (lt x.1 y.1); [reflexivity|].
  rewrite IH. apply Permutation_swap.
Qed.

Lemma sort_decorated_perm_acc (l acc : list (K * A)) :
  fold_left (fun acc x => insort lt x acc) l acc ≡ₚ l ++ acc.
Proof.
  revert acc. induction l as [|x l IH]; intros acc; simpl; [reflexivity|].
  rewrite IH, insort_perm. symmetry. apply Permutation_middle.
Qed.

Lemma sort_decorated_perm (l : list (K * A)) : sort_decorated lt l ≡ₚ l.
Proof.
  unfold sort_decorated. rewrite sort_decorated_perm_acc.
  rewrite app_nil_r. reflexivity.
Qed.

Lemma insort_hd (x : K * A) l (a : K * A) :
  not_above lt a x -> HdRel (not_above lt) a l -> HdRel (not_above lt) a (insort lt x l).
Proof.
  intros Hax Hal. destruct l as [|y l]; simpl.
  - constructor. exact Hax.
  - destruct (lt x.1 y.1); constructor; [exact Hax|].
    inversion Hal; assumption.
Qed.

Lemma insort_sorted (x : K * A) l :
  Sorted (not_above lt) l -> Sorted (not_above lt) (insort lt x l).
Proof.
  induction 1 as [|y l Hl IH Hy]; simpl.
  - repeat constructor.
  - destruct (lt x.1 y.1) eqn:Hxy.
    + constructor; [constructor; assumption|].
      constructor. unfold not_above. apply lt_asym. exact Hxy.
    + constructor; [exact IH|]. apply insort_hd; [exact Hxy | exact Hy].
Qed.

Lemma sort_decorated_sorted_acc (l acc : list (K * A)) :
  Sorted (not_above lt) acc ->
  Sorted (not_above lt) (fold_left (fun acc x => insort lt x acc) l acc).
Proof.
  revert acc. induction l as [|x l IH]; intros acc Hacc; simpl; [exact Hacc|].
  apply IH, insort_sorted, Hacc.
Qed.

Lemma sort_decorated_sorted (l : list (K * A)) :
  Sorted (not_above lt) (sort_decorated lt l).
Proof. apply sort_decorated_sorted_acc. constructor. Qed.

(** What [sorted] does to the decorated list: it permutes it into order,
    and drops the keys. *)
Lemma sort_keyed_spec (reverse : bool) (decorated : list (K * A)) :
  exists arranged,
    sort_keyed lt reverse decorated = arranged.*2 /\
    arranged ≡ₚ decorated /\
    in_order lt reverse arranged.
Proof.
  unfold sort_keyed, in_order. destruct reverse.
  - eexists. split; [reflexivity|]. split.
    + rewrite reverse_Permutation, sort_decorated_perm.
      apply reverse_Permutation.
    + apply (Sorted_reverse (not_above lt)), sort_decorated_sorted.
  - eexists. split; [reflexivity|]. split.
    + apply sort_decorated_perm.
    + apply sort_decorated_sorted.
Qed.

(** [sorted] with a key that cannot raise: a permutation, in the order of
    the keys. *)
Lemma sorted_spec (key : A -> K) (reverse : bool) (l : list A) :
  sorted lt key reverse l ≡ₚ l /\
  Sorted (fun a b => if reverse then lt (key a) (key b) = false
                     else lt (key b) (key a) = false)
    (sorted lt key reverse l).
Proof.
  unfold sorted.
  destruct (sort_keyed_spec reverse (zip (key <$> l) l))
    as (arranged & -> & Hperm & Horder).
  assert (Hkeys : Forall (fun p => p.1 = key p.2) arranged).
  { rewrite Hperm. clear. induction l as [|x l IH]; simpl.
    - constructor.
    - constructor; [reflexivity | exact IH]. }
  split.
  - rewrite Hperm. rewrite snd_zip; [reflexivity|].
    rewrite length_fmap. reflexivity.
  - clear Hperm. unfold in_order in Horder.
    destruct reverse.
    + induction Horder as [|p arranged Hs IH Hhd]; simpl; [constructor|].
      apply Forall_cons in Hkeys as [Hp Hkeys].
      constructor; [apply IH, Hkeys|].
      destruct Hhd as [|q arranged Hpq]; simpl; constructor.
      apply Forall_cons in Hkeys as [Hq _].
      unfold not_below in Hpq. rewrite Hp, Hq in Hpq. exact Hpq.
    + induction Horder as [|p arranged Hs IH Hhd]; simpl; [constructor|].
      apply Forall_cons in Hkeys as [Hp Hkeys].
      constructor; [apply IH, Hkeys|].
      destruct Hhd as [|q arranged Hpq]; simpl; constructor.
      apply Forall_cons in Hkeys as [Hq _].
      unfold not_above in Hpq. rewrite Hp, Hq in Hpq. exact Hpq.
Qed.

(** [sorted] with a key that can raise: when it returns, the keys were all
    computed, and the list is a permutation in the order of its keys. *)
Lemma sorted_raising_spec (key : A -> result K) (reverse : bool)
    (l sm : list A) :
  sorted_raising lt key reverse l = Ok sm ->
  exists keys,
    Forall2 (fun x k => key x = Ok k) sm keys /\
    sm ≡ₚ l /\
    Sorted (fun a b => if reverse then lt a b = false else lt b a = false)
      keys.
Proof.
  unfold sorted_raising.
  destruct (comprehension key l) as [keys0|e] eqn:Hkeys0; simpl;
    [|discriminate].
  intros [= <-]. apply comprehension_ok in Hkeys0.
  destruct (sort_keyed_spec reverse (zip keys0 l))
    as (arranged & -> & Hperm & Horder).
  assert (Hkeys : Forall (fun p => key p.2 = Ok p.1) arranged).
  { rewrite Hperm. clear -Hkeys0.
    induction Hkeys0 as [|x k l keys0 Hx _ IH]; simpl; constructor;
      assumption. }
  exists (arranged.*1). split; [|split].
  - clear -Hkeys. induction Hkeys as [|p arranged Hp _ IH]; simpl;
      constructor; assumption.
  - rewrite Hperm. rewrite snd_zip; [reflexivity|].
    apply Forall2_length in Hkeys0. lia.
  - clear -Horder. unfold in_order in Horder. destruct reverse.
    + induction Horder as [|p arranged Hs IH Hhd]; simpl; constructor;
        [exact IH|].
      destruct Hhd as [|q arranged Hpq]; simpl; constructor. exact Hpq.
    + induction Horder as [|p arranged Hs IH Hhd]; simpl; constructor;
        [exact IH|].
      destruct Hhd as [|q arranged Hpq]; simpl; constructor. exact Hpq.
Qed.


End SortFacts.

(** ** The order of floats *)

Lemma SFcompare_antisym x y : SFcompare y x = CompOpp <$> SFcompare x y.
Proof.
  destruct x as [sx|sx| |sx mx ex], y as [sy|sy| |sy my ey]; simpl;
    try reflexivity;
    try (destruct sx; reflexivity); try (destruct sy; reflexivity);
    try (destruct sx, sy; reflexivity).
  destruct sx, sy; simpl; try reflexivity;
    rewrite (Z.compare_antisym ex ey);
    destruct (ex ?= ey)%Z; simpl; try reflexivity.
  all: change (Pos.compare_cont Eq my mx) with (Pos.compare my mx);
    change (Pos.compare_cont Eq mx my) with (Pos.compare mx my);
    rewrite (Pos.compare_antisym mx my);
    destruct (Pos.compare mx my); reflexivity.
Qed.

Lemma float_ltb_asym (x y : float) :
  (x <? y)%float = true -> (y <? x)%float = false.
Proof.
  rewrite !FloatAxioms.ltb_spec. unfold SFltb.
  rewrite (SFcompare_antisym (Prim2SF x) (Prim2SF y)).
  destruct (SFcompare (Prim2SF x) (Prim2SF y)) as [[]|]; simpl; congruence.
Qed.

Lemma is_nan_false (x : float) : is_nan x = false -> Prim2SF x <> S754_nan.
Proof.
  unfold is_nan. rewrite FloatAxioms.eqb_spec. intros H E.
  rewrite E in H. discriminate.
Qed.

Lemma SFcompare_defined x y :
  x <> S754_nan -> y <> S754_nan -> is_Some (SFcompare x y).
Proof. destruct x, y; simpl; intros; try congruence; eauto. Qed.

(** Off the NaN, a float that is not below another is at least that one. *)
Lemma float_not_ltb_leb (x y : float) :
  is_nan x = false -> is_nan y = false ->
  (y <? x)%float = false -> (x <=? y)%float = true.
Proof.
  intros Hx%is_nan_false Hy%is_nan_false.
  rewrite FloatAxioms.ltb_spec, FloatAxioms.leb_spec. unfold SFltb, SFleb.
  rewrite (SFcompare_antisym (Prim2SF x) (Prim2SF y)).
  destruct (SFcompare_defined _ _ Hx Hy) as [c ->].
  destruct c; simpl; congruence.
Qed.

End PyFacts.

(** * The result envelope *)

Module EnvelopeFacts.
Import Py Providers Collaborators Envelope LLMS.

(** C6. The three accessors of an envelope collapse alike: on exactly one
    result each returns the value of that result; otherwise each returns the
    list of the values of the results, in their order and hence as long as
    the results; so one is a scalar exactly when the others are. *)
Theorem accessors_collapse_alike `{Externals} (self : Result) :
  (forall result,
     _results self = [result] ->
     text self = Scalar (completion_text result) /\
     html self = Scalar (markdown (completion_text result)) /\
     meta self = Scalar (completion_meta result)) /\
  (length (_results self) <> 1%nat ->
     text self = Sequence (completion_text <$> _results self) /\
     html self
       = Sequence ((fun r => markdown (completion_text r)) <$> _results self) /\
     meta self = Sequence (completion_meta <$> _results self)) /\
  is_scalar (html self) = is_scalar (text self) /\
  is_scalar (meta self) = is_scalar (text self) /\
  (is_scalar (text self) = true <-> length (_results self) = 1%nat).
Proof.
  unfold text, html, meta. destruct (_results self) as [|r [|r' rs]]; simpl.
  - repeat split; intros; try discriminate; try lia.
  - repeat split; intros; try lia.
    all: match goal with Heq : [_] = [_] |- _ => injection Heq as -> end.
    all: reflexivity.
  - repeat split; intros; try discriminate; try lia.
Qed.

(** The three accessors on one result and on two. *)
Lemma accessors_collapse_alike_witness :
  let a := Completion "a" (Meta 3 "0.00001" 1) Demo.gpt4 in
  let b := Completion "b" (Meta 4 "0.00002" 2) Demo.j2 in
  (text (MkResult [a]) = Scalar "a"%string /\
   @html Demo.externals (MkResult [a]) = Scalar "<p>a</p>"%string /\
   meta (MkResult [a]) = Scalar (Meta 3 "0.00001" 1)) /\
  (text (MkResult [a; b]) = Sequence ["a"; "b"]%string /\
   @html Demo.externals (MkResult [a; b])
   = Sequence ["<p>a</p>"; "<p>b</p>"]%string /\
   meta (MkResult [a; b])
   = Sequence [Meta 3 "0.00001" 1; Meta 4 "0.00002" 2]).
Proof.
  intros a b. split.
  - exact (proj1 (@accessors_collapse_alike Demo.externals (MkResult [a]))
             a eq_refl).
  - apply (proj1 (proj2 (@accessors_collapse_alike Demo.externals
                           (MkResult [a; b])))).
    simpl. lia.
Defined.

(** [complete] wraps one result for each future handed over, so the
    envelope of a dispatcher with [N] providers holds [N] results. *)
Lemma complete_results_length `{Externals} self prompt history kwargs
    completed r :
  completed ≡ₚ _providers self ->
  complete self prompt history kwargs completed = Ok r ->
  length (_results r) = length (_providers self).
Proof.
  intros Hperm. unfold complete.
  destruct (comprehension _ completed) as [results|e] eqn:Hc; simpl;
    [|discriminate].
  intros [= <-]. simpl.
  apply PyFacts.comprehension_length in Hc. rewrite Hc.
  apply Permutation_length, Hperm.
Qed.

End EnvelopeFacts.

(** * The dispatcher *)

Module DispatcherFacts.
Import Py Providers Collaborators Envelope LLMS.

(** C7. On a dispatcher with more than one provider, [acomplete] raises
    [NotImplementedError] and [complete_stream] yields nothing and raises
    [ValueError], whatever the prompt; on a dispatcher whose one provider is
    an AI21 adapter, [complete_stream] yields nothing and raises
    [ValueError] too. These are the exceptions the dispatcher uses for an
    unsupported operation. *)
Theorem unsupported_operations `{Externals} (self : LLMS) (prompt : string)
    (history : option history) (kwargs : kwargs) :
  ((1 < length (_providers self))%nat ->
     acomplete self prompt history kwargs
     = Raise (Exn NotImplementedError
                ["acomplete not supported for multi-models yet."%string]) /\
     complete_stream self prompt history kwargs
     = Trace [] (Some (Exn ValueError
                         ["Streaming is possible only with a single model"%string]))) /\
  (forall provider,
     _providers self = [provider] ->
     provider_class provider = AI21Provider ->
     complete_stream self prompt history kwargs
     = Trace [] (Some (Exn ValueError
                         ["Streaming is not yet supported with AI21 models"%string]))).
Proof.
  split.
  - intros Hmany. unfold acomplete, complete_stream.
    apply Nat.ltb_lt in Hmany. rewrite Hmany. split; reflexivity.
  - intros provider Hone Hai21. unfold complete_stream.
    rewrite Hone. simpl. rewrite decide_True by exact Hai21. reflexivity.
Qed.

(** Two providers, and one AI21 provider. *)
Lemma unsupported_operations_witness :
  (@acomplete Demo.externals (MkLLMS [Demo.gpt4; Demo.j2]) "hi" None tt
   = Raise (Exn NotImplementedError
              ["acomplete not supported for multi-models yet."%string]) /\
   @complete_stream Demo.externals (MkLLMS [Demo.gpt4; Demo.j2]) "hi" None tt
   = Trace [] (Some (Exn ValueError
                       ["Streaming is possible only with a single model"%string]))) /\
  @complete_stream Demo.externals (MkLLMS [Demo.j2]) "hi" None tt
  = Trace [] (Some (Exn ValueError
                      ["Streaming is not yet supported with AI21 models"%string])).
Proof.
  split.
  - apply (proj1 (@unsupported_operations Demo.externals
                    (MkLLMS [Demo.gpt4; Demo.j2]) "hi" None tt)).
    simpl. lia.
  - apply (proj2 (@unsupported_operations Demo.externals
                    (MkLLMS [Demo.j2]) "hi" None tt) Demo.j2); reflexivity.
Defined.

(** C10. The constructor accepts an empty list of models and builds a
    dispatcher without provider; on it [acomplete] raises [IndexError], and
    [complete_stream] yields nothing and raises [IndexError]: the guard on
    more than one provider lets the empty list through to
    [self._providers[0]]. *)
Theorem empty_dispatcher `{Tables} `{Externals}
    (environ : gmap string string)
    (openai_api_key anthropic_api_key ai21_api_key : option string)
    (prompt : string) (history : option history) (kwargs : kwargs) :
  __init__ environ (ModelList []) openai_api_key anthropic_api_key
    ai21_api_key = Ok (MkLLMS []) /\
  acomplete (MkLLMS []) prompt history kwargs = Raise (Exn IndexError []) /\
  complete_stream (MkLLMS []) prompt history kwargs
  = Trace [] (Some (Exn IndexError [])).
Proof. repeat split. Qed.

(** The chain of tests of the constructor picks the first match. *)
Lemma select_provider_first_match `{Tables}
    (available : family -> option string) (name : string) :
  select_provider (available OpenAIProvider) (available AnthropicProvider)
    (available AI21Provider) name
  = match first_match available name with
    | Some provider => Ok provider
    | None =>
        Raise (Exn ValueError
                 ["Invalid API key and model combination"%string; name])
    end.
Proof.
  unfold select_provider, first_match, candidate, priority_order.
  cbn -[MODEL_INFO has_key].
  destruct (available OpenAIProvider),
    (has_key name (MODEL_INFO OpenAIProvider)),
    (available AnthropicProvider),
    (has_key name (MODEL_INFO AnthropicProvider)),
    (available AI21Provider),
    (has_key name (MODEL_INFO AI21Provider)); reflexivity.
Qed.

Ltac no_candidate :=
  repeat match goal with
         | |- Forall _ [] => constructor
         | |- Forall _ (_ :: _) =>
             constructor; [first [left; assumption | right; assumption]|]
         end.

(** What the first match is: the named model under the first family, in
    priority order, that has both the model and a credential. *)
Lemma first_match_first `{Tables} (available : family -> option string)
    (name : string) (provider : provider) :
  first_match available name = Some provider ->
  model provider = name /\
  available (provider_class provider) = Some (api_key provider) /\
  has_key name (MODEL_INFO (provider_class provider)) = true /\
  exists earlier later,
    priority_order = earlier ++ provider_class provider :: later /\
    Forall (fun f => available f = None
                     \/ has_key name (MODEL_INFO f) = false) earlier.
Proof.
  unfold first_match, candidate, priority_order.
  cbn -[MODEL_INFO has_key].
  destruct (available OpenAIProvider) as [k1|] eqn:H1;
    [destruct (has_key name (MODEL_INFO OpenAIProvider)) eqn:T1|];
    cbn -[MODEL_INFO has_key].
  1: { intros [= <-]. cbn -[MODEL_INFO has_key].
       split; [reflexivity|]. split; [assumption|]. split; [assumption|].
       exists [], [AnthropicProvider; AI21Provider]. split; [reflexivity|].
       no_candidate. }
  all: destruct (available AnthropicProvider) as [k2|] eqn:H2;
    [destruct (has_key name (MODEL_INFO AnthropicProvider)) eqn:T2|];
    cbn -[MODEL_INFO has_key].
  1, 4: intros [= <-]; cbn -[MODEL_INFO has_key];
    (split; [reflexivity|]); (split; [assumption|]); (split; [assumption|]);
    exists [OpenAIProvider], [AI21Provider];
    (split; [reflexivity|]); no_candidate.
  all: destruct (available AI21Provider) as [k3|] eqn:H3;
    [destruct (has_key name (MODEL_INFO AI21Provider)) eqn:T3|];
    cbn -[MODEL_INFO has_key].
  all: try discriminate.
  all: intros [= <-]; cbn -[MODEL_INFO has_key];
    (split; [reflexivity|]); (split; [assumption|]); (split; [assumption|]);
    exists [OpenAIProvider; AnthropicProvider], [];
    (split; [reflexivity|]); no_candidate.
Qed.

(** C8. The constructor resolves each requested model name to its first
    match: the first backend family, in the fixed priority order, whose
    table contains the name and for which a credential is available. When
    every name has a match the dispatcher holds the matches in the order of
    the names; at the first name without a match the constructor raises
    [ValueError] with that name as an argument. Without a model argument and
    without [LLMS_DEFAULT_MODEL] in the environment the one requested name
    is ["gpt-3.5-turbo"]. *)
Theorem constructor_resolves `{Tables} (environ : gmap string string)
    (model : model_arg) (given : family -> option string) :
  let available := credential environ given in
  let names := requested_models environ model in
  let built :=
    __init__ environ model (given OpenAIProvider) (given AnthropicProvider)
      (given AI21Provider) in
  (forall providers,
     Forall2 (fun name provider => first_match available name = Some provider)
       names providers ->
     built = Ok (MkLLMS providers)) /\
  (forall resolved bad rest,
     names = resolved ++ bad :: rest ->
     Forall (fun name => is_Some (first_match available name)) resolved ->
     first_match available bad = None ->
     built = Raise (Exn ValueError
                      ["Invalid API key and model combination"%string; bad])) /\
  (forall name provider,
     first_match available name = Some provider ->
     Providers.model provider = name /\
     available (provider_class provider) = Some (api_key provider) /\
     has_key name (MODEL_INFO (provider_class provider)) = true /\
     exists earlier later,
       priority_order = earlier ++ provider_class provider :: later /\
       Forall (fun f => available f = None
                        \/ has_key name (MODEL_INFO f) = false) earlier) /\
  (model = ModelNone ->
   environ !! "LLMS_DEFAULT_MODEL"%string = None ->
   names = ["gpt-3.5-turbo"%string]).
Proof.
  intros available names built.
  assert (Hbuilt : built
    = (providers ← comprehension
         (select_provider (available OpenAIProvider)
            (available AnthropicProvider) (available AI21Provider)) names;
       Ok (MkLLMS providers))).
  { unfold built, __init__, getenv, available, credential, names,
      requested_models. cbn [environment_name].
    rewrite PyFacts.for_each_append.
    destruct (given OpenAIProvider), (given AnthropicProvider),
      (given AI21Provider), model;
      try destruct (environ !! "LLMS_DEFAULT_MODEL"%string);
      match goal with
      | |- context [comprehension ?f ?l] =>
          destruct (comprehension f l); reflexivity
      end. }
  split; [|split; [|split]].
  - intros providers Hall. rewrite Hbuilt.
    replace (comprehension _ names) with (Ok (A:=list provider) providers);
      [reflexivity|].
    symmetry. apply PyFacts.comprehension_ok.
    eapply Forall2_impl; [exact Hall|]. intros name p Hp. simpl in Hp.
    rewrite select_provider_first_match, Hp. reflexivity.
  - intros resolved bad rest Hnames Hresolved Hbad. rewrite Hbuilt, Hnames.
    rewrite (PyFacts.comprehension_first_raise _ resolved bad rest
               (Exn ValueError
                  ["Invalid API key and model combination"%string; bad])).
    + reflexivity.
    + eapply Forall_impl; [exact Hresolved|]. intros name [p Hp].
      rewrite select_provider_first_match, Hp. reflexivity.
    + rewrite select_provider_first_match, Hbad. reflexivity.
  - intros name provider. apply first_match_first.
  - intros -> Hnone. unfold names, requested_models. rewrite Hnone.
    reflexivity.
Qed.

(** Two names that resolve to different families, and a name that does
    not resolve. *)
Lemma constructor_resolves_witness :
  let environ : gmap string string := {[ "OPENAI_API_KEY" := "sk-1" ]}%string in
  let given f :=
    match f with AI21Provider => Some "ai21-1"%string | _ => None end in
  @__init__ Demo.tables environ (ModelList ["gpt-4"; "j2-ultra"]%string)
    None None (Some "ai21-1"%string)
  = Ok (MkLLMS [Demo.gpt4; Demo.j2]) /\
  @__init__ Demo.tables environ (ModelList ["gpt-4"; "claude-instant-1"]%string)
    None None (Some "ai21-1"%string)
  = Raise (Exn ValueError
             ["Invalid API key and model combination"; "claude-instant-1"]%string) /\
  @__init__ Demo.tables environ ModelNone None None (Some "ai21-1"%string)
  = Ok (MkLLMS [Provider OpenAIProvider "sk-1" "gpt-3.5-turbo"]).
Proof.
  intros environ given. split; [|split].
  - apply (proj1 (@constructor_resolves Demo.tables environ
                    (ModelList ["gpt-4"; "j2-ultra"]%string) given)).
    repeat constructor.
  - apply (proj1 (proj2 (@constructor_resolves Demo.tables environ
                           (ModelList ["gpt-4"; "claude-instant-1"]%string)
                           given))
             ["gpt-4"%string] "claude-instant-1"%string []).
    + reflexivity.
    + repeat constructor. eexists. reflexivity.
    + reflexivity.
  - apply (proj1 (@constructor_resolves Demo.tables environ ModelNone given)).
    repeat constructor.
Defined.

End DispatcherFacts.

(** * The catalog: [LLMS.list] *)

Module CatalogFacts.
Import Py Providers Collaborators LLMS.

(** The test of the source, lower-casing both strings and searching one in
    the other, decides the occurrence when case is ignored. *)
Lemma contains_lower (query s : string) :
  contains (lower s) (lower query) = true <-> occurs_ignoring_case query s.
Proof.
  rewrite PyFacts.contains_append. split.
  - intros (before & after & Hs).
    apply PyFacts.lower_split in Hs as (s1 & s23 & -> & H1 & H23).
    apply PyFacts.lower_split in H23 as (s2 & s3 & -> & H2 & H3).
    exists s1, s2, s3. split; [reflexivity | exact H2].
  - intros (before & middle & after & -> & Hm).
    exists (lower before), (lower after).
    rewrite !PyFacts.lower_append, Hm. reflexivity.
Qed.

Lemma skipped_false (query : string) (f : family) (name : string) :
  skipped (Some query) f name = false <->
  occurs_ignoring_case query name
  \/ occurs_ignoring_case query (class_name f).
Proof.
  unfold skipped. destruct (String.eqb query "") eqn:Hempty; simpl.
  - apply String.eqb_eq in Hempty as ->. split; [|reflexivity].
    intros _. left. exists EmptyString, EmptyString, name.
    split; reflexivity.
  - rewrite <- !contains_lower.
    destruct (contains (lower name) (lower query)),
      (contains (lower (class_name f)) (lower query)); simpl;
      intuition discriminate.
Qed.

(** The entries [LLMS.list] collects before it sorts them. *)
Lemma collected_entries `{Tables} (query : option string) (e : model_entry) :
  e ∈ (provider ← [OpenAIProvider; AI21Provider; AnthropicProvider];
       '(model, cost) ← MODEL_INFO provider;
       if skipped query provider model then []
       else [ModelEntry (class_name provider) model cost])
  <-> exists f,
        (entry_name e, entry_cost e) ∈ MODEL_INFO f /\
        entry_provider e = class_name f /\
        skipped query f (entry_name e) = false.
Proof.
  rewrite list_elem_of_bind. split.
  - intros (f & He & _). apply list_elem_of_bind in He as ([name info] & He & Hin).
    destruct (skipped query f name) eqn:Hskip.
    + apply elem_of_nil in He. destruct He.
    + apply list_elem_of_singleton in He as ->. simpl. eauto.
  - intros (f & Hin & Hprovider & Hskip). exists f. split.
    + apply list_elem_of_bind. exists (entry_name e, entry_cost e).
      split; [|exact Hin]. simpl. rewrite Hskip.
      apply list_elem_of_singleton. destruct e; simpl in *. congruence.
    + rewrite !elem_of_cons. destruct f; auto.
Qed.

(** C9. For a query string, [LLMS.list] returns exactly the entries of the
    tables of the three known backend families, configured or not, whose
    model name or family name contains the query as a substring when case is
    ignored; and the list never decreases in the sum of prompt cost and
    completion cost: no entry is above its successor, and when no cost of a
    table is a NaN every entry is at most its successor. *)
Theorem listing_filters_and_sorts `{Tables} (self : LLMS) (query : string) :
  let listed := list_ self (Some query) in
  (forall e,
     e ∈ listed <->
     (exists f,
        (entry_name e, entry_cost e) ∈ MODEL_INFO f /\
        entry_provider e = class_name f) /\
     (occurs_ignoring_case query (entry_name e)
      \/ occurs_ignoring_case query (entry_provider e))) /\
  Sorted (fun a b => (unit_cost b <? unit_cost a)%float = false) listed /\
  ((forall f name info,
      (name, info) ∈ MODEL_INFO f ->
      is_nan (prompt info + completion info) = false) ->
   Sorted (fun a b => (unit_cost a <=? unit_cost b)%float = true) listed).
Proof.
  intros listed.
  assert (Hspec :
    listed ≡ₚ (provider ← [OpenAIProvider; AI21Provider; AnthropicProvider];
               '(model, cost) ← MODEL_INFO provider;
               if skipped (Some query) provider model then []
               else [ModelEntry (class_name provider) model cost]) /\
    Sorted (fun a b => (unit_cost b <? unit_cost a)%float = false) listed)
    by exact (PyFacts.sorted_spec PrimFloat.ltb PyFacts.float_ltb_asym
                unit_cost false _).
  destruct Hspec as [Hperm Hsorted].
  assert (Hmember : forall e,
     e ∈ listed <->
     (exists f,
        (entry_name e, entry_cost e) ∈ MODEL_INFO f /\
        entry_provider e = class_name f) /\
     (occurs_ignoring_case query (entry_name e)
      \/ occurs_ignoring_case query (entry_provider e))).
  { intros e. rewrite Hperm, collected_entries. split.
    - intros (f & Hin & Hprovider & Hskip). split; [eauto|].
      apply skipped_false in Hskip. rewrite Hprovider. exact Hskip.
    - intros ((f & Hin & Hprovider) & Hoccurs). exists f.
      split; [exact Hin|]. split; [exact Hprovider|].
      apply skipped_false. rewrite <- Hprovider. exact Hoccurs. }
  split; [exact Hmember|]. split; [exact Hsorted|].
  intros Hnan.
  assert (Hall : Forall (fun e => is_nan (unit_cost e) = false) listed).
  { apply Forall_forall. intros e He. apply Hmember in He as [[f [Hin _]] _].
    exact (Hnan f _ _ Hin). }
  clear -Hsorted Hall.
  induction Hsorted as [|a l Hl IH Hhd]; [constructor|].
  apply Forall_cons in Hall as [Ha Hall]. constructor; [apply IH, Hall|].
  destruct Hhd as [|b l Hab]; constructor.
  apply Forall_cons in Hall as [Hb _].
  apply PyFacts.float_not_ltb_leb; assumption.
Qed.

(** The query ["O1"] lists the three models whose name contains it. *)
Lemma listing_filters_and_sorts_witness :
  entry_name <$> @list_ Demo.tables (MkLLMS []) (Some "O1"%string)
  = ["o1-mini"; "o1-preview"; "o1"]%string /\
  Sorted (fun a b => (unit_cost a <=? unit_cost b)%float = true)
    (@list_ Demo.tables (MkLLMS []) (Some "O1"%string)).
Proof.
  split; [vm_compute; reflexivity|].
  apply (proj2 (proj2 (@listing_filters_and_sorts Demo.tables (MkLLMS [])
                         "O1"%string))).
  intros f name info Hin.
  destruct f; cbv [MODEL_INFO OpenAI_MODEL_INFO Anthropic_MODEL_INFO
                     AI21_MODEL_INFO Demo.tables] in Hin;
    repeat (apply elem_of_cons in Hin as [[= -> ->]|Hin];
            [vm_compute; reflexivity|]);
    apply elem_of_nil in Hin; destruct Hin.
Defined.

End CatalogFacts.

(** * The benchmark *)

Module BenchmarkFacts.
Import Py Providers Collaborators LLMS Benchmark.

(** ** The median *)

Lemma getitem_lt {A} (l : list A) (i : nat) :
  (i < length l)%nat -> exists x, getitem l i = Ok x /\ l !! i = Some x.
Proof.
  intros Hi. unfold getitem.
  destruct (lookup_lt_is_Some_2 l i Hi) as [x Hx]. rewrite Hx. eauto.
Qed.

Lemma getitem_ok {A} (l : list A) (i : nat) (x : A) :
  getitem l i = Ok x <-> l !! i = Some x.
Proof.
  unfold getitem. destruct (l !! i); split; intros [=]; subst; reflexivity.
Qed.


Lemma halve (x : float) : truediv_float_int x 2 = Ok (x / 2)%float.
Proof. reflexivity. Qed.

(** [statistics.median] returns the median of data that are not empty. *)
Lemma median_spec (data : list float) :
  data <> [] -> exists m, median data = Ok m /\ is_median data m.
Proof.
  intros Hdata. unfold median, is_median.
  destruct (PyFacts.sorted_spec PrimFloat.ltb PyFacts.float_ltb_asym
              (fun x => x) false data) as [Hperm Hsorted].
  set (ordered := sorted PrimFloat.ltb (fun x => x) false data) in *.
  assert (Hlen : length ordered = length data)
    by (apply Permutation_length, Hperm).
  rewrite Hlen.
  assert (Hpos : (0 < length data)%nat)
    by (destruct data; [congruence | simpl; lia]).
  destruct (length data =? 0)%nat eqn:Hzero;
    [apply Nat.eqb_eq in Hzero; lia|].
  pose proof (Nat.div_lt (length data) 2 Hpos ltac:(lia)) as Hhalf.
  destruct (length data mod 2 =? 1)%nat eqn:Hodd.
  - destruct (getitem_lt ordered (length data / 2)) as (m & Hm & Hlook);
      [lia|].
    exists m. split; [exact Hm|]. exists ordered.
    split; [exact Hperm|]. split; [exact Hsorted|].
    apply Nat.eqb_eq in Hodd. cbv zeta.
    replace (Nat.odd (length data)) with true; [exact Hlook|].
    symmetry. apply Nat.odd_spec. exists (length data / 2)%nat.
    rewrite (Nat.div_mod_eq (length data) 2) at 1. lia.
  - apply Nat.eqb_neq in Hodd.
    assert (Heven : (length data mod 2 = 0)%nat).
    { pose proof (Nat.mod_upper_bound (length data) 2). lia. }
    assert (H2 : (2 <= length data)%nat).
    { pose proof (Nat.div_mod_eq (length data) 2). lia. }
    assert (Hhalf' : (1 <= length data / 2)%nat).
    { pose proof (Nat.div_mod_eq (length data) 2). lia. }
    destruct (getitem_lt ordered (length data / 2 - 1)) as (a & Ha & Hla);
      [lia|].
    destruct (getitem_lt ordered (length data / 2)) as (b & Hb & Hlb);
      [lia|].
    exists ((a + b) / 2)%float. rewrite Ha, Hb. simpl.
    split; [apply halve|]. exists ordered.
    split; [exact Hperm|]. split; [exact Hsorted|]. cbv zeta.
    replace (Nat.odd (length data)) with false; [eauto|].
    symmetry. rewrite <- Nat.negb_even. apply negb_false_iff.
    apply Nat.even_spec. exists (length data / 2)%nat.
    rewrite (Nat.div_mod_eq (length data) 2) at 1. lia.
Qed.

Lemma median_empty : median [] = Raise (Exn StatisticsError []).
Proof. reflexivity. Qed.

(** ** The aggregates of one run *)

Lemma collect_outputs (outs : list prompt_outcome) :
  outputs (collect outs) = outs /\
  total_latency (collect outs) = accumulate (latency <$> outs) /\
  total_cost (collect outs) = accumulate (cost <$> outs).
Proof. repeat split. Qed.

(** When the aggregation of a run returns, the aggregates hold. *)
Lemma aggregate_ok (run run' : benchmark_run) :
  total_latency run = accumulate (latency <$> outputs run) ->
  total_cost run = accumulate (cost <$> outputs run) ->
  aggregate run = Ok run' ->
  outputs run' = outputs run /\ evaluation run' = evaluation run /\
  aggregates_hold run'.
Proof.
  intros Hlatency Hcost. unfold aggregate. intros Hrun.
  destruct (outputs run) as [|o outs] eqn:Houts; [discriminate Hrun|].
  destruct (median_spec (latency <$> o :: outs)) as (m & Hm & Hmedian);
    [discriminate|].
  rewrite Hm in Hrun. simpl in Hrun. unfold truediv_int_float in Hrun.
  destruct (float_of_int _) as [t|e] eqn:Ht; simpl in Hrun;
    [|discriminate Hrun].
  unfold truediv in Hrun.
  destruct (total_latency run =? 0)%float eqn:Hzero; [discriminate Hrun|].
  injection Hrun as <-. unfold aggregates_hold. simpl.
  split; [reflexivity|]. split; [reflexivity|].
  split; [exact Hlatency|]. split; [exact Hcost|]. split.
  - exists m. split; [reflexivity | exact Hmedian].
  - exists t. split; [exact Ht|]. split; [exact Hzero | reflexivity].
Qed.

(** The aggregation of a run returns when the run has an outcome at least,
    the token total converts to a float and the total latency is not
    zero. *)
Lemma aggregate_total (run : benchmark_run) :
  outputs run <> [] ->
  is_ok (float_of_int (sum_int (tokens <$> outputs run))) = true ->
  (total_latency run =? 0)%float = false ->
  exists run', aggregate run = Ok run'.
Proof.
  intros Houts Htokens Hzero. unfold aggregate.
  destruct (median_spec (latency <$> outputs run)) as (m & -> & _).
  { destruct (outputs run); [congruence | discriminate]. }
  apply PyFacts.is_ok_true in Htokens as [t Ht]. simpl.
  unfold truediv_int_float. rewrite Ht. simpl. unfold truediv.
  rewrite Hzero. eauto.
Qed.

(** ** Every run of a benchmark *)

Lemma setitem_Forall {V} (P : V -> Prop) (k : provider) (v : V)
    (d : list (provider * V)) :
  Forall (fun entry => P entry.2) d -> P v ->
  Forall (fun entry => P entry.2) (setitem k v d).
Proof.
  intros Hd Hv. induction Hd as [|[k' v'] d Hk' Hd IH]; simpl.
  - repeat constructor. exact Hv.
  - destruct (decide (k = k')); constructor; assumption.
Qed.

(** Every entry the loop over the futures makes holds the outcomes of one
    provider and their two totals. *)
Lemma collect_all_entries `{Externals} (prompts : list string)
    (schedule : list (provider * list nat))
    (model_results : list (provider * benchmark_run)) :
  collect_all prompts schedule = Ok model_results ->
  Forall (fun entry => exists outs, entry.2 = collect outs) model_results.
Proof.
  unfold collect_all. apply PyFacts.for_each_invariant.
  - constructor.
  - intros acc [model handed_over] acc' Hacc _ Hstep. simpl in Hstep.
    destruct (process_prompts_sequentially model prompts handed_over)
      as [[model' outs]|e]; simpl in Hstep; [|discriminate].
    injection Hstep as <-.
    apply (setitem_Forall (fun run => exists outs, run = collect outs));
      [exact Hacc | eauto].
Qed.

Lemma for_each_model_ok (body : benchmark_run -> result benchmark_run)
    (model_results model_results' : list (provider * benchmark_run)) :
  for_each_model body model_results = Ok model_results' ->
  Forall2 (fun entry entry' =>
             entry'.1 = entry.1 /\ body entry.2 = Ok entry'.2)
    model_results model_results'.
Proof.
  unfold for_each_model. intros Hall%PyFacts.comprehension_ok.
  eapply Forall2_impl; [exact Hall|].
  intros [model run] [model' run'] Hbody. simpl in *.
  destruct (body run) as [run''|e]; simpl in Hbody; [|discriminate].
  injection Hbody as <- <-. split; reflexivity.
Qed.

Lemma for_each_model_keys (body : benchmark_run -> result benchmark_run)
    (model_results model_results' : list (provider * benchmark_run)) :
  for_each_model body model_results = Ok model_results' ->
  model_results'.*1 = model_results.*1.
Proof.
  intros Hall%for_each_model_ok.
  induction Hall as [|e e' l l' [He _] _ IH]; [reflexivity|].
  rewrite !fmap_cons. f_equal; [exact He | exact IH].
Qed.

(** The evaluation of a run leaves its outcomes and aggregates as they
    are. *)
Lemma evaluate_model_aggregates `{Externals} (evaluator : LLMS)
    (prompts : list string) (run run' : benchmark_run) :
  evaluate_model evaluator prompts run = Ok run' ->
  aggregates_hold run -> aggregates_hold run'.
Proof.
  unfold evaluate_model. intros Hrun.
  destruct (comprehension _ (outputs run)) as [pairs|e];
    [|discriminate Hrun].
  cbn [mbind result_bind] in Hrun.
  destruct (evaluate_answers evaluator pairs) as [scores|e];
    [|discriminate Hrun].
  cbn [mbind result_bind] in Hrun.
  destruct (store_evaluation (length (outputs run)) scores) as [stored|e];
    [|discriminate Hrun].
  cbn [mbind result_bind] in Hrun.
  injection Hrun as <-. intros Hholds. exact Hholds.
Qed.

(** The aggregates hold of every run of a benchmark that reaches the
    ranking. *)
Lemma measure_aggregates `{Externals} (prompts : list string)
    (evaluator : option LLMS) (schedule : list (provider * list nat))
    (model_results : list (provider * benchmark_run))
    (sorted_models : list provider) :
  measure prompts evaluator schedule = Ok (model_results, sorted_models) ->
  Forall (fun entry => aggregates_hold entry.2) model_results.
Proof.
  unfold measure. intros Hm.
  destruct (collect_all prompts schedule) as [mr1|e] eqn:H1; simpl in Hm;
    [|discriminate].
  destruct (for_each_model aggregate mr1) as [mr2|e] eqn:H2; simpl in Hm;
    [|discriminate].
  assert (Hmr2 : Forall (fun entry => aggregates_hold entry.2) mr2).
  { apply collect_all_entries in H1. apply for_each_model_ok in H2.
    clear -H1 H2. induction H2 as [|e e' l l' [_ He] _ IH]; [constructor|].
    apply Forall_cons in H1 as [[outs Houts] H1].
    constructor; [|apply IH, H1].
    rewrite Houts in He. eapply aggregate_ok in He; [apply He|..];
      reflexivity. }
  destruct evaluator as [evaluator|].
  - destruct (for_each_model (evaluate_model evaluator prompts) mr2)
      as [mr3|e] eqn:H3; simpl in Hm; [|discriminate].
    destruct (rank true mr3) as [sm|e]; simpl in Hm; [|discriminate].
    injection Hm as <- <-. apply for_each_model_ok in H3.
    clear -H3 Hmr2. induction H3 as [|e e' l l' [_ He] _ IH]; [constructor|].
    apply Forall_cons in Hmr2 as [Hrun Hmr2].
    constructor; [|apply IH, Hmr2].
    eapply evaluate_model_aggregates; [exact He | exact Hrun].
  - destruct (rank false mr2) as [sm|e]; simpl in Hm; [|discriminate].
    injection Hm as <- <-. exact Hmr2.
Qed.

(** C3. When the total latency of the outcomes collected for a provider is
    zero, the computation of its aggregated speed returns no value, be it an
    infinity or a NaN: it raises. The exception is [ZeroDivisionError], the
    interpreter's own for a zero divisor, whenever the run has an outcome
    and the token total converts to a float. So no run of a benchmark that
    reaches the ranking has a total latency of zero. *)
Theorem zero_total_latency_raises `{Externals} :
  (forall outs,
     (accumulate (latency <$> outs) =? 0)%float = true ->
     is_ok (aggregate (collect outs)) = false /\
     (outs <> [] ->
      is_ok (float_of_int (sum_int (tokens <$> outs))) = true ->
      aggregate (collect outs) = Raise (Exn ZeroDivisionError []))) /\
  (forall prompts evaluator schedule model_results sorted_models,
     measure prompts evaluator schedule = Ok (model_results, sorted_models) ->
     Forall (fun entry => (total_latency entry.2 =? 0)%float = false)
       model_results).
Proof.
  split.
  - intros outs Hzero. unfold aggregate. simpl.
    destruct (median (latency <$> outs)) as [m|e] eqn:Hm; simpl.
    + unfold truediv_int_float.
      destruct (float_of_int _) as [t|e]; simpl.
      * unfold truediv. rewrite Hzero. split; [reflexivity|].
        intros _ _. reflexivity.
      * split; [reflexivity|]. intros _ [=].
    + split; [reflexivity|]. intros Houts _.
      destruct (median_spec (latency <$> outs)) as (m & Hm' & _).
      { destruct outs; [congruence | discriminate]. }
      congruence.
  - intros prompts evaluator schedule model_results sorted_models Hm.
    apply measure_aggregates in Hm.
    eapply Forall_impl; [exact Hm|].
    intros entry (_ & _ & _ & t & _ & Hzero & _). exact Hzero.
Qed.

(** One outcome that took no time. *)
Lemma zero_total_latency_raises_witness :
  aggregate (collect [OutputData "ok" 10 0 0.5 0])
  = Raise (Exn ZeroDivisionError []).
Proof.
  apply (proj2 (proj1 (@zero_total_latency_raises Demo.externals)
                  [OutputData "ok" 10 0 0.5 0] eq_refl)).
  - discriminate.
  - reflexivity.
Defined.

(** C4. In every benchmark that reaches the ranking, the aggregates of the
    run of each provider are: the total latency, the sum of the latencies of
    its outcomes; the total cost, the sum of their costs; the median
    latency, the median of the latencies; the aggregated speed, the sum of
    the token counts divided by the total latency. The aggregation returns
    them for every run that has an outcome, a token total that converts to
    a float and a total latency that is not zero. For the outcomes of 10
    and 20 tokens in one second each the aggregated speed is 15.0. *)
Theorem aggregates_of_each_run `{Externals} :
  (forall prompts evaluator schedule model_results sorted_models,
     measure prompts evaluator schedule = Ok (model_results, sorted_models) ->
     Forall (fun entry => aggregates_hold entry.2) model_results) /\
  (forall outs,
     outs <> [] ->
     is_ok (float_of_int (sum_int (tokens <$> outs))) = true ->
     (accumulate (latency <$> outs) =? 0)%float = false ->
     exists run,
       aggregate (collect outs) = Ok run /\
       outputs run = outs /\ aggregates_hold run) /\
  (forall text1 text2 cost1 cost2 index1 index2,
     aggregated_speed <$>
       aggregate (collect [OutputData text1 10 1.0 cost1 index1;
                           OutputData text2 20 1.0 cost2 index2])
     = Ok (Some 15.0%float)).
Proof.
  split; [|split].
  - intros prompts evaluator schedule model_results sorted_models.
    apply measure_aggregates.
  - intros outs Houts Htokens Hzero.
    destruct (aggregate_total (collect outs) Houts Htokens Hzero)
      as [run Hrun].
    exists run. split; [exact Hrun|].
    eapply aggregate_ok in Hrun as (Ho & _ & Hholds); [|reflexivity..].
    split; [exact Ho | exact Hholds].
  - intros. reflexivity.
Qed.

(** The two runs of the sample benchmark, and one run aggregated. *)
Lemma aggregates_of_each_run_witness :
  (exists model_results sorted_models,
     @measure Demo.externals Demo.two_prompts None Demo.schedule
     = Ok (model_results, sorted_models) /\
     Forall (fun entry => aggregates_hold entry.2) model_results) /\
  (exists run,
     aggregate (collect [OutputData "a" 10 1 0.5 0; OutputData "b" 20 1 0.5 1])
     = Ok run /\
     outputs run = [OutputData "a" 10 1 0.5 0; OutputData "b" 20 1 0.5 1] /\
     aggregates_hold run).
Proof.
  split.
  - destruct (@measure Demo.externals Demo.two_prompts None Demo.schedule)
      as [[model_results sorted_models]|e] eqn:Hm;
      [|vm_compute in Hm; discriminate Hm].
    exists model_results, sorted_models. split; [reflexivity|].
    exact (proj1 (@aggregates_of_each_run Demo.externals) _ _ _ _ _ Hm).
  - apply (proj1 (proj2 (@aggregates_of_each_run Demo.externals))).
    + discriminate.
    + reflexivity.
    + reflexivity.
Defined.

(** ** The ranking *)

Lemma ranking_key_ranked (scored : bool)
    (model_results : list (provider * benchmark_run)) (x : provider)
    (k : float) :
  ranking_key scored model_results x = Ok k <->
  ranked_by scored model_results x k.
Proof.
  unfold ranking_key, ranked_by, field, mul_float_int, sum_int. split.
  - intros Hk.
    destruct (getitem_dict model_results x) as [run|e]; [|discriminate Hk].
    cbn [mbind result_bind] in Hk.
    destruct (aggregated_speed run) as [speed|] eqn:Hspeed;
      [|discriminate Hk].
    cbn [mbind result_bind] in Hk. exists run, speed.
    split; [reflexivity|]. split; [exact Hspeed|].
    destruct scored.
    + destruct (evaluation run) as [scores|]; [|discriminate Hk].
      cbn [mbind result_bind] in Hk.
      destruct (float_of_int _) as [total|e] eqn:Htotal; [|discriminate Hk].
      injection Hk as <-. exists scores, total. repeat split. exact Htotal.
    + injection Hk as <-. reflexivity.
  - intros (run & speed & Hrun & Hspeed & Hk).
    rewrite Hrun. cbn [mbind result_bind].
    rewrite Hspeed. cbn [mbind result_bind].
    destruct scored.
    + destruct Hk as (scores & total & Hscores & Htotal & ->).
      rewrite Hscores. cbn [mbind result_bind].
      rewrite Htotal. reflexivity.
    + rewrite Hk. reflexivity.
Qed.

(** When the ranking returns, it is a permutation of the providers whose
    keys never increase. *)
Lemma rank_descending (scored : bool)
    (model_results : list (provider * benchmark_run))
    (sorted_models : list provider) :
  rank scored model_results = Ok sorted_models ->
  sorted_models ≡ₚ model_results.*1 /\
  exists keys,
    Forall2 (ranked_by scored model_results) sorted_models keys /\
    Sorted (fun a b => (a <? b)%float = false) keys /\
    (Forall (fun k => is_nan k = false) keys ->
     Sorted (fun a b => (b <=? a)%float = true) keys).
Proof.
  unfold rank. intros Hrank.
  apply (PyFacts.sorted_raising_spec PrimFloat.ltb PyFacts.float_ltb_asym)
    in Hrank as (keys & Hkeys & Hperm & Hsorted).
  split; [exact Hperm|]. exists keys. split; [|split].
  - eapply Forall2_impl; [exact Hkeys|]. intros x k.
    apply ranking_key_ranked.
  - exact Hsorted.
  - intros Hnan. clear -Hsorted Hnan.
    induction Hsorted as [|a l Hl IH Hhd]; [constructor|].
    apply Forall_cons in Hnan as [Ha Hnan]. constructor; [apply IH, Hnan|].
    destruct Hhd as [|b l Hab]; constructor.
    apply Forall_cons in Hnan as [Hb _].
    apply PyFacts.float_not_ltb_leb; assumption.
Qed.



(** ** The rows of the table *)

Lemma add_row_rows (t t' : table) (row : list cell) :
  add_row t row = Ok t' ->
  rows t' = rows t ++ [row] /\ field_names t' = field_names t.
Proof.
  unfold add_row. destruct (_ =? _)%nat; [|discriminate].
  intros [= <-]. split; reflexivity.
Qed.






(** ** The evaluation *)

(** The evaluation of a run never returns: the read of [evaluator_result]
    raises, when the pairing of prompts and answers has not raised before
    it. *)
Lemma evaluate_model_raises `{Externals} (evaluator : LLMS)
    (prompts : list string) (run : benchmark_run) :
  is_ok (evaluate_model evaluator prompts run) = false.
Proof.
  unfold evaluate_model.
  destruct (comprehension _ (outputs run)); reflexivity.
Qed.

Lemma setitem_not_nil {V} (k : provider) (v : V) (d : list (provider * V)) :
  setitem k v d <> [].
Proof. destruct d as [|[k' v'] d]; simpl; [|destruct (decide _)]; discriminate. Qed.

(** A benchmark with an evaluator and a provider at least never reaches the
    ranking. *)
Lemma measure_with_evaluator_raises `{Externals} (prompts : list string)
    (evaluator : LLMS) (schedule : list (provider * list nat)) :
  schedule <> [] ->
  is_ok (measure prompts (Some evaluator) schedule) = false.
Proof.
  intros Hschedule. unfold measure.
  destruct (collect_all prompts schedule) as [mr1|e] eqn:H1; [|reflexivity].
  cbn [mbind result_bind].
  assert (Hmr1 : mr1 <> []).
  { revert H1. unfold collect_all.
    destruct schedule as [|[model handed_over] schedule]; [congruence|].
    simpl.
    destruct (process_prompts_sequentially model prompts handed_over)
      as [[model' outs]|e]; simpl; [|discriminate].
    apply (PyFacts.for_each_invariant
             (fun acc : list (provider * benchmark_run) => acc <> []));
      [discriminate|].
    intros acc [model1 handed1] acc' _ _ Hstep. simpl in Hstep.
    destruct (process_prompts_sequentially model1 prompts handed1)
      as [[model1' outs1]|e]; simpl in Hstep; [|discriminate].
    injection Hstep as <-. apply setitem_not_nil. }
  destruct (for_each_model aggregate mr1) as [mr2|e] eqn:H2; [|reflexivity].
  cbn [mbind result_bind].
  assert (Hmr2 : mr2 <> []).
  { apply for_each_model_ok, Forall2_length in H2.
    destruct mr1, mr2; simpl in *; congruence. }
  destruct mr2 as [|[model run] mr2]; [congruence|].
  unfold for_each_model. simpl.
  pose proof (evaluate_model_raises evaluator prompts run) as Hraise.
  destruct (evaluate_model evaluator prompts run); [discriminate Hraise|].
  reflexivity.
Qed.

(** The labels of the combined prompt count from one: each pair adds its
    query and its answer under the number of pairs so far plus one. *)
Lemma build_prompt_snoc (pairs : list (string * string))
    (query answer : string) :
  build_prompt (pairs ++ [(query, answer)])
  = build_prompt pairs
    +:+ "Query #" +:+ str_of_int (Z.of_nat (length pairs) + 1) +:+ ": "
    +:+ query +:+ newline
    +:+ "Answer #" +:+ str_of_int (Z.of_nat (length pairs) + 1) +:+ ": "
    +:+ answer +:+ newline +:+ newline.
Proof.
  unfold build_prompt, enumerate.
  rewrite length_app, seq_app. simpl.
  rewrite zip_with_app by (rewrite length_seq; reflexivity).
  rewrite fold_left_app. reflexivity.
Qed.

(** C1. What the evaluation does. The combined prompt labels the pairs
    from one, and the parse of a reply ["0, 1"] would give the scores
    [[0; 1]]; but [evaluate_answers] passes the prompt to nobody and reads
    the reply from a name that is nowhere assigned: whatever the evaluator
    and the pairs, it raises [NameError], and a benchmark with an evaluator
    and a provider at least returns no table. *)
Theorem evaluation_reads_unbound_name `{Externals} :
  build_prompt [] = EmptyString /\
  (forall pairs query answer,
     build_prompt (pairs ++ [(query, answer)])
     = build_prompt pairs
       +:+ "Query #" +:+ str_of_int (Z.of_nat (length pairs) + 1) +:+ ": "
       +:+ query +:+ newline
       +:+ "Answer #" +:+ str_of_int (Z.of_nat (length pairs) + 1) +:+ ": "
       +:+ answer +:+ newline +:+ newline) /\
  parse_scores "0, 1" = Ok [0; 1] /\
  (forall evaluator query_answer_pairs,
     evaluate_answers evaluator query_answer_pairs
     = Raise (Exn NameError
                ["name 'evaluator_result' is not defined"%string])) /\
  (forall self prompts evaluator show_outputs html schedule,
     schedule <> [] ->
     is_ok (benchmark self prompts (Some evaluator) show_outputs html
              schedule) = false).
Proof.
  split; [reflexivity|]. split; [exact build_prompt_snoc|].
  split; [reflexivity|]. split; [reflexivity|].
  intros self prompts evaluator show_outputs html schedule Hschedule.
  unfold benchmark, benchmark_table.
  pose proof (measure_with_evaluator_raises (effective_prompts prompts)
                evaluator schedule Hschedule) as Hraise.
  destruct (measure _ _ _); [discriminate Hraise | reflexivity].
Qed.

(** Two providers, two prompts and an evaluator: the benchmark raises
    [NameError]. *)
Lemma evaluation_reads_unbound_name_witness :
  @benchmark Demo.externals (MkLLMS [Demo.gpt4; Demo.gpt4o])
    (Some Demo.two_prompts) (Some (MkLLMS [Demo.gpt4])) false false
    Demo.schedule
  = Raise (Exn NameError ["name 'evaluator_result' is not defined"%string]).
Proof.
  pose proof (proj2 (proj2 (proj2 (proj2
    (@evaluation_reads_unbound_name Demo.externals))))
    (MkLLMS [Demo.gpt4; Demo.gpt4o]) (Some Demo.two_prompts)
    (MkLLMS [Demo.gpt4]) false false Demo.schedule ltac:(discriminate))
    as Hraise.
  destruct (@benchmark Demo.externals _ _ _ _ _ _) as [t|e] eqn:Hb;
    [discriminate Hraise|].
  vm_compute in Hb. injection Hb as <-. reflexivity.
Defined.

(** ** The parse of a reply and the copy of the scores *)






End BenchmarkFacts.

(** * The OpenAI adapter *)

Module OpenAIFacts.
Import Py Providers OpenAI.

(** ** Counting tokens *)

Lemma sum_int_acc (l : list Z) (acc : Z) :
  fold_left Z.add l acc = acc + sum_int l.
Proof.
  unfold sum_int. revert acc.
  induction l as [|x l IH]; intros acc; cbn [fold_left].
  - lia.
  - rewrite (IH (acc + x)), (IH (0 + x)). lia.
Qed.

Lemma sum_int_app (a b : list Z) : sum_int (a ++ b) = sum_int a + sum_int b.
Proof.
  unfold sum_int at 1. rewrite fold_left_app. fold (sum_int a).
  apply sum_int_acc.
Qed.

Lemma sum_int_lower (f : Z) (l : list Z) :
  Forall (fun x => f <= x) l -> f * Z.of_nat (length l) <= sum_int l.
Proof.
  induction 1 as [|x l Hx _ IH]; [unfold sum_int; simpl; lia|].
  change (x :: l) with ([x] ++ l) at 2. rewrite sum_int_app.
  unfold sum_int at 1. cbn [length fold_left].
  rewrite Nat2Z.inj_succ, Z.mul_succ_r. lia.
Qed.

(** X1. The token count of a conversation is the sum of the counts of its
    parts; it is at least three for each message, and nothing for no
    message, whenever the encoding of the model is found. *)
Theorem count_tokens_adds `{Library} (self : provider)
    (a b : list (gmap string value)) :
  _count_tokens self (a ++ b)
  = (x ← _count_tokens self a; y ← _count_tokens self b; Done (x + y)) /\
  _count_tokens self []
  = (enc ← encoding_for_model (model self); Done 0) /\
  (forall n,
     _count_tokens self a = Done n -> 3 * Z.of_nat (length a) <= n).
Proof.
  unfold _count_tokens.
  destruct (encoding_for_model (model self)) as [enc|r]; simpl;
    [|repeat split; discriminate].
  split; [|split; [reflexivity|]].
  - rewrite !fmap_app, zip_with_app by (rewrite !length_fmap; reflexivity).
    rewrite fmap_app, sum_int_app. reflexivity.
  - intros n [= <-].
    match goal with
    | |- _ <= sum_int ?l =>
        replace (length a) with (length l)
          by (rewrite length_fmap, length_zip_with, !length_fmap; lia);
        apply sum_int_lower
    end.
    apply Forall_fmap, Forall_forall. intros [token message] _. simpl.
    destruct (bool_decide _); lia.
Qed.

(** A conversation of a plain and of a named message. *)
Lemma count_tokens_adds_witness :
  @_count_tokens Sample.library Sample.o1 [Sample.hello; Sample.named_hello]
  = Done 17 /\
  3 * 2 <= 17.
Proof.
  split; [vm_compute; reflexivity|].
  apply (proj2 (proj2 (@count_tokens_adds Sample.library Sample.o1
                         [Sample.hello; Sample.named_hello] []))).
  vm_compute. reflexivity.
Defined.

(** ** Preparing the keyword arguments *)

Lemma getitem_table_has_key (table : list (string * model_info))
    (key : string) :
  is_ok (getitem_table table key) = has_key key table.
Proof.
  unfold has_key. induction table as [|[name info] table IH]; simpl;
    [reflexivity|].
  rewrite (String.eqb_sym key name).
  destruct (String.eqb name key); simpl; [reflexivity | exact IH].
Qed.

(** The models of the table whose entry asks for [max_completion_tokens]
    are the three of the o1 family. *)
Lemma flagged_models (name : string) (info : model_info) :
  getitem_table OpenAI_MODEL_INFO name = Ok info ->
  (use_max_completion_tokens info = true <->
   name ∈ ["o1-preview"; "o1-mini"; "o1"]%string).
Proof.
  unfold OpenAI_MODEL_INFO. cbn [getitem_table].
  rewrite !elem_of_cons, elem_of_nil.
  repeat match goal with
         | |- context [String.eqb ?a name] =>
             destruct (String.eqb_spec a name) as [<-|?]
         end;
    intros [= <-]; cbn [use_max_completion_tokens];
    split; intros Hgiven; auto; try discriminate Hgiven;
    decompose [or] Hgiven; try contradiction; discriminate.
Qed.

Lemma prepare_input_cases (self : provider) (kwargs : gmap string value) :
  prepare_input self kwargs
  = if truthy (get "max_completion_tokens" kwargs) then Ok kwargs
    else match getitem_table OpenAI_MODEL_INFO (model self) with
         | Ok info =>
             if use_max_completion_tokens info then
               Ok (<["max_completion_tokens"%string :=
                       default (VInt 300) (kwargs !! "max_tokens"%string)]>
                     (delete "max_tokens"%string kwargs))
             else Ok kwargs
         | Raise e => Raise e
         end.
Proof. unfold prepare_input. destruct (truthy _); reflexivity. Qed.

Lemma prepare_input_frame (self : provider)
    (kwargs kwargs' : gmap string value) (key : string) :
  prepare_input self kwargs = Ok kwargs' ->
  key <> "max_tokens"%string -> key <> "max_completion_tokens"%string ->
  kwargs' !! key = kwargs !! key.
Proof.
  rewrite prepare_input_cases. intros Hprepared Hmax Hcompletion.
  destruct (truthy _); [congruence|].
  destruct (getitem_table _ _) as [info|e]; [|discriminate].
  destruct (use_max_completion_tokens info); injection Hprepared as <-;
    [|reflexivity].
  rewrite lookup_insert_ne by congruence.
  apply lookup_delete_ne. congruence.
Qed.

(** X2. [prepare_input] leaves every argument but [max_tokens] and
    [max_completion_tokens] as the caller gave it, and changes nothing at
    all when the caller gave a [max_completion_tokens] that counts as true,
    whatever the model. *)
Theorem prepare_input_keeps_other_arguments (self : provider)
    (kwargs : gmap string value) :
  (truthy (get "max_completion_tokens" kwargs) = true ->
   prepare_input self kwargs = Ok kwargs) /\
  (forall kwargs' key,
     prepare_input self kwargs = Ok kwargs' ->
     key <> "max_tokens"%string -> key <> "max_completion_tokens"%string ->
     kwargs' !! key = kwargs !! key).
Proof.
  split.
  - rewrite prepare_input_cases. intros ->. reflexivity.
  - intros kwargs' key. apply prepare_input_frame.
Qed.

(** The arguments of a chat with a system prompt and a temperature. *)
Lemma prepare_input_keeps_other_arguments_witness :
  let kwargs : gmap string value :=
    {[ "temperature"%string := VFloat 0.5; "max_tokens"%string := VInt 64 ]} in
  exists kwargs',
    prepare_input Sample.o1 kwargs = Ok kwargs' /\
    kwargs' !! "temperature"%string = Some (VFloat 0.5).
Proof.
  intros kwargs.
  destruct (prepare_input Sample.o1 kwargs) as [kwargs'|e] eqn:Hprepared;
    [|vm_compute in Hprepared; discriminate Hprepared].
  exists kwargs'. split; [reflexivity|].
  rewrite (proj2 (prepare_input_keeps_other_arguments Sample.o1 kwargs)
             kwargs' "temperature"%string Hprepared);
    [reflexivity | discriminate | discriminate].
Defined.

(** X3. For a model of the table and a caller who gave no
    [max_completion_tokens] that counts as true: when the model asks for
    it, that is for the o1 family, the prepared arguments carry under
    [max_completion_tokens] what the caller gave as [max_tokens], or 300,
    and carry no [max_tokens]; for the other models the arguments stay as
    they are. *)
Theorem prepare_input_moves_max_tokens (self : provider)
    (kwargs : gmap string value) (info : model_info) :
  getitem_table OpenAI_MODEL_INFO (model self) = Ok info ->
  truthy (get "max_completion_tokens" kwargs) = false ->
  (model self ∈ ["o1-preview"; "o1-mini"; "o1"]%string ->
   exists kwargs',
     prepare_input self kwargs = Ok kwargs' /\
     kwargs' !! "max_completion_tokens"%string
     = Some (default (VInt 300) (kwargs !! "max_tokens"%string)) /\
     kwargs' !! "max_tokens"%string = None) /\
  (model self ∉ ["o1-preview"; "o1-mini"; "o1"]%string ->
   prepare_input self kwargs = Ok kwargs).
Proof.
  intros Hinfo Hfalsy. pose proof (flagged_models _ _ Hinfo) as Hflag.
  rewrite prepare_input_cases, Hfalsy, Hinfo. split.
  - intros Ho1. apply Hflag in Ho1. rewrite Ho1. eexists.
    split; [reflexivity|]. split.
    + apply lookup_insert_eq.
    + rewrite lookup_insert_ne by discriminate. apply lookup_delete_eq.
  - intros Hother. destruct (use_max_completion_tokens info);
      [|reflexivity].
    exfalso. apply Hother, Hflag. reflexivity.
Qed.

(** The model o1 with [max_tokens=64], and the model gpt-4 with the same. *)
Lemma prepare_input_moves_max_tokens_witness :
  let kwargs : gmap string value := {[ "max_tokens"%string := VInt 64 ]} in
  (exists kwargs',
     prepare_input Sample.o1 kwargs = Ok kwargs' /\
     kwargs' !! "max_completion_tokens"%string = Some (VInt 64) /\
     kwargs' !! "max_tokens"%string = None) /\
  prepare_input Demo.gpt4 kwargs = Ok kwargs.
Proof.
  intros kwargs. split.
  - apply (proj1 (prepare_input_moves_max_tokens Sample.o1 kwargs
                    (ModelInfo 15 60 200000 true (Some 100000) true)
                    eq_refl eq_refl)).
    rewrite !elem_of_cons. auto.
  - apply (proj2 (prepare_input_moves_max_tokens Demo.gpt4 kwargs
                    (ModelInfo 30 60 8192 true None false)
                    eq_refl eq_refl)).
    rewrite !elem_of_cons, elem_of_nil. simpl. intuition discriminate.
Defined.

(** X4. Preparing prepared arguments changes nothing, when the caller gave no
    [max_tokens] or one that counts as true. A [max_tokens] that counts as
    false, zero say, is the exception: for the o1 family the first
    preparation moves it and the second one puts 300 in its place. *)
Theorem prepare_input_twice (self : provider)
    (kwargs kwargs' : gmap string value) :
  prepare_input self kwargs = Ok kwargs' ->
  (truthy (default (VInt 300) (kwargs !! "max_tokens"%string)) = true ->
   prepare_input self kwargs' = Ok kwargs') /\
  (truthy (default (VInt 300) (kwargs !! "max_tokens"%string)) = false ->
   truthy (get "max_completion_tokens" kwargs) = false ->
   model self ∈ ["o1-preview"; "o1-mini"; "o1"]%string ->
   exists kwargs'',
     prepare_input self kwargs' = Ok kwargs'' /\
     kwargs'' !! "max_completion_tokens"%string = Some (VInt 300) /\
     kwargs' !! "max_completion_tokens"%string
     = kwargs !! "max_tokens"%string).
Proof.
  rewrite prepare_input_cases. intros Hprepared.
  destruct (truthy (get "max_completion_tokens" kwargs)) eqn:Hgiven.
  { injection Hprepared as <-. split; [|discriminate].
    intros _. rewrite prepare_input_cases, Hgiven. reflexivity. }
  destruct (getitem_table OpenAI_MODEL_INFO (model self)) as [info|e]
    eqn:Hinfo; [|discriminate].
  pose proof (flagged_models _ _ Hinfo) as Hflag.
  destruct (use_max_completion_tokens info) eqn:Hasks;
    injection Hprepared as <-.
  - split.
    + intros Htrue. rewrite prepare_input_cases. unfold get.
      rewrite lookup_insert_eq.
      change (default VNone (Some ?v)) with v. rewrite Htrue. reflexivity.
    + intros Hfalse _ _. rewrite prepare_input_cases. unfold get.
      rewrite lookup_insert_eq.
      change (default VNone (Some ?v)) with v. rewrite Hfalse, Hinfo, Hasks.
      eexists. split; [reflexivity|].
      rewrite !lookup_insert_eq. split.
      * rewrite lookup_insert_ne by discriminate.
        rewrite lookup_delete_eq. reflexivity.
      * destruct (kwargs !! "max_tokens"%string); [reflexivity|].
        discriminate Hfalse.
  - split.
    + intros _. rewrite prepare_input_cases, Hgiven, Hinfo, Hasks.
      reflexivity.
    + intros _ _ Ho1. apply Hflag in Ho1. discriminate Ho1.
Qed.

(** The model o1 with [max_tokens=64], and with [max_tokens=0]. *)
Lemma prepare_input_twice_witness :
  (exists kwargs',
     prepare_input Sample.o1 {[ "max_tokens"%string := VInt 64 ]}
     = Ok kwargs' /\
     prepare_input Sample.o1 kwargs' = Ok kwargs') /\
  (exists kwargs' kwargs'',
     prepare_input Sample.o1 {[ "max_tokens"%string := VInt 0 ]}
     = Ok kwargs' /\
     prepare_input Sample.o1 kwargs' = Ok kwargs'' /\
     kwargs' !! "max_completion_tokens"%string = Some (VInt 0) /\
     kwargs'' !! "max_completion_tokens"%string = Some (VInt 300)).
Proof.
  split.
  - destruct (prepare_input Sample.o1 {[ "max_tokens"%string := VInt 64 ]})
      as [kwargs'|e] eqn:Hprepared;
      [|vm_compute in Hprepared; discriminate Hprepared].
    exists kwargs'. split; [reflexivity|].
    apply (proj1 (prepare_input_twice _ _ _ Hprepared)). reflexivity.
  - destruct (prepare_input Sample.o1 {[ "max_tokens"%string := VInt 0 ]})
      as [kwargs'|e] eqn:Hprepared;
      [|vm_compute in Hprepared; discriminate Hprepared].
    destruct (proj2 (prepare_input_twice _ _ _ Hprepared))
      as (kwargs'' & Hagain & H300 & H0).
    + reflexivity.
    + reflexivity.
    + rewrite !elem_of_cons. auto.
    + exists kwargs', kwargs''. repeat split; assumption.
Defined.

Lemma prepare_input_key_error (self : provider)
    (kwargs : gmap string value) (e : exn) :
  prepare_input self kwargs = Raise e -> e = Exn KeyError [].
Proof.
  rewrite prepare_input_cases. destruct (truthy _); [discriminate|].
  destruct (getitem_table OpenAI_MODEL_INFO (model self)) as [info|e']
    eqn:Hinfo.
  - destruct (use_max_completion_tokens info); discriminate.
  - intros [= <-]. clear -Hinfo.
    induction OpenAI_MODEL_INFO as [|[name info] table IH];
      cbn [getitem_table] in Hinfo; [congruence|].
    destruct (String.eqb name (model self)); [discriminate | auto].
Qed.

Lemma prepare_input_known (self : provider) (kwargs : gmap string value) :
  has_key (model self) OpenAI_MODEL_INFO = true ->
  is_ok (prepare_input self kwargs) = true.
Proof.
  rewrite <- getitem_table_has_key, prepare_input_cases.
  destruct (truthy _); [reflexivity|].
  destruct (getitem_table OpenAI_MODEL_INFO (model self)) as [info|e];
    [|discriminate].
  destruct (use_max_completion_tokens info); reflexivity.
Qed.

(** X5. [prepare_input] raises exactly when the model is not in the table and
    the caller gave no [max_completion_tokens] that counts as true; the
    exception is the [KeyError] of the lookup. So a caller can use a model
    the table does not know, by giving [max_completion_tokens]. *)
Theorem prepare_input_raises (self : provider) (kwargs : gmap string value) :
  (is_ok (prepare_input self kwargs) = false <->
   truthy (get "max_completion_tokens" kwargs) = false /\
   has_key (model self) OpenAI_MODEL_INFO = false) /\
  (forall e, prepare_input self kwargs = Raise e -> e = Exn KeyError []).
Proof.
  split; [|apply prepare_input_key_error].
  rewrite <- getitem_table_has_key, prepare_input_cases.
  destruct (truthy _).
  - split; [discriminate | intros [[=] _]].
  - destruct (getitem_table OpenAI_MODEL_INFO (model self)) as [info|e].
    + destruct (use_max_completion_tokens info);
        (split; [discriminate | intros [_ [=]]]).
    + split; auto.
Qed.

(** A model that the table does not know, without and with
    [max_completion_tokens]. *)
Lemma prepare_input_raises_witness :
  let o9 := Provider OpenAIProvider "sk-1" "o9" in
  prepare_input o9 {[ "max_tokens"%string := VInt 64 ]}
  = Raise (Exn KeyError []) /\
  prepare_input o9 {[ "max_completion_tokens"%string := VInt 64 ]}
  = Ok {[ "max_completion_tokens"%string := VInt 64 ]}.
Proof.
  intros o9. split; [|reflexivity].
  destruct (prepare_input o9 {[ "max_tokens"%string := VInt 64 ]})
    as [prepared|e] eqn:Hprepared;
    [vm_compute in Hprepared; discriminate Hprepared|].
  f_equal.
  exact (proj2 (prepare_input_raises o9 {[ "max_tokens"%string := VInt 64 ]})
           e Hprepared).
Defined.

(** ** The calls of the client *)

Lemma keywords_unreserved (kwargs : gmap string value) :
  unreserved kwargs -> keywords kwargs = Done kwargs.
Proof.
  intros (Hmodel & Hmessages & Hstream). unfold keywords.
  rewrite Hmodel, Hmessages, Hstream.
  rewrite !bool_decide_eq_false_2 by (intros [v Hv]; discriminate Hv).
  reflexivity.
Qed.

Lemma prepared_unreserved (self : provider)
    (kwargs prepared : gmap string value) :
  prepare_input self kwargs = Ok prepared ->
  unreserved kwargs -> unreserved prepared.
Proof.
  intros Hprepared (Hmodel & Hmessages & Hstream).
  pose proof (fun key => prepare_input_frame self kwargs prepared key
                           Hprepared) as Hkept.
  repeat split.
  - rewrite (Hkept "model"%string) by discriminate.
    exact Hmodel.
  - rewrite (Hkept "messages"%string) by discriminate.
    exact Hmessages.
  - rewrite (Hkept "stream"%string) by discriminate.
    exact Hstream.
Qed.




(** X7. What [complete] and [acomplete] make of one and the same response of
    the client: both report the token counts of its usage; without a
    function call both report the content of the first choice; with a
    function call [complete] reports the empty completion and the decoded
    arguments, while [acomplete] still reports the content and decodes
    nothing. *)
Theorem complete_and_acomplete_agree `{Library} (self : provider)
    (messages : list (gmap string value))
    (kwargs prepared : gmap string value) (response : chat_completion)
    (first : chat_message) (used : usage) :
  prepare_input self kwargs = Ok prepared ->
  unreserved kwargs ->
  create (model self) messages prepared = Done response ->
  acreate (model self) messages prepared = Done response ->
  choices response !! 0%nat = Some first ->
  response_usage response = Some used ->
  acomplete self messages kwargs
  = Done (ACompletionDict (content first) (prompt_tokens used)
            (completion_tokens used)) /\
  match message_function_call first with
  | None =>
      complete self messages kwargs
      = Done (CompletionDict (content first) None (prompt_tokens used)
                (completion_tokens used))
  | Some requested =>
      complete self messages kwargs
      = arguments ← json_loads (fc_arguments requested);
        Done (CompletionDict (Some EmptyString)
                (Some (fc_name requested, arguments)) (prompt_tokens used)
                (completion_tokens used))
  end.
Proof.
  intros Hprepared Hfree Hcreate Hacreate Hfirst Husage.
  unfold complete, acomplete, assert_usage.
  rewrite Hprepared. cbn [builtin mbind attempt_bind].
  rewrite (keywords_unreserved _ (prepared_unreserved _ _ _ Hprepared Hfree)).
  cbn [mbind attempt_bind]. rewrite Hcreate, Hacreate.
  cbn [mbind attempt_bind]. rewrite Husage.
  assert (Hgetitem : getitem (choices response) 0 = Ok first).
  { destruct (choices response) as [|m ms]; [discriminate Hfirst|].
    injection Hfirst as ->. reflexivity. }
  rewrite Hgetitem. cbn [builtin mbind attempt_bind]. split; [reflexivity|].
  destruct (message_function_call first) as [requested|]; [|reflexivity].
  destruct (json_loads (fc_arguments requested)); reflexivity.
Qed.

(** The sample client, asked by the model o1. *)
Lemma complete_and_acomplete_agree_witness :
  @acomplete Sample.library Sample.o1 [Sample.hello] ∅
  = Done (ACompletionDict (Some "ok"%string) 7 1) /\
  @complete Sample.library Sample.o1 [Sample.hello] ∅
  = Done (CompletionDict (Some "ok"%string) None 7 1).
Proof.
  exact (@complete_and_acomplete_agree Sample.library Sample.o1
           [Sample.hello] ∅ {[ "max_completion_tokens"%string := VInt 300 ]}
           (ChatCompletion [ChatMessage (Some "ok"%string) None]
              (Some (Usage 7 1)))
           (ChatMessage (Some "ok"%string) None) (Usage 7 1)
           eq_refl (conj eq_refl (conj eq_refl eq_refl))
           eq_refl eq_refl eq_refl eq_refl).
Defined.

(** X8. Where the two part on a malformed response: with no choice in it
    [complete] raises [IndexError] whether there is a usage or not, with no
    usage in it [acomplete] fails its assertion whether there is a choice
    or not; [complete] fails the assertion only after it has read the
    first choice and decoded its function call. *)
Theorem malformed_responses `{Library} (self : provider)
    (messages : list (gmap string value))
    (kwargs prepared : gmap string value) (response : chat_completion) :
  prepare_input self kwargs = Ok prepared ->
  unreserved kwargs ->
  create (model self) messages prepared = Done response ->
  acreate (model self) messages prepared = Done response ->
  (choices response = [] ->
   complete self messages kwargs = Failed (Raised (Exn IndexError []))) /\
  (response_usage response = None ->
   acomplete self messages kwargs = Failed AssertionError) /\
  (response_usage response = None ->
   forall first, choices response !! 0%nat = Some first ->
   complete self messages kwargs
   = match message_function_call first with
     | Some requested =>
         arguments ← json_loads (fc_arguments requested);
         Failed AssertionError
     | None => Failed AssertionError
     end).
Proof.
  intros Hprepared Hfree Hcreate Hacreate.
  unfold complete, acomplete, assert_usage.
  rewrite Hprepared. cbn [builtin mbind attempt_bind].
  rewrite (keywords_unreserved _ (prepared_unreserved _ _ _ Hprepared Hfree)).
  cbn [mbind attempt_bind]. rewrite Hcreate, Hacreate.
  cbn [mbind attempt_bind]. split; [|split].
  - intros ->. reflexivity.
  - intros ->. reflexivity.
  - intros -> first Hfirst.
    assert (Hgetitem : getitem (choices response) 0 = Ok first).
    { destruct (choices response) as [|m ms]; [discriminate Hfirst|].
      injection Hfirst as ->. reflexivity. }
    rewrite Hgetitem. cbn [builtin mbind attempt_bind].
    destruct (message_function_call first) as [requested|]; [|reflexivity].
    destruct (json_loads (fc_arguments requested)); reflexivity.
Qed.

(** A client that answers with no choice and no usage. *)
Lemma malformed_responses_witness :
  @complete Sample.silent Sample.o1 [Sample.hello] ∅
  = Failed (Raised (Exn IndexError [])) /\
  @acomplete Sample.silent Sample.o1 [Sample.hello] ∅
  = Failed AssertionError.
Proof.
  pose proof (@malformed_responses Sample.silent Sample.o1 [Sample.hello] ∅
                {[ "max_completion_tokens"%string := VInt 300 ]}
                (ChatCompletion [] None)
                eq_refl (conj eq_refl (conj eq_refl eq_refl))
                eq_refl eq_refl) as (Hcomplete & Hacomplete & _).
  split; [exact (Hcomplete eq_refl) | exact (Hacomplete eq_refl)].
Defined.

(** ** Streaming *)

Lemma fragments_not_empty (chunks : list chunk) :
  EmptyString ∉ items (fragments chunks).
Proof.
  induction chunks as [|c chunks IH]; cbn [fragments].
  - apply not_elem_of_nil.
  - destruct (chunk_choices c) as [|[text|] deltas]; cbn [items];
      [apply not_elem_of_nil | | exact IH].
    destruct (String.eqb_spec text EmptyString) as [->|Htext];
      [exact IH|].
    cbn [items]. rewrite not_elem_of_cons. split; [congruence | exact IH].
Qed.

Lemma fragments_whole (chunks : list chunk) :
  Forall (fun c => chunk_choices c <> []) chunks ->
  joined (items (fragments chunks)) = joined (chunk_text <$> chunks) /\
  ending (fragments chunks) = None.
Proof.
  induction 1 as [|c chunks Hc _ [IHtext IHend]]; [split; reflexivity|].
  cbn [fragments fmap list_fmap]. unfold chunk_text at 1.
  destruct (chunk_choices c) as [|[text|] deltas]; [congruence| |].
  - destruct (String.eqb_spec text EmptyString) as [->|Htext].
    + split; [exact IHtext | exact IHend].
    + cbn [items ending]. split; [|exact IHend].
      unfold joined in *. cbn [foldr]. rewrite IHtext. reflexivity.
  - split; [exact IHtext | exact IHend].
Qed.

Lemma fragments_broken (before after : list chunk) (c : chunk) :
  Forall (fun c => chunk_choices c <> []) before ->
  chunk_choices c = [] ->
  items (fragments (before ++ c :: after)) = items (fragments before) /\
  ending (fragments (before ++ c :: after))
  = Some (Raised (Exn IndexError [])).
Proof.
  intros Hbefore Hc.
  induction Hbefore as [|b before Hb _ [IHitems IHend]];
    cbn [app fragments].
  - rewrite Hc. split; reflexivity.
  - destruct (chunk_choices b) as [|[text|] deltas]; [congruence| |].
    + destruct (String.eqb text EmptyString);
        [split; assumption|].
      cbn [items ending]. rewrite IHitems. split; [reflexivity | exact IHend].
    + split; assumption.
Qed.

(** X9. What [complete_stream] yields for the chunks the client streams: never
    an empty fragment; when every chunk has a choice, fragments that put
    together are the contents of the chunks put together, and then the end
    of the client's stream; when a chunk has no choice, the fragments of
    the chunks before it and then [IndexError], the chunks after it left
    unread. *)
Theorem stream_yields_the_contents `{Library} (self : provider)
    (messages : list (gmap string value))
    (kwargs prepared : gmap string value) :
  prepare_input self kwargs = Ok prepared ->
  unreserved kwargs ->
  let chunks := create_stream (model self) messages prepared in
  let yielded := complete_stream self messages kwargs in
  (EmptyString ∉ items yielded) /\
  (Forall (fun c => chunk_choices c <> []) (items chunks) ->
   joined (items yielded) = joined (chunk_text <$> items chunks) /\
   ending yielded = ending chunks) /\
  (forall before c after,
     items chunks = before ++ c :: after ->
     Forall (fun c => chunk_choices c <> []) before ->
     chunk_choices c = [] ->
     items yielded = items (fragments before) /\
     ending yielded = Some (Raised (Exn IndexError []))).
Proof.
  intros Hprepared Hfree chunks yielded. subst chunks yielded.
  unfold complete_stream. rewrite Hprepared.
  cbn [builtin mbind attempt_bind].
  rewrite (keywords_unreserved _ (prepared_unreserved _ _ _ Hprepared Hfree)).
  cbn [items ending]. split; [apply fragments_not_empty|]. split.
  - intros Hwhole. apply fragments_whole in Hwhole as [-> ->].
    split; reflexivity.
  - intros before c after -> Hbefore Hc.
    destruct (fragments_broken before after c Hbefore Hc) as [-> ->].
    split; reflexivity.
Qed.

(** The sample stream: of four chunks, two fragments. *)
Lemma stream_yields_the_contents_witness :
  items (@complete_stream Sample.library Sample.o1 [Sample.hello] ∅)
  = ["o"; "k"]%string /\
  (EmptyString
   ∉ items (@complete_stream Sample.library Sample.o1 [Sample.hello] ∅)).
Proof.
  split; [reflexivity|].
  exact (proj1 (@stream_yields_the_contents Sample.library Sample.o1
                  [Sample.hello] ∅
                  {[ "max_completion_tokens"%string := VInt 300 ]}
                  eq_refl (conj eq_refl (conj eq_refl eq_refl)))).
Defined.

End OpenAIFacts.

(** * More on the dispatcher: [complete], [acomplete], [complete_stream] *)

Module CompletionFacts.
Import Py Providers Collaborators Envelope LLMS.

(** X10. [LLMS.complete] returns exactly when the adapter of every provider
    returns, and then holds one result for each provider in the order in
    which the calls completed: the provider itself, the text of its
    response and the reformatted numbers. When a call raises, [complete]
    raises what the first failed call, in the order of completion,
    raised. *)
Theorem complete_in_completion_order `{Externals} (self : LLMS)
    (prompt : string) (history : option history) (kwargs : kwargs)
    (completed : list provider) :
  (forall result,
     complete self prompt history kwargs completed = Ok result <->
     Forall2 (fun provider r =>
                exists response,
                  provider_complete provider prompt history kwargs
                  = Ok response /\
                  r = Completion (response_text response)
                        (Meta (raw_tokens (response_meta response))
                           (format_5f (raw_cost (response_meta response)))
                           (round_2 (raw_latency (response_meta response))))
                        provider)
       completed (_results result)) /\
  (forall result,
     complete self prompt history kwargs completed = Ok result ->
     completion_provider <$> _results result = completed) /\
  (forall before failing after e,
     completed = before ++ failing :: after ->
     Forall (fun provider =>
               is_ok (provider_complete provider prompt history kwargs) = true)
       before ->
     provider_complete failing prompt history kwargs = Raise e ->
     complete self prompt history kwargs completed = Raise e).
Proof.
  assert (Hresults : forall result,
            complete self prompt history kwargs completed = Ok result <->
            Forall2 (fun provider r =>
                       exists response,
                         provider_complete provider prompt history kwargs
                         = Ok response /\
                         r = format_response provider response)
              completed (_results result)).
  { intros [results]. unfold complete. rewrite PyFacts.bind_ok. split.
    - intros (results' & Hlist & [= ->]).
      apply PyFacts.comprehension_ok in Hlist. cbn [_results].
      eapply Forall2_impl; [exact Hlist|]. intros provider r Hr.
      apply PyFacts.bind_ok in Hr as (response & Hresponse & [= <-]).
      exists response. split; [exact Hresponse | reflexivity].
    - cbn [_results]. intros Hlist. exists results. split; [|reflexivity].
      apply PyFacts.comprehension_ok.
      eapply Forall2_impl; [exact Hlist|].
      intros provider r (response & Hresponse & ->).
      rewrite Hresponse. reflexivity. }
  split; [exact Hresults|]. split.
  - intros result Hresult. apply Hresults in Hresult. clear Hresults.
    induction Hresult as [|provider r providers rs (response & _ & ->) _ IH];
      [reflexivity|].
    cbn [fmap list_fmap]. f_equal. exact IH.
  - intros before failing after e -> Hbefore Hfailing. unfold complete.
    rewrite (PyFacts.comprehension_first_raise _ before failing after e);
      [reflexivity | | rewrite Hfailing; reflexivity].
    eapply Forall_impl; [exact Hbefore|]. intros provider Hprovider.
    cbn beta in Hprovider. revert Hprovider.
    destruct (provider_complete provider prompt history kwargs); cbn;
      congruence.
Qed.

(** Two providers whose calls complete in the reverse of their order, and
    the same with an adapter that raises. *)
Lemma complete_in_completion_order_witness :
  (exists result,
     @complete Demo.externals (MkLLMS [Demo.gpt4; Demo.j2]) "hi" None tt
       [Demo.j2; Demo.gpt4] = Ok result /\
     completion_provider <$> _results result = [Demo.j2; Demo.gpt4]) /\
  @complete Demo.faltering (MkLLMS [Demo.gpt4; Demo.gpt4o]) "hi" None tt
    [Demo.gpt4; Demo.gpt4o] = Raise (Exn ValueError ["quota"%string]).
Proof.
  split.
  - eexists. split; [reflexivity|].
    apply (proj1 (proj2 (@complete_in_completion_order Demo.externals
                           (MkLLMS [Demo.gpt4; Demo.j2]) "hi" None tt
                           [Demo.j2; Demo.gpt4]))).
    reflexivity.
  - apply (proj2 (proj2 (@complete_in_completion_order Demo.faltering
                           (MkLLMS [Demo.gpt4; Demo.gpt4o]) "hi" None tt
                           [Demo.gpt4; Demo.gpt4o]))
             [Demo.gpt4] Demo.gpt4o [] (Exn ValueError ["quota"%string])).
    + reflexivity.
    + repeat constructor.
    + reflexivity.
Defined.

(** X11. On a dispatcher with one provider whose adapter answers the awaited
    call as it answers the blocking one, [acomplete] returns or raises what
    [complete] does; and what [acomplete] returns reads as one value, the
    text of the response and its reformatted numbers. *)
Theorem acomplete_matches_complete `{Externals} (provider : provider)
    (prompt : string) (history : option history) (kwargs : kwargs) :
  let self := MkLLMS [provider] in
  (provider_acomplete provider prompt history kwargs
   = provider_complete provider prompt history kwargs ->
   acomplete self prompt history kwargs
   = complete self prompt history kwargs [provider]) /\
  (forall result,
     acomplete self prompt history kwargs = Ok result ->
     exists response,
       provider_acomplete provider prompt history kwargs = Ok response /\
       text result = Scalar (response_text response) /\
       meta result
       = Scalar (Meta (raw_tokens (response_meta response))
                   (format_5f (raw_cost (response_meta response)))
                   (round_2 (raw_latency (response_meta response))))) /\
  (forall e,
     provider_acomplete provider prompt history kwargs = Raise e ->
     acomplete self prompt history kwargs = Raise e).
Proof.
  intros self. unfold acomplete, complete. cbn. split; [|split].
  - intros ->.
    destruct (provider_complete provider prompt history kwargs); reflexivity.
  - intros result Hresult.
    destruct (provider_acomplete provider prompt history kwargs)
      as [response|e]; [|discriminate Hresult].
    injection Hresult as <-. exists response. repeat split.
  - intros e ->. reflexivity.
Qed.

(** The sample adapter of ["gpt-4"]. *)
Lemma acomplete_matches_complete_witness :
  @acomplete Demo.externals (MkLLMS [Demo.gpt4]) "hi" None tt
  = @complete Demo.externals (MkLLMS [Demo.gpt4]) "hi" None tt [Demo.gpt4].
Proof.
  exact (proj1 (@acomplete_matches_complete Demo.externals Demo.gpt4 "hi"
                  None tt) eq_refl).
Defined.

(** X12. [complete_stream] hands over the stream of the adapter, fragment for
    fragment and with its end, when the dispatcher has one provider that
    is not an AI21 adapter; and a stream that yields a fragment or ends
    without exception can only come from such a dispatcher. *)
Theorem streamed_from_one_provider `{Externals} (self : LLMS)
    (prompt : string) (history : option history) (kwargs : kwargs) :
  let stream := complete_stream self prompt history kwargs in
  (forall provider,
     _providers self = [provider] ->
     provider_class provider <> AI21Provider ->
     stream = provider_complete_stream provider prompt history kwargs) /\
  (yielded stream <> [] \/ raised stream = None ->
   exists provider,
     _providers self = [provider] /\
     provider_class provider <> AI21Provider /\
     stream = provider_complete_stream provider prompt history kwargs).
Proof.
  intros stream. subst stream. unfold complete_stream. split.
  - intros provider -> Hclass. cbn.
    destruct (decide (provider_class provider = AI21Provider));
      [contradiction | reflexivity].
  - destruct self as [[|provider [|second providers]]]; cbn.
    + intros [Hyielded|Hraised]; [contradiction | discriminate].
    + destruct (decide (provider_class provider = AI21Provider)); cbn.
      * intros [Hyielded|Hraised]; [contradiction | discriminate].
      * intros _. exists provider. repeat split. assumption.
    + intros [Hyielded|Hraised]; [contradiction | discriminate].
Qed.

(** The sample adapter of ["gpt-4"] streams two fragments. *)
Lemma streamed_from_one_provider_witness :
  exists provider,
    [Demo.gpt4] = [provider] /\
    provider_class provider <> AI21Provider /\
    @complete_stream Demo.externals (MkLLMS [Demo.gpt4]) "hi" None tt
    = @provider_complete_stream Demo.externals provider "hi" None tt.
Proof.
  apply (proj2 (@streamed_from_one_provider Demo.externals
                  (MkLLMS [Demo.gpt4]) "hi" None tt)).
  left. discriminate.
Defined.

End CompletionFacts.

(** * More on the benchmark *)

Module RunFacts.
Import Py Providers Collaborators LLMS Benchmark.

(** ** Loops *)

(** A loop that succeeds went through a body that succeeded on every
    element. *)
Lemma for_each_elements {A S} (Q : A -> Prop) (body : S -> A -> result S)
    (l : list A) (acc r : S) :
  (forall s x s', x ∈ l -> body s x = Ok s' -> Q x) ->
  for_each body l acc = Ok r -> Forall Q l.
Proof.
  revert acc. induction l as [|x l IH]; intros acc Hbody Hloop;
    [constructor|].
  cbn [for_each] in Hloop.
  destruct (body acc x) as [acc'|e] eqn:Hstep; [|discriminate Hloop].
  constructor.
  - apply (Hbody acc x acc'); [left | exact Hstep].
  - apply (IH acc'); [|exact Hloop].
    intros s y s' Hy. apply Hbody. right. exact Hy.
Qed.

(** A property of the elements gone through and of the state, carried from
    turn to turn of a loop that succeeds. *)
Lemma for_each_prefix {A S} (P : list A -> S -> Prop)
    (body : S -> A -> result S) (l : list A) (acc r : S) :
  P [] acc ->
  (forall done x s s',
     P done s -> body s x = Ok s' -> P (done ++ [x]) s') ->
  for_each body l acc = Ok r -> P l r.
Proof.
  intros Hstart Hstep.
  assert (Hgeneral : forall rest done s,
            P done s -> for_each body rest s = Ok r -> P (done ++ rest) r).
  { induction rest as [|x rest IH]; intros done s Hdone Hloop.
    - injection Hloop as <-. rewrite app_nil_r. exact Hdone.
    - cbn [for_each] in Hloop.
      destruct (body s x) as [s'|e] eqn:Hbody; [|discriminate Hloop].
      rewrite (cons_middle x done rest), app_assoc.
      apply (IH _ s'); [|exact Hloop].
      apply (Hstep done x s s' Hdone Hbody). }
  apply (Hgeneral l [] acc Hstart).
Qed.


(** ** The prompts of one provider *)

Lemma process_prompt_ok `{Externals} (model : provider) (prompt : string)
    (index : nat) (o : prompt_outcome) :
  process_prompt model prompt index = Ok o <->
  exists reply,
    provider_complete model prompt None no_kwargs = Ok reply /\
    o = OutputData (response_text reply) (raw_tokens (response_meta reply))
          (raw_latency (response_meta reply))
          (raw_cost (response_meta reply)) index.
Proof.
  unfold process_prompt. rewrite PyFacts.bind_ok. split.
  - intros (reply & Hreply & [= <-]). exists reply. split; auto.
  - intros (reply & Hreply & ->). exists reply. split; auto.
Qed.

Lemma outcomes_of_prompts `{Externals} (model m : provider)
    (prompts : list string) (handed_over : list nat)
    (results : list prompt_outcome) :
  process_prompts_sequentially model prompts handed_over = Ok (m, results) <->
  m = model /\
  Forall2 (fun index o =>
             exists prompt reply,
               prompts !! index = Some prompt /\
               provider_complete model prompt None no_kwargs = Ok reply /\
               o = OutputData (response_text reply)
                     (raw_tokens (response_meta reply))
                     (raw_latency (response_meta reply))
                     (raw_cost (response_meta reply)) index)
    handed_over results.
Proof.
  unfold process_prompts_sequentially. rewrite PyFacts.bind_ok. split.
  - intros (results' & Hlist & [= <- <-]). split; [reflexivity|].
    apply PyFacts.comprehension_ok in Hlist.
    eapply Forall2_impl; [exact Hlist|]. intros index o Ho. cbn beta in Ho.
    apply PyFacts.bind_ok in Ho as (prompt & Hprompt & Ho).
    apply BenchmarkFacts.getitem_ok in Hprompt.
    apply process_prompt_ok in Ho as (reply & Hreply & ->).
    exists prompt, reply. auto.
  - intros [-> Hlist]. exists results. split; [|reflexivity].
    apply PyFacts.comprehension_ok.
    eapply Forall2_impl; [exact Hlist|].
    intros index o (prompt & reply & Hprompt & Hreply & ->).
    apply BenchmarkFacts.getitem_ok in Hprompt. rewrite Hprompt.
    cbn [mbind result_bind]. apply process_prompt_ok. exists reply. auto.
Qed.

(** X13. When the futures of the prompts are handed over in any order, each
    once: [process_prompts_sequentially] returns exactly when the adapter
    answers every prompt; it returns the provider and one outcome for each
    prompt, in the order of the handing over; and each outcome carries the
    index of its prompt, with the text, token count, latency and cost of
    the adapter's answer to that very prompt. *)
Theorem outcomes_carry_prompt_index `{Externals} (model : provider)
    (prompts : list string) (handed_over : list nat) :
  handed_over ≡ₚ seq 0 (length prompts) ->
  (is_ok (process_prompts_sequentially model prompts handed_over) = true <->
   Forall (fun prompt =>
             is_ok (provider_complete model prompt None no_kwargs) = true)
     prompts) /\
  (forall m results,
     process_prompts_sequentially model prompts handed_over
     = Ok (m, results) ->
     m = model /\
     prompt_index <$> results = handed_over /\
     length results = length prompts /\
     Forall (fun o =>
               exists prompt reply,
                 prompts !! prompt_index o = Some prompt /\
                 provider_complete model prompt None no_kwargs = Ok reply /\
                 text o = response_text reply /\
                 tokens o = raw_tokens (response_meta reply) /\
                 latency o = raw_latency (response_meta reply) /\
                 cost o = raw_cost (response_meta reply))
       results).
Proof.
  intros Hhanded. split.
  - rewrite PyFacts.is_ok_true. split.
    + intros ([m results] & Hreturned).
      apply outcomes_of_prompts in Hreturned as [_ Hlist].
      apply Forall_lookup_2. intros index prompt Hprompt.
      assert (Hindex : index ∈ handed_over).
      { rewrite Hhanded. apply elem_of_seq.
        apply lookup_lt_Some in Hprompt. lia. }
      apply list_elem_of_lookup in Hindex as [position Hposition].
      destruct (Forall2_lookup_l _ _ _ _ _ Hlist Hposition)
        as (o & _ & prompt' & reply & Hprompt' & Hreply & _).
      rewrite Hprompt in Hprompt'. injection Hprompt' as <-.
      rewrite Hreply. reflexivity.
    + intros Hanswers.
      assert (Htotal : exists results,
                comprehension
                  (fun index =>
                     prompt ← getitem prompts index;
                     process_prompt model prompt index) handed_over
                = Ok results).
      { apply PyFacts.comprehension_total. apply Forall_forall.
        intros index Hindex. rewrite Hhanded in Hindex.
        apply elem_of_seq in Hindex as [_ Hindex].
        destruct (BenchmarkFacts.getitem_lt prompts index)
          as (prompt & Hgetitem & Hprompt); [lia|].
        rewrite Hgetitem. cbn [mbind result_bind].
        pose proof (proj1 (Forall_lookup _ _) Hanswers _ _ Hprompt)
          as Hanswer.
        cbn beta in Hanswer. unfold process_prompt.
        destruct (provider_complete model prompt None no_kwargs);
          [reflexivity | discriminate Hanswer]. }
      destruct Htotal as (results & Hresults).
      exists (model, results). unfold process_prompts_sequentially.
      rewrite Hresults. reflexivity.
  - intros m results Hreturned.
    apply outcomes_of_prompts in Hreturned as [-> Hlist].
    split; [reflexivity|]. split; [|split].
    + clear Hhanded.
      induction Hlist
        as [|index o indices os (prompt & reply & _ & _ & ->) _ IH];
        [reflexivity|].
      cbn [fmap list_fmap prompt_index]. f_equal. exact IH.
    + rewrite <- (Forall2_length _ _ _ Hlist), Hhanded. apply length_seq.
    + clear Hhanded.
      induction Hlist
        as [|index o indices os (prompt & reply & Hprompt & Hreply & ->) _ IH];
        constructor; [|exact IH].
      exists prompt, reply. repeat split; assumption.
Qed.

(** Two prompts handed over last first. *)
Lemma outcomes_carry_prompt_index_witness :
  exists results,
    @process_prompts_sequentially Demo.externals Demo.gpt4 Demo.two_prompts
      [1; 0]%nat = Ok (Demo.gpt4, results) /\
    prompt_index <$> results = [1; 0]%nat.
Proof.
  eexists. split; [reflexivity|].
  refine (proj1 (proj2 (proj2 (@outcomes_carry_prompt_index Demo.externals
                                 Demo.gpt4 Demo.two_prompts [1; 0]%nat _)
                          Demo.gpt4 _ eq_refl))).
  apply perm_swap.
Defined.

(** ** Dicts keyed by provider *)

Lemma setitem_elem {V} (k : provider) (v : V) (d : list (provider * V))
    (entry : provider * V) :
  entry ∈ setitem k v d -> entry = (k, v) \/ entry ∈ d.
Proof.
  induction d as [|[k' v'] d IH]; cbn [setitem].
  - rewrite elem_of_cons, elem_of_nil. tauto.
  - destruct (decide (k = k')) as [<-|Hne]; rewrite !elem_of_cons.
    + intros [->|Hin]; auto.
    + intros [->|Hin]; [auto|]. destruct (IH Hin); auto.
Qed.

Lemma setitem_fst {V} (k : provider) (v : V) (d : list (provider * V)) :
  (setitem k v d).*1 = if decide (k ∈ d.*1) then d.*1 else d.*1 ++ [k].
Proof.
  induction d as [|[k' v'] d IH]; cbn [setitem fmap list_fmap].
  - rewrite decide_False by apply not_elem_of_nil. reflexivity.
  - destruct (decide (k = k')) as [<-|Hne]; cbn [fmap list_fmap fst].
    + rewrite decide_True by left. reflexivity.
    + fold (fmap (M := list) (@fst provider V)). rewrite IH.
      destruct (decide (k ∈ d.*1)) as [Hin|Hout].
      * rewrite decide_True by (right; exact Hin). reflexivity.
      * rewrite decide_False; [reflexivity|].
        rewrite elem_of_cons. tauto.
Qed.

Lemma getitem_dict_elem {V} (d : list (provider * V)) (k : provider)
    (v : V) :
  getitem_dict d k = Ok v -> (k, v) ∈ d.
Proof.
  induction d as [|[k' v'] d IH]; cbn [getitem_dict]; [discriminate|].
  destruct (decide (k = k')) as [<-|Hne].
  - intros [= ->]. left.
  - intros Hrest. right. exact (IH Hrest).
Qed.


Lemma Forall2_sources {A B} (R : A -> B -> Prop) (l : list A) (k : list B) :
  Forall2 R l k -> Forall (fun y => exists x, x ∈ l /\ R x y) k.
Proof.
  induction 1 as [|x y l k Hxy _ IH]; constructor.
  - exists x. split; [left | exact Hxy].
  - eapply Forall_impl; [exact IH|]. intros y' (x' & Hx' & Hy').
    exists x'. split; [right; exact Hx' | exact Hy'].
Qed.

(** ** From the turns to the runs *)

(** The runs collected: one for each provider of the schedule, made of the
    outcomes of one of its turns. *)
Lemma collect_all_turns `{Externals} (prompts : list string)
    (schedule : list (provider * list nat))
    (model_results : list (provider * benchmark_run)) :
  collect_all prompts schedule = Ok model_results ->
  NoDup model_results.*1 /\
  (forall k, k ∈ model_results.*1 <-> k ∈ schedule.*1) /\
  Forall (fun entry =>
            exists handed_over outs,
              (entry.1, handed_over) ∈ schedule /\
              process_prompts_sequentially entry.1 prompts handed_over
              = Ok (entry.1, outs) /\
              entry.2 = collect outs)
    model_results.
Proof.
  unfold collect_all.
  apply (for_each_prefix
           (fun (done : list (provider * list nat))
                (acc : list (provider * benchmark_run)) =>
              NoDup acc.*1 /\
              (forall k, k ∈ acc.*1 <-> k ∈ done.*1) /\
              Forall (fun entry =>
                        exists handed_over outs,
                          (entry.1, handed_over) ∈ done /\
                          process_prompts_sequentially entry.1 prompts
                            handed_over = Ok (entry.1, outs) /\
                          entry.2 = collect outs) acc)).
  - split; [constructor|]. split; [reflexivity | constructor].
  - intros done [model handed_over] acc acc' (Hnodup & Hkeys & Hentries)
      Hstep.
    apply PyFacts.bind_ok in Hstep as ([m outs] & Hturn & [= <-]).
    pose proof (proj1 (outcomes_of_prompts _ _ _ _ _) Hturn) as [-> _].
    split; [|split].
    + rewrite setitem_fst. destruct (decide (model ∈ acc.*1)) as [Hin|Hout];
        [exact Hnodup|].
      apply NoDup_app. split; [exact Hnodup|]. split.
      * intros k Hk Hk'. apply list_elem_of_singleton in Hk' as ->.
        contradiction.
      * apply NoDup_singleton.
    + intros k. rewrite setitem_fst, fmap_app, elem_of_app.
      cbn [fmap list_fmap fst]. rewrite list_elem_of_singleton.
      destruct (decide (model ∈ acc.*1)) as [Hin|Hout].
      * rewrite Hkeys. split; [auto|]. intros [Hk| ->]; [exact Hk|].
        apply Hkeys. exact Hin.
      * rewrite elem_of_app, list_elem_of_singleton, Hkeys. reflexivity.
    + apply Forall_forall. intros entry Hentry.
      apply setitem_elem in Hentry as [->|Hentry].
      * exists handed_over, outs. cbn [fst snd].
        split; [|split; [exact Hturn | reflexivity]].
        apply elem_of_app. right. left.
      * pose proof (proj1 (Forall_forall _ _) Hentries entry Hentry)
          as (handed_over' & outs' & Hin & Hturn' & Hrun).
        exists handed_over', outs'.
        split; [|split; [exact Hturn' | exact Hrun]].
        apply elem_of_app. left. exact Hin.
Qed.

Lemma truediv_int_float_ok (n : Z) (b : float) :
  is_ok (truediv_int_float n b) = true <->
  is_ok (float_of_int n) = true /\ (b =? 0)%float = false.
Proof.
  unfold truediv_int_float, truediv.
  destruct (float_of_int n) as [a|e]; cbn [mbind result_bind is_ok].
  - destruct (b =? 0)%float; cbn [is_ok]; intuition congruence.
  - intuition congruence.
Qed.

(** What [aggregate] needs of a run and what it leaves as it was. *)
Lemma aggregate_inv (run run' : benchmark_run) :
  aggregate run = Ok run' ->
  (outputs run <> [] /\
   (total_latency run =? 0)%float = false /\
   is_ok (float_of_int (sum_int (tokens <$> outputs run))) = true) /\
  outputs run' = outputs run /\
  total_latency run' = total_latency run /\
  is_Some (median_latency run') /\
  is_Some (aggregated_speed run').
Proof.
  unfold aggregate. intros Haggregate.
  apply PyFacts.bind_ok in Haggregate as (m & Hmedian & Haggregate).
  cbn zeta in Haggregate.
  apply PyFacts.bind_ok in Haggregate as (speed & Hspeed & [= <-]).
  cbn [outputs total_latency median_latency aggregated_speed].
  assert (Hdivided : is_ok (truediv_int_float
                              (sum_int (tokens <$> outputs run))
                              (total_latency run)) = true)
    by (rewrite Hspeed; reflexivity).
  apply truediv_int_float_ok in Hdivided as [Hfloat Hzero].
  repeat split; eauto.
  intros Hnil. rewrite Hnil in Hmedian. cbn [fmap list_fmap] in Hmedian.
  rewrite BenchmarkFacts.median_empty in Hmedian. discriminate Hmedian.
Qed.

Lemma evaluate_model_inv `{Externals} (evaluator : LLMS)
    (prompts : list string) (run run' : benchmark_run) :
  evaluate_model evaluator prompts run = Ok run' ->
  outputs run' = outputs run /\ total_latency run' = total_latency run.
Proof.
  unfold evaluate_model. intros Hevaluated.
  apply PyFacts.bind_ok in Hevaluated as (pairs & _ & Hevaluated).
  apply PyFacts.bind_ok in Hevaluated as (evaluation & _ & Hevaluated).
  apply PyFacts.bind_ok in Hevaluated as (stored & _ & [= <-]).
  split; reflexivity.
Qed.

(** What [measure] returns: the ranking is a permutation of the providers
    of the runs, of which there is one for each provider of the schedule,
    with the outcomes of one of its turns and a total that [aggregate]
    took. *)
Lemma measure_inv `{Externals} (prompts : list string)
    (evaluator : option LLMS) (schedule : list (provider * list nat))
    (model_results : list (provider * benchmark_run))
    (sorted_models : list provider) :
  measure prompts evaluator schedule = Ok (model_results, sorted_models) ->
  sorted_models ≡ₚ model_results.*1 /\
  NoDup model_results.*1 /\
  (forall k, k ∈ model_results.*1 <-> k ∈ schedule.*1) /\
  Forall (fun entry =>
            exists handed_over outs,
              (entry.1, handed_over) ∈ schedule /\
              process_prompts_sequentially entry.1 prompts handed_over
              = Ok (entry.1, outs) /\
              outputs entry.2 = outs /\
              total_latency entry.2 = total_latency (collect outs) /\
              is_Some (median_latency entry.2) /\
              outs <> [] /\
              (total_latency (collect outs) =? 0)%float = false /\
              is_ok (float_of_int (sum_int (tokens <$> outs))) = true)
    model_results.
Proof.
  unfold measure. intros Hmeasure.
  apply PyFacts.bind_ok in Hmeasure as (collected & Hcollected & Hmeasure).
  apply PyFacts.bind_ok in Hmeasure as (aggregated & Haggregated & Hmeasure).
  apply collect_all_turns in Hcollected as (Hnodup & Hkeys & Hturns).
  pose proof (BenchmarkFacts.for_each_model_keys _ _ _ Haggregated)
    as Hsame.
  apply BenchmarkFacts.for_each_model_ok, Forall2_sources in Haggregated.
  assert (Hruns : Forall (fun entry =>
            exists handed_over outs,
              (entry.1, handed_over) ∈ schedule /\
              process_prompts_sequentially entry.1 prompts handed_over
              = Ok (entry.1, outs) /\
              outputs entry.2 = outs /\
              total_latency entry.2 = total_latency (collect outs) /\
              is_Some (median_latency entry.2) /\
              outs <> [] /\
              (total_latency (collect outs) =? 0)%float = false /\
              is_ok (float_of_int (sum_int (tokens <$> outs))) = true)
            aggregated).
  { eapply Forall_impl; [exact Haggregated|].
    intros entry (entry0 & Hentry0 & Hkey & Haggregate). cbn beta in *.
    pose proof (proj1 (Forall_forall _ _) Hturns entry0 Hentry0)
      as (handed_over & outs & Hin & Hturn & Hrun).
    apply aggregate_inv in Haggregate
      as ((Hsome & Hzero & Hfloat) & Houtputs & Htotal & Hmedian & _).
    rewrite Hrun in *. cbn [collect outputs] in Houtputs, Hsome, Hfloat.
    rewrite Hkey. exists handed_over, outs. repeat split; assumption. }
  rewrite <- Hsame in Hnodup.
  assert (Hkeys' : forall k, k ∈ aggregated.*1 <-> k ∈ schedule.*1)
    by (intros k; rewrite Hsame; apply Hkeys).
  clear Hkeys Hsame Hturns Haggregated collected.
  destruct evaluator as [evaluator|].
  - apply PyFacts.bind_ok in Hmeasure as (evaluated & Hevaluated & Hmeasure).
    apply PyFacts.bind_ok in Hmeasure as (ranked & Hranked & [= <- <-]).
    pose proof (BenchmarkFacts.for_each_model_keys _ _ _ Hevaluated)
      as Hsame.
    apply BenchmarkFacts.for_each_model_ok, Forall2_sources in Hevaluated.
    apply BenchmarkFacts.rank_descending in Hranked as [Hranked _].
    split; [exact Hranked|]. rewrite Hsame.
    split; [exact Hnodup|]. split; [exact Hkeys'|].
    eapply Forall_impl; [exact Hevaluated|].
    intros entry (entry0 & Hentry0 & Hkey & Hevaluate). cbn beta in *.
    pose proof (proj1 (Forall_forall _ _) Hruns entry0 Hentry0)
      as (handed_over & outs & Hin & Hturn & Houtputs & Htotal & Hmedian
          & Hrest).
    unfold evaluate_model in Hevaluate.
    apply PyFacts.bind_ok in Hevaluate as (pairs & _ & Hevaluate).
    apply PyFacts.bind_ok in Hevaluate as (evaluation & _ & Hevaluate).
    apply PyFacts.bind_ok in Hevaluate as (stored & _ & Hevaluate).
    destruct entry as [k run]. cbn [fst snd] in *.
    injection Hevaluate as <-. subst k.
    exists handed_over, outs. repeat split; try assumption; apply Hrest.
  - apply PyFacts.bind_ok in Hmeasure as (ranked & Hranked & [= <- <-]).
    apply BenchmarkFacts.rank_descending in Hranked as [Hranked _].
    split; [exact Hranked|]. split; [exact Hnodup|].
    split; [exact Hkeys' | exact Hruns].
Qed.

(** ** The rows of one provider *)

Lemma enumerate_snd {A} (l : list A) : (enumerate l).*2 = l.
Proof. unfold enumerate. apply snd_zip. rewrite length_seq. lia. Qed.

Lemma enumerate_length {A} (l : list A) : length (enumerate l) = length l.
Proof. rewrite <- (enumerate_snd l) at 2. symmetry. apply length_fmap. Qed.

Lemma add_row_width (t t' : table) (row : list cell) :
  add_row t row = Ok t' -> length row = length (field_names t).
Proof.
  unfold add_row. destruct (_ =? _)%nat eqn:Hwidth; [|discriminate].
  intros _. apply Nat.eqb_eq. exact Hwidth.
Qed.

(** What the rows of one provider need and what they add to the table. *)
Lemma render_model_inv `{Externals} (scored show_outputs : bool)
    (model_results : list (provider * benchmark_run)) (t t' : table)
    (model : provider) :
  render_model scored show_outputs model_results t model = Ok t' ->
  exists data,
    getitem_dict model_results model = Ok data /\
    field_names t' = field_names t /\
    length (rows t') = (length (rows t) + (length (outputs data) + 1))%nat /\
    (Forall (fun row => length row = length (field_names t)) (rows t) ->
     Forall (fun row => length row = length (field_names t)) (rows t')) /\
    Forall (fun o =>
              (latency o =? 0)%float = false /\
              is_ok (float_of_int (tokens o)) = true) (outputs data).
Proof.
  unfold render_model. intros Hrender.
  destruct (getitem_dict model_results model) as [data|e] eqn:Hdata;
    [|discriminate Hrender].
  exists data. split; [reflexivity|].
  cbn [mbind result_bind] in Hrender.
  match type of Hrender with
  | context [for_each ?body ?l ?acc] =>
      destruct (for_each body l acc) as [[[t1 total_tokens] total_score]|e]
        eqn:Hloop; [|discriminate Hrender]
  end.
  assert (Hdetail :
            field_names t1 = field_names t /\
            length (rows t1)
            = (length (rows t) + length (enumerate (outputs data)))%nat /\
            (Forall (fun row => length row = length (field_names t)) (rows t) ->
             Forall (fun row => length row = length (field_names t))
               (rows t1)) /\
            Forall (fun x : nat * prompt_outcome =>
                      (latency x.2 =? 0)%float = false /\
                      is_ok (float_of_int (tokens x.2)) = true)
              (enumerate (outputs data))).
  { revert Hloop.
    apply (for_each_prefix
             (fun (done : list (nat * prompt_outcome))
                  (state : table * Z * Z) =>
                field_names state.1.1 = field_names t /\
                length (rows state.1.1)
                = (length (rows t) + length done)%nat /\
                (Forall (fun row => length row = length (field_names t))
                   (rows t) ->
                 Forall (fun row => length row = length (field_names t))
                   (rows state.1.1)) /\
                Forall (fun x : nat * prompt_outcome =>
                          (latency x.2 =? 0)%float = false /\
                          is_ok (float_of_int (tokens x.2)) = true) done)).
    - cbn [fst snd length]. rewrite Nat.add_0_r. repeat split; auto.
    - intros done [index output_data] [[t0 tokens0] score0]
        [[t2 tokens2] score2] (Hnames & Hlength & Hwidths & Hdone) Hstep.
      cbn [fst snd] in *.
      apply PyFacts.bind_ok in Hstep as (total_score' & _ & Hstep).
      apply PyFacts.bind_ok in Hstep as (speed & Hspeed & Hstep).
      apply PyFacts.bind_ok in Hstep as (row_data & _ & Hstep).
      apply PyFacts.bind_ok in Hstep as (row_data' & _ & Hstep).
      apply PyFacts.bind_ok in Hstep as (t3 & Hadd & Hstep).
      injection Hstep as -> _ _.
      pose proof (add_row_width _ _ _ Hadd) as Hwidth.
      apply BenchmarkFacts.add_row_rows in Hadd as [Hrows Hnames'].
      rewrite Hrows, Hnames', !length_app. cbn [length].
      split; [exact Hnames|]. split; [lia|]. split.
      + intros Hstart. apply Forall_app. split; [auto|].
        repeat constructor. rewrite Hwidth, Hnames. reflexivity.
      + apply Forall_app. split; [exact Hdone|]. repeat constructor;
          cbn [snd];
          apply (truediv_int_float_ok (tokens output_data)
                   (latency output_data));
          rewrite Hspeed; reflexivity. }
  destruct Hdetail as (Hnames & Hlength & Hwidths & Houtcomes).
  cbn [mbind result_bind] in Hrender.
  destruct (field (median_latency data)) as [median_latency|e];
    [|discriminate Hrender].
  cbn [mbind result_bind] in Hrender.
  destruct (truediv_int_float total_tokens (total_latency data))
    as [speed|e]; [|discriminate Hrender].
  cbn [mbind result_bind] in Hrender.
  pose proof (add_row_width _ _ _ Hrender) as Hwidth.
  apply BenchmarkFacts.add_row_rows in Hrender as [Hrows Hnames'].
  rewrite Hrows, Hnames', length_app, Hlength, enumerate_length.
  cbn [length]. split; [exact Hnames|]. split; [lia|]. split.
  - intros Hstart. apply Forall_app. split; [auto|].
    repeat constructor. rewrite Hwidth, Hnames. reflexivity.
  - rewrite <- (enumerate_snd (outputs data)). apply Forall_fmap.
    exact Houtcomes.
Qed.

(** ** The table *)

Lemma benchmark_table_inv `{Externals} (self : LLMS)
    (prompts : option (list string)) (evaluator : option LLMS)
    (show_outputs : bool) (schedule : list (provider * list nat))
    (t : table) :
  benchmark_table self prompts evaluator show_outputs schedule = Ok t ->
  exists model_results sorted_models,
    measure (effective_prompts prompts) evaluator schedule
    = Ok (model_results, sorted_models) /\
    for_each
      (render_model (bool_decide (is_Some evaluator)) show_outputs
         model_results)
      sorted_models
      (Table (headers_of (bool_decide (is_Some evaluator)) show_outputs) [])
    = Ok t.
Proof.
  unfold benchmark_table. intros Ht.
  apply PyFacts.bind_ok in Ht as ([model_results sorted_models] & Hm & Ht).
  apply PyFacts.bind_ok in Ht as (headers & Hheaders & Ht).
  apply PyFacts.bind_ok in Ht as (headers' & Hheaders' & Ht).
  exists model_results, sorted_models. split; [exact Hm|].
  destruct show_outputs, evaluator as [evaluator|];
    vm_compute in Hheaders; injection Hheaders as <-;
    vm_compute in Hheaders'; injection Hheaders' as <-;
    exact Ht.
Qed.

(** The rows of all providers: what they need of each run, and how many
    they are when every run has [n] outcomes. *)
Lemma render_all_inv `{Externals} (scored show_outputs : bool)
    (model_results : list (provider * benchmark_run))
    (sorted_models : list provider) (t t' : table) (n : nat) :
  for_each (render_model scored show_outputs model_results) sorted_models t
  = Ok t' ->
  Forall (fun model =>
            exists data,
              getitem_dict model_results model = Ok data /\
              Forall (fun o =>
                        (latency o =? 0)%float = false /\
                        is_ok (float_of_int (tokens o)) = true)
                (outputs data))
    sorted_models /\
  field_names t' = field_names t /\
  (Forall (fun row => length row = length (field_names t)) (rows t) ->
   Forall (fun row => length row = length (field_names t)) (rows t')) /\
  (Forall (fun entry => length (outputs entry.2) = n) model_results ->
   length (rows t')
   = (length (rows t) + length sorted_models * (n + 1))%nat).
Proof.
  apply (for_each_prefix
           (fun (done : list provider) (state : table) =>
              Forall (fun model =>
                        exists data,
                          getitem_dict model_results model = Ok data /\
                          Forall (fun o =>
                                    (latency o =? 0)%float = false /\
                                    is_ok (float_of_int (tokens o)) = true)
                            (outputs data)) done /\
              field_names state = field_names t /\
              (Forall (fun row => length row = length (field_names t))
                 (rows t) ->
               Forall (fun row => length row = length (field_names t))
                 (rows state)) /\
              (Forall (fun entry => length (outputs entry.2) = n)
                 model_results ->
               length (rows state)
               = (length (rows t) + length done * (n + 1))%nat))).
  - cbn [length]. repeat split; auto.
  - intros done model t0 t1 (Hdone & Hnames & Hwidths & Hcount) Hstep.
    apply render_model_inv in Hstep
      as (data & Hdata & Hnames' & Hlength & Hwidths' & Houtcomes).
    rewrite Hnames in Hwidths'. split; [|split; [|split]].
    + apply Forall_app. split; [exact Hdone|]. repeat constructor.
      exists data. split; assumption.
    + rewrite Hnames'. exact Hnames.
    + intros Hstart. apply Hwidths', Hwidths, Hstart.
    + intros Hsizes. rewrite Hlength, (Hcount Hsizes), length_app.
      apply getitem_dict_elem in Hdata.
      pose proof (proj1 (Forall_forall _ _) Hsizes _ Hdata) as Hsize.
      cbn [snd] in Hsize. rewrite Hsize. cbn [length]. lia.
Qed.

(** What [benchmark] needs to return a table, with or without evaluator:
    every provider of the schedule has a run, made of the outcomes of one
    of its turns, that is measurable. *)
Lemma benchmark_table_needs `{Externals} (self : LLMS)
    (prompts : option (list string)) (evaluator : option LLMS)
    (show_outputs : bool) (schedule : list (provider * list nat))
    (t : table) :
  benchmark_table self prompts evaluator show_outputs schedule = Ok t ->
  forall model,
    model ∈ schedule.*1 ->
    exists handed_over outs,
      (model, handed_over) ∈ schedule /\
      process_prompts_sequentially model (effective_prompts prompts)
        handed_over = Ok (model, outs) /\
      measurable (collect outs).
Proof.
  intros Ht model Hmodel.
  apply benchmark_table_inv in Ht
    as (model_results & sorted_models & Hmeasure & Hrender).
  apply measure_inv in Hmeasure as (Hranked & Hnodup & Hkeys & Hruns).
  apply (render_all_inv _ _ _ _ _ _ 0%nat) in Hrender as (Hrendered & _).
  apply Hkeys in Hmodel. rewrite <- Hranked in Hmodel.
  pose proof (proj1 (Forall_forall _ _) Hrendered model Hmodel)
    as (data & Hdata & Houtcomes).
  apply getitem_dict_elem in Hdata.
  pose proof (proj1 (Forall_forall _ _) Hruns _ Hdata)
    as (handed_over & outs & Hin & Hturn & Houtputs & Htotal & _ & Hsome
        & Hzero & Hfloat).
  cbn [fst snd] in *. exists handed_over, outs.
  split; [exact Hin|]. split; [exact Hturn|].
  unfold measurable. rewrite Houtputs in Houtcomes.
  cbn [collect outputs]. repeat split; assumption.
Qed.

(** X14. [benchmark] returns only if the adapter of every provider answered
    every prompt, with a latency that is not zero and a token count that
    [float] takes: the speed of each row divides by the latency of that
    row, whatever the total. *)
Theorem zero_latency_reply_fails `{Externals} (self : LLMS)
    (prompts : option (list string)) (evaluator : option LLMS)
    (show_outputs html : bool) (schedule : list (provider * list nat)) :
  well_scheduled self (effective_prompts prompts) schedule ->
  is_ok (benchmark self prompts evaluator show_outputs html schedule)
  = true ->
  forall model prompt,
    model ∈ _providers self -> prompt ∈ effective_prompts prompts ->
    exists reply,
      provider_complete model prompt None no_kwargs = Ok reply /\
      (raw_latency (response_meta reply) =? 0)%float = false /\
      is_ok (float_of_int (raw_tokens (response_meta reply))) = true.
Proof.
  intros [Hproviders Hturns] Hreturned model prompt Hmodel Hprompt.
  apply PyFacts.is_ok_true in Hreturned as (r & Hreturned).
  unfold benchmark in Hreturned.
  apply PyFacts.bind_ok in Hreturned as (t & Ht & _).
  rewrite <- Hproviders in Hmodel.
  destruct (benchmark_table_needs _ _ _ _ _ _ Ht model Hmodel)
    as (handed_over & outs & Hin & Hturn & _ & Houtcomes & _).
  cbn [collect outputs] in Houtcomes.
  pose proof (proj1 (Forall_forall _ _) Hturns _ Hin) as Hhanded.
  cbn [snd] in Hhanded.
  apply outcomes_of_prompts in Hturn as [_ Hlist].
  apply list_elem_of_lookup in Hprompt as [index Hprompt].
  assert (Hindex : index ∈ handed_over).
  { rewrite Hhanded. apply elem_of_seq.
    apply lookup_lt_Some in Hprompt. lia. }
  apply list_elem_of_lookup in Hindex as [position Hposition].
  destruct (Forall2_lookup_l _ _ _ _ _ Hlist Hposition)
    as (o & Ho & prompt' & reply & Hprompt' & Hreply & ->).
  rewrite Hprompt in Hprompt'. injection Hprompt' as <-.
  exists reply. split; [exact Hreply|].
  apply list_elem_of_lookup_2 in Ho.
  exact (proj1 (Forall_forall _ _) Houtcomes _ Ho).
Qed.

(** The sample benchmark of two providers on two prompts returns, and
    every reply has a latency that is not zero. *)
Lemma zero_latency_reply_fails_witness :
  exists reply,
    @provider_complete Demo.externals Demo.gpt4o "p2" None tt = Ok reply /\
    (raw_latency (response_meta reply) =? 0)%float = false /\
    is_ok (float_of_int (raw_tokens (response_meta reply))) = true.
Proof.
  apply (@zero_latency_reply_fails Demo.externals
           (MkLLMS [Demo.gpt4; Demo.gpt4o]) (Some Demo.two_prompts) None
           false false Demo.schedule).
  - split; [reflexivity|]. repeat constructor.
  - vm_compute. reflexivity.
  - cbn [_providers]. rewrite !elem_of_cons. auto.
  - change ("p2"%string ∈ ["p1"; "p2"]%string). rewrite !elem_of_cons. auto.
Defined.



(** ** When the benchmark returns *)








End RunFacts.

(** * The dispatcher and the OpenAI adapter together *)

Module CompositionFacts.
Import Py Providers LLMS.

(** X17. The OpenAI adapters a dispatcher holds are adapters of models of the
    OpenAI table, since the constructor builds no other: for them the
    preparation of the keyword arguments never raises its [KeyError],
    whatever the arguments. *)
Theorem dispatched_adapters_prepare `{Tables} (environ : gmap string string)
    (model : model_arg)
    (openai_api_key anthropic_api_key ai21_api_key : option string)
    (llms : LLMS) :
  __init__ environ model openai_api_key anthropic_api_key ai21_api_key
  = Ok llms ->
  forall provider,
    provider ∈ _providers llms ->
    provider_class provider = OpenAIProvider ->
    has_key (Providers.model provider) OpenAI_MODEL_INFO = true /\
    (forall kwargs, is_ok (OpenAI.prepare_input provider kwargs) = true).
Proof.
  unfold __init__. intros Hbuilt.
  apply PyFacts.bind_ok in Hbuilt as (providers & Hloop & [= <-]).
  cbn [_providers].
  assert (Hknown : Forall (fun provider =>
                             provider_class provider = OpenAIProvider ->
                             has_key (Providers.model provider)
                               OpenAI_MODEL_INFO = true) providers).
  { revert Hloop.
    apply (PyFacts.for_each_invariant
             (fun acc : list provider =>
                Forall (fun provider =>
                          provider_class provider = OpenAIProvider ->
                          has_key (Providers.model provider)
                            OpenAI_MODEL_INFO = true) acc));
      [constructor|].
    intros acc name acc' Hacc _ Hstep.
    apply PyFacts.bind_ok in Hstep as (provider & Hselect & [= <-]).
    apply Forall_app. split; [exact Hacc|]. repeat constructor.
    intros Hclass. revert Hselect. unfold select_provider.
    repeat match goal with
           | |- context [match ?key with Some _ => _ | None => _ end] =>
               destruct key
           | |- context [has_key name ?table] =>
               destruct (has_key name table) eqn:?
           end;
      intros [= <-]; try discriminate Hclass; assumption. }
  intros provider Hprovider Hclass.
  pose proof (proj1 (Forall_forall _ _) Hknown provider Hprovider Hclass)
    as Hkey.
  split; [exact Hkey|]. intros kwargs.
  apply OpenAIFacts.prepare_input_known. exact Hkey.
Qed.

(** A dispatcher made for ["o1"] with a key of the environment. *)
Lemma dispatched_adapters_prepare_witness :
  is_ok (OpenAI.prepare_input Sample.o1
           {[ "max_tokens"%string := OpenAI.VInt 64 ]}) = true.
Proof.
  refine (proj2 (@dispatched_adapters_prepare Demo.tables
                   {[ "OPENAI_API_KEY" := "sk-1" ]}%string
                   (ModelStr "o1") None None None (MkLLMS [Sample.o1])
                   _ Sample.o1 _ eq_refl) _).
  - vm_compute. reflexivity.
  - cbn [_providers]. apply elem_of_cons. left. reflexivity.
Defined.

End CompositionFacts.

(** * The order of ties *)

Module OrderFacts.
Import Py.

(** ** Floats that are no NaN are totally ordered *)

Lemma SFcompare_between (x y z : spec_float) :
  x <> S754_nan -> y <> S754_nan -> z <> S754_nan ->
  SFcompare x y = Some Lt ->
  SFcompare x z = Some Lt \/ SFcompare z y = Some Lt.
Proof.
  intros Hx Hy Hz.
  destruct x as [sx|sx| |sx mx ex]; [| |congruence|];
    (destruct y as [sy|sy| |sy my ey]; [| |congruence|]);
    (destruct z as [sz|sz| |sz mz ez]; [| |congruence|]);
    destruct sx, sy, sz; cbn [SFcompare];
    try (intros [=]; fail); auto;
    repeat match goal with
           | |- context [(?a ?= ?b)%Z] => destruct (Z.compare_spec a b)
           | |- context [Pos.compare_cont Eq ?a ?b] =>
               change (Pos.compare_cont Eq a b) with (Pos.compare a b);
               destruct (Pos.compare_spec a b)
           end;
    cbn [CompOpp]; try (intros [=]; fail); auto; intros _; exfalso; lia.
Qed.

Lemma float_ltb_between (x y z : float) :
  is_nan x = false -> is_nan y = false -> is_nan z = false ->
  (x <? y)%float = true ->
  (x <? z)%float = true \/ (z <? y)%float = true.
Proof.
  intros Hx Hy Hz. rewrite !FloatAxioms.ltb_spec. unfold SFltb.
  pose proof (SFcompare_between (Prim2SF x) (Prim2SF y) (Prim2SF z)
                (PyFacts.is_nan_false x Hx) (PyFacts.is_nan_false y Hy)
                (PyFacts.is_nan_false z Hz)) as Hbetween.
  destruct (SFcompare (Prim2SF x) (Prim2SF y)) as [[| |]|];
    try discriminate.
  intros _. destruct (Hbetween eq_refl) as [-> | ->]; auto.
Qed.

(** ** The sort is stable *)

Section Stable.
Context {A K : Type} (lt : K -> K -> bool) (good : K -> Prop).
Hypothesis lt_asym :
  forall a b, good a -> good b -> lt a b = true -> lt b a = false.
Hypothesis lt_between :
  forall a b c, good a -> good b -> good c ->
    lt a b = true -> lt a c = true \/ lt c b = true.

Lemma lt_irrefl (a : K) : good a -> lt a a = false.
Proof.
  intros Ha. destruct (lt a a) eqn:Hlt; [|reflexivity].
  rewrite (lt_asym a a Ha Ha Hlt) in Hlt. discriminate Hlt.
Qed.

Lemma insort_strongly (x : K * A) (l : list (K * A)) :
  good x.1 -> Forall (fun y => good y.1) l ->
  StronglySorted (not_above lt) l ->
  StronglySorted (not_above lt) (insort lt x l).
Proof.
  intros Hx Hgood Hsorted.
  induction Hsorted as [|y l Hsorted IH Hy]; cbn [insort].
  - repeat constructor.
  - apply Forall_cons in Hgood as [Hgy Hgood].
    destruct (lt x.1 y.1) eqn:Hlt.
    + constructor; [constructor; assumption|].
      constructor; [exact (lt_asym _ _ Hx Hgy Hlt)|].
      apply Forall_forall. intros z Hz.
      pose proof (proj1 (Forall_forall _ _) Hy z Hz) as Hyz.
      pose proof (proj1 (Forall_forall _ _) Hgood z Hz) as Hgz.
      unfold not_above in *.
      destruct (lt z.1 x.1) eqn:Hzx; [|reflexivity].
      destruct (lt_between _ _ y.1 Hgz Hx Hgy Hzx) as [Hzy|Hyx].
      * congruence.
      * rewrite (lt_asym _ _ Hx Hgy Hlt) in Hyx. discriminate Hyx.
    + constructor; [exact (IH Hgood)|].
      rewrite (PyFacts.insort_perm lt x l).
      constructor; [exact Hlt | exact Hy].
Qed.

Lemma filter_none {B} (P : B -> Prop) `{forall x, Decision (P x)}
    (l : list B) :
  Forall (fun x => ~ P x) l -> filter P l = [].
Proof.
  induction 1 as [|x l Hx _ IH]; [reflexivity|].
  rewrite filter_cons_False by exact Hx. exact IH.
Qed.

(** Inserting [x] leaves it behind the elements whose keys tie with
    its key. *)
Lemma insort_filter (k : K) (x : K * A) (l : list (K * A)) :
  good k -> good x.1 -> Forall (fun y => good y.1) l ->
  StronglySorted (not_above lt) l ->
  filter (fun y => tie lt k y.1 = true) (insort lt x l)
  = filter (fun y => tie lt k y.1 = true) l
    ++ filter (fun y => tie lt k y.1 = true) [x].
Proof.
  intros Hk Hx Hgood Hsorted.
  induction Hsorted as [|y l Hsorted IH Hy]; cbn [insort]; [reflexivity|].
  apply Forall_cons in Hgood as [Hgy Hgood].
  destruct (lt x.1 y.1) eqn:Hlt.
  - rewrite (filter_cons _ x (y :: l)), (filter_cons _ x []), filter_nil.
    destruct (decide (tie lt k x.1 = true)) as [Hx_tie|Hx_tie];
      [|rewrite app_nil_r; reflexivity].
    rewrite (filter_none (fun y => tie lt k y.1 = true) (y :: l));
      [reflexivity|].
    apply andb_true_iff in Hx_tie as [Hkx Hxk].
    apply negb_true_iff in Hkx, Hxk.
    assert (Hbelow : forall z : K * A,
              good z.1 -> lt z.1 y.1 = false -> tie lt k z.1 <> true).
    { intros z Hgz Hzy Hz_tie.
      apply andb_true_iff in Hz_tie as [Hkz Hzk].
      apply negb_true_iff in Hkz, Hzk.
      destruct (lt_between _ _ z.1 Hx Hgy Hgz Hlt) as [Hxz|Hzy'];
        [|congruence].
      destruct (lt_between _ _ k Hx Hgz Hk Hxz); congruence. }
    constructor; [apply Hbelow; [exact Hgy | apply lt_irrefl, Hgy]|].
    apply Forall_forall. intros z Hz. apply Hbelow.
    + exact (proj1 (Forall_forall _ _) Hgood z Hz).
    + exact (proj1 (Forall_forall _ _) Hy z Hz).
  - rewrite (filter_cons _ y (insort lt x l)), (filter_cons _ y l),
      (IH Hgood).
    destruct (decide (tie lt k y.1 = true)); reflexivity.
Qed.

Lemma sort_decorated_stable_acc (k : K) (l acc : list (K * A)) :
  good k -> Forall (fun y => good y.1) l -> Forall (fun y => good y.1) acc ->
  StronglySorted (not_above lt) acc ->
  filter (fun y => tie lt k y.1 = true)
    (fold_left (fun acc x => insort lt x acc) l acc)
  = filter (fun y => tie lt k y.1 = true) acc
    ++ filter (fun y => tie lt k y.1 = true) l.
Proof.
  intros Hk Hl. revert acc.
  induction Hl as [|x l Hx Hl IH]; intros acc Hacc Hsorted;
    cbn [fold_left].
  - rewrite filter_nil, app_nil_r. reflexivity.
  - rewrite IH.
    + rewrite (insort_filter k x acc Hk Hx Hacc Hsorted), <- app_assoc.
      rewrite <- filter_app. reflexivity.
    + rewrite (PyFacts.insort_perm lt x acc). constructor; assumption.
    + apply insort_strongly; assumption.
Qed.

(** [sorted], ascending or descending, keeps the elements whose keys tie
    in the order it found them in. *)
Lemma sort_keyed_stable (k : K) (reverse : bool)
    (decorated : list (K * A)) :
  good k -> Forall (fun y => good y.1) decorated ->
  exists arranged,
    sort_keyed lt reverse decorated = arranged.*2 /\
    arranged ≡ₚ decorated /\
    filter (fun y => tie lt k y.1 = true) arranged
    = filter (fun y => tie lt k y.1 = true) decorated.
Proof.
  intros Hk Hgood. unfold sort_keyed.
  destruct reverse; eexists; (split; [reflexivity|]); split.
  - rewrite reverse_Permutation, PyFacts.sort_decorated_perm.
    apply reverse_Permutation.
  - unfold sort_decorated.
    rewrite filter_reverse, sort_decorated_stable_acc;
      [|exact Hk| |constructor|constructor].
    + rewrite filter_nil, app_nil_l, filter_reverse. apply reverse_involutive.
    + apply Forall_reverse. exact Hgood.
  - apply PyFacts.sort_decorated_perm.
  - unfold sort_decorated.
    rewrite sort_decorated_stable_acc;
      [|exact Hk|exact Hgood|constructor|constructor].
    rewrite filter_nil. reflexivity.
Qed.

Lemma decorated_filter (f : K -> bool) (g : A -> bool)
    (arranged : list (K * A)) :
  Forall (fun y => g y.2 = f y.1) arranged ->
  filter (fun x => g x = true) arranged.*2
  = (filter (fun y => f y.1 = true) arranged).*2.
Proof.
  induction 1 as [|y arranged Hy _ IH]; [reflexivity|].
  cbn [fmap list_fmap]. rewrite !filter_cons, Hy.
  destruct (decide (f y.1 = true)); cbn [fmap list_fmap]; rewrite IH;
    reflexivity.
Qed.

(** The same for a key that can raise: the elements whose keys tie with
    [k] stay in their order. *)
Lemma sorted_raising_stable (key : A -> result K) (reverse : bool)
    (l sm : list A) (k : K) :
  sorted_raising lt key reverse l = Ok sm ->
  good k ->
  Forall (fun x => forall k', key x = Ok k' -> good k') l ->
  filter (fun x => match key x with
                   | Ok k' => tie lt k k'
                   | Raise _ => false
                   end = true) sm
  = filter (fun x => match key x with
                     | Ok k' => tie lt k k'
                     | Raise _ => false
                     end = true) l.
Proof.
  unfold sorted_raising. intros Hsorted Hk Hgood.
  apply PyFacts.bind_ok in Hsorted as (keys & Hkeys & [= <-]).
  apply PyFacts.comprehension_ok in Hkeys.
  assert (Hdecorated : Forall (fun y : K * A => key y.2 = Ok y.1)
                         (zip keys l)).
  { clear Hgood. induction Hkeys as [|x k' l keys Hx _ IH];
      constructor; assumption. }
  assert (Hsnd : (zip keys l).*2 = l).
  { apply snd_zip. rewrite (Forall2_length _ _ _ Hkeys). lia. }
  destruct (sort_keyed_stable k reverse (zip keys l) Hk)
    as (arranged & -> & Hperm & Hfilter).
  { rewrite <- Hsnd in Hgood. apply Forall_fmap in Hgood.
    apply Forall_forall. intros y Hy.
    apply (proj1 (Forall_forall _ _) Hgood y Hy).
    exact (proj1 (Forall_forall _ _) Hdecorated y Hy). }
  rewrite (decorated_filter (tie lt k)
             (fun x => match key x with
                       | Ok k' => tie lt k k'
                       | Raise _ => false
                       end) arranged).
  - rewrite Hfilter, <- (decorated_filter (tie lt k)
                           (fun x => match key x with
                                     | Ok k' => tie lt k k'
                                     | Raise _ => false
                                     end) (zip keys l)), Hsnd;
      [reflexivity|].
    eapply Forall_impl; [exact Hdecorated|]. intros y ->. reflexivity.
  - rewrite Hperm. eapply Forall_impl; [exact Hdecorated|].
    intros y ->. reflexivity.
Qed.

Lemma sorted_stable (key : A -> K) (reverse : bool) (l : list A) (k : K) :
  good k -> Forall (fun x => good (key x)) l ->
  filter (fun x => tie lt k (key x) = true) (sorted lt key reverse l)
  = filter (fun x => tie lt k (key x) = true) l.
Proof.
  intros Hk Hgood. unfold sorted.
  assert (Hdecorated : Forall (fun y : K * A => y.1 = key y.2)
                         (zip (key <$> l) l)).
  { clear. induction l as [|x l IH]; constructor; [reflexivity | exact IH]. }
  assert (Hsnd : (zip (key <$> l) l).*2 = l).
  { apply snd_zip. rewrite length_fmap. lia. }
  destruct (sort_keyed_stable k reverse (zip (key <$> l) l) Hk)
    as (arranged & -> & Hperm & Hfilter).
  { rewrite <- Hsnd, Forall_fmap in Hgood.
    apply Forall_forall. intros y Hy.
    rewrite (proj1 (Forall_forall _ _) Hdecorated y Hy).
    exact (proj1 (Forall_forall _ _) Hgood y Hy). }
  rewrite (decorated_filter (tie lt k) (fun x => tie lt k (key x)) arranged).
  - rewrite Hfilter, <- (decorated_filter (tie lt k)
                           (fun x => tie lt k (key x)) (zip (key <$> l) l)),
      Hsnd; [reflexivity|].
    eapply Forall_impl; [exact Hdecorated|]. intros y ->. reflexivity.
  - rewrite Hperm. eapply Forall_impl; [exact Hdecorated|].
    intros y ->. reflexivity.
Qed.

End Stable.

Import Providers LLMS Benchmark.

(** X18. [LLMS.list] lists the models of equal cost in the order of the
    tables: the models of the OpenAI table before those of the AI21 table
    before those of the Anthropic table, and the models of one table in the
    order of that table. Here the cost of a model is the sum the list is
    sorted by, no cost being a NaN; and the list holds the collected
    entries, each as often as it was collected. *)
Theorem listing_keeps_table_order `{Tables} (self : LLMS)
    (query : option string) (c : float) :
  let collected :=
    provider ← [OpenAIProvider; AI21Provider; AnthropicProvider];
    '(model, cost) ← MODEL_INFO provider;
    if skipped query provider model then []
    else [ModelEntry (class_name provider) model cost] in
  (forall f name info,
     (name, info) ∈ MODEL_INFO f ->
     is_nan (prompt info + completion info) = false) ->
  is_nan c = false ->
  list_ self query ≡ₚ collected /\
  filter (fun e => tie PrimFloat.ltb c (unit_cost e) = true)
    (list_ self query)
  = filter (fun e => tie PrimFloat.ltb c (unit_cost e) = true) collected.
Proof.
  intros collected Hcosts Hc. split.
  - exact (proj1 (PyFacts.sorted_spec PrimFloat.ltb PyFacts.float_ltb_asym
                    _ false collected)).
  - apply (sorted_stable PrimFloat.ltb (fun k => is_nan k = false)).
    + intros a b _ _. apply PyFacts.float_ltb_asym.
    + apply float_ltb_between.
    + exact Hc.
    + apply Forall_forall. intros e He.
      apply CatalogFacts.collected_entries in He as (f & Hin & _).
      exact (Hcosts f _ _ Hin).
Qed.

(** The two models of the sample tables that cost 75 together. *)
Lemma listing_keeps_table_order_witness :
  entry_name <$>
    filter (fun e => tie PrimFloat.ltb 75%float (unit_cost e) = true)
      (@list_ Demo.tables (MkLLMS []) None)
  = ["o1-preview"; "o1"]%string.
Proof.
  assert (Hcosts : forall f name info,
            (name, info) ∈ @MODEL_INFO Demo.tables f ->
            is_nan (prompt info + completion info) = false).
  { intros f name info Hin. apply list_elem_of_In in Hin.
    destruct f; cbn in Hin;
      repeat (destruct Hin as [Hin|Hin];
              [injection Hin as <- <-; vm_compute; reflexivity|]);
      destruct Hin. }
  rewrite (proj2 (@listing_keeps_table_order Demo.tables (MkLLMS []) None
                    75%float Hcosts eq_refl)).
  vm_compute. reflexivity.
Defined.

(** X19. Two runs of the same speed are ranked in the order in which they were
    stored, although the ranking is a descending one: among the providers
    whose keys tie, the ranking keeps the order of the runs, no key being a
    NaN. *)
Theorem ranking_keeps_ties (scored : bool)
    (model_results : list (provider * benchmark_run))
    (sorted_models : list provider) (c : float) :
  rank scored model_results = Ok sorted_models ->
  (forall x k,
     x ∈ model_results.*1 ->
     ranking_key scored model_results x = Ok k -> is_nan k = false) ->
  is_nan c = false ->
  filter (fun x => match ranking_key scored model_results x with
                   | Ok k => tie PrimFloat.ltb c k
                   | Raise _ => false
                   end = true) sorted_models
  = filter (fun x => match ranking_key scored model_results x with
                     | Ok k => tie PrimFloat.ltb c k
                     | Raise _ => false
                     end = true) model_results.*1.
Proof.
  unfold rank. intros Hranked Hkeys Hc.
  apply (sorted_raising_stable PrimFloat.ltb (fun k => is_nan k = false))
    with (reverse := true).
  - intros a b _ _. apply PyFacts.float_ltb_asym.
  - apply float_ltb_between.
  - exact Hranked.
  - exact Hc.
  - apply Forall_forall. intros x Hx k. apply Hkeys. exact Hx.
Qed.

(** Two runs of five tokens a second. *)
Lemma ranking_keeps_ties_witness :
  let runs := [ (Demo.gpt4, Demo.steady_run 5 5.0%float None);
                (Demo.gpt4o, Demo.steady_run 5 5.0%float None) ] in
  rank false runs = Ok [Demo.gpt4; Demo.gpt4o] /\
  filter (fun x => match ranking_key false runs x with
                   | Ok k => tie PrimFloat.ltb 5.0%float k
                   | Raise _ => false
                   end = true) [Demo.gpt4; Demo.gpt4o]
  = filter (fun x => match ranking_key false runs x with
                     | Ok k => tie PrimFloat.ltb 5.0%float k
                     | Raise _ => false
                     end = true) runs.*1.
Proof.
  intros runs.
  assert (Hranked : rank false runs = Ok [Demo.gpt4; Demo.gpt4o])
    by (vm_compute; reflexivity).
  split; [exact Hranked|].
  apply (ranking_keeps_ties false runs [Demo.gpt4; Demo.gpt4o] 5.0%float Hranked);
    [|reflexivity].
  intros x k Hx. cbn [fmap list_fmap fst runs] in Hx.
  rewrite !elem_of_cons, elem_of_nil in Hx.
  destruct Hx as [->|[->|[]]]; vm_compute; intros [= <-]; reflexivity.
Defined.

(** X20. Without a query, and with the empty query, the list holds every model
    of the three tables, as many entries as the tables have together. *)
Theorem listing_without_query `{Tables} (self : LLMS) :
  let everything :=
    provider ← [OpenAIProvider; AI21Provider; AnthropicProvider];
    '(model, cost) ← MODEL_INFO provider;
    [ModelEntry (class_name provider) model cost] in
  list_ self (Some EmptyString) = list_ self None /\
  list_ self None ≡ₚ everything /\
  length (list_ self None)
  = (length OpenAI_MODEL_INFO + length AI21_MODEL_INFO
     + length Anthropic_MODEL_INFO)%nat.
Proof.
  intros everything.
  assert (Hlisted : list_ self None ≡ₚ everything)
    by exact (proj1 (PyFacts.sorted_spec PrimFloat.ltb
                       PyFacts.float_ltb_asym _ false everything)).
  split; [reflexivity|]. split; [exact Hlisted|].
  rewrite Hlisted. subst everything.
  assert (Hlength : forall f (table : list (string * model_info)),
            length (table ≫= (fun '(model, cost) =>
                                [ModelEntry (class_name f) model cost]))
            = length table).
  { intros f table. induction table as [|[model cost] table IH];
      [reflexivity|].
    cbn [mbind list_bind app length]. cbn [mbind] in IH. rewrite IH.
    reflexivity. }
  cbn [mbind list_bind]. rewrite !length_app. cbn [length].
  pose proof (Hlength OpenAIProvider (MODEL_INFO OpenAIProvider)) as H1.
  pose proof (Hlength AI21Provider (MODEL_INFO AI21Provider)) as H2.
  pose proof (Hlength AnthropicProvider (MODEL_INFO AnthropicProvider))
    as H3.
  cbn [mbind] in H1, H2, H3. rewrite H1, H2, H3.
  cbn [MODEL_INFO]. lia.
Qed.

End OrderFacts.
